(** * Among Equals: the NPC psychology core

    A shallow embedding of [src/models/{personality,experience,trauma,
    relationships,npc}.py] and [src/utils/action_definitions.py], and the
    properties of the specification proved (or refuted) against it.

    Conventions of the embedding.
    - A Python [float] is idealised as an exact rational ([Q]); equality of
      computed numbers is [Qeq] ([==]), equality of copied values is [=].
      A Python [int] is a [Z].  The theorems state bounds, orders and
      equations that rounding to binary64 leaves true of the code, with an
      equation between computed numbers read up to the rounding of the
      code's own operations; where rounding decides the matter the
      arithmetic of the code is embedded a second time, in binary64
      (module [Binary64]).
    - A mutating method of a class [C] is a function [Py C.t A]: it receives
      the object, returns the object as the call leaves it, and either a
      value or the exception that was raised.  An exception does not roll
      anything back: what was mutated before the [raise] stays mutated.
    - A [dict] read by [from_dict] is a record of [option]s, one field per
      key the code reads; [None] is an absent key.
    - [datetime] and the [:.3f] float formatting come from the Python
      runtime; they are the fields of the class [Runtime]. *)

From Stdlib Require Import QArith Qminmax ZArith List String Bool Lia Lqa.
From Stdlib Require Import Sorted Permutation.
From Stdlib Require PrimFloat.
Import ListNotations.

Open Scope string_scope.
Open Scope Q_scope.

(* ================================================================= *)
(** ** Python runtime: exceptions, stateful calls, numbers *)

Inductive exn : Type :=
| ValueError (msg : string)
| KeyError (key : string)
| TypeError (msg : string)
| IndexError (msg : string).

Inductive result (A : Type) : Type :=
| Ok (a : A)
| Raise (e : exn).

Arguments Ok {A} a.
Arguments Raise {A} e.

(** A method call on an object of type [S] returning an [A]. *)
Definition Py (S A : Type) : Type := S -> S * result A.

Definition ret {S A} (a : A) : Py S A := fun s => (s, Ok a).

Definition bind {S A B} (m : Py S A) (k : A -> Py S B) : Py S B :=
  fun s => match m s with
           | (s', Ok a) => k a s'
           | (s', Raise e) => (s', Raise e)
           end.

Notation "x <- m ;; k" := (bind m (fun x => k))
  (at level 61, m at next level, right associativity).
Notation "m ;;; k" := (bind m (fun _ => k))
  (at level 61, right associativity).

(** [for x in xs: body(x)] where the body mutates the element in place:
    the loop stops at the first exception and leaves the rest untouched. *)
Fixpoint for_each {E} (body : Py E unit) (xs : list E) : list E * result unit :=
  match xs with
  | [] => ([], Ok tt)
  | x :: rest =>
      match body x with
      | (x', Ok _) => let (rest', r) := for_each body rest in (x' :: rest', r)
      | (x', Raise e) => (x' :: rest, Raise e)
      end
  end.

(** [for x in xs: body(x)] where the body mutates the enclosing object. *)
Fixpoint for_in {S X} (xs : list X) (body : X -> Py S unit) : Py S unit :=
  match xs with
  | [] => ret tt
  | x :: rest => body x ;;; for_in rest body
  end.

Definition state_of {S A} (r : S * result A) : S := fst r.
Definition value_of {S A} (r : S * result A) : result A := snd r.

Definition raised {A} (r : result A) : bool :=
  match r with Ok _ => false | Raise _ => true end.

(** Comparisons on floats, as booleans. *)
Definition Qleb (x y : Q) : bool := Qle_bool x y.
Definition Qltb (x y : Q) : bool := negb (Qle_bool y x).

(** Python's two-argument [max] and [min]: the first argument wins ties. *)
Definition py_max (a b : Q) : Q := if Qltb a b then b else a.
Definition py_min (a b : Q) : Q := if Qltb b a then b else a.

(** [name in names] for a list of strings. *)
Definition str_in (name : string) (names : list string) : bool :=
  existsb (String.eqb name) names.

(** A name that starts with two underscores.  Every object inherits
    attributes with such names ([__doc__], [__eq__], ...), and which ones
    depends on the version of Python: the tables of attribute names below
    leave them out, and what the embedding says about [hasattr], [getattr]
    and [setattr] is meant for the other names only. *)
Definition dunder (name : string) : bool := String.prefix "__" name.

(** [d.get(key)] on an insertion-ordered dict kept as an association list. *)
Fixpoint lookup {V} (key : string) (d : list (string * V)) : option V :=
  match d with
  | [] => None
  | (k, v) :: rest => if String.eqb k key then Some v else lookup key rest
  end.

(** [d.get(key, default)] on a dict read as an optional field. *)
Definition get_or {A} (field : option A) (default : A) : A :=
  match field with Some a => a | None => default end.

(** [d[key]]: a missing key raises [KeyError]. *)
Definition get_item {A} (key : string) (field : option A) : result A :=
  match field with Some a => Ok a | None => Raise (KeyError key) end.

(** What the embedding takes from the Python runtime. *)
Class Runtime : Type := {
  datetime : Type;
  isoformat : datetime -> string;
  fromisoformat : string -> option datetime;
  fromisoformat_isoformat : forall t, fromisoformat (isoformat t) = Some t;
  format_3f : Q -> string
}.

(** A runtime in which a [datetime] is its own ISO text. *)
Definition text_runtime : Runtime := {|
  datetime := string;
  isoformat := fun t => t;
  fromisoformat := fun s => Some s;
  fromisoformat_isoformat := fun t => eq_refl;
  format_3f := fun _ => "0.000"
|}.

(** [datetime.fromisoformat(s)]: malformed text raises [ValueError]. *)
Definition parse_datetime `{Runtime} (s : string) : result datetime :=
  match fromisoformat s with
  | Some t => Ok t
  | None => Raise (ValueError "Invalid isoformat string")
  end.

(* ================================================================= *)
(** ** models/personality.py *)

Module PersonalityTraits.

(** The eight dataclass fields, and whatever else [setattr] has put in the
    instance [__dict__]. *)
Record t : Type := {
  greed : Q;
  sociability : Q;
  laziness : Q;
  ambition : Q;
  forgiveness : Q;
  courage : Q;
  analytical : Q;
  impulsiveness : Q;
  instance_attrs : list (string * Q)
}.

(** Names bound in the class body: the methods [hasattr] finds on every
    instance.  The names every object inherits from [object] and from the
    dataclass decorator, all of the form [__x__], are left out: about a call
    with one of those the embedding says nothing. *)
Definition class_attrs : list string :=
  [ "__post_init__"; "generate_random"; "from_archetype"; "get_trait";
    "set_trait"; "get_dominant_traits"; "get_weak_traits";
    "get_personality_summary"; "to_dict"; "from_dict"; "to_json";
    "from_json" ].

Definition field_names : list string :=
  [ "greed"; "sociability"; "laziness"; "ambition"; "forgiveness";
    "courage"; "analytical"; "impulsiveness" ].

Definition field (p : t) (name : string) : option Q :=
  if String.eqb name "greed" then Some (greed p)
  else if String.eqb name "sociability" then Some (sociability p)
  else if String.eqb name "laziness" then Some (laziness p)
  else if String.eqb name "ambition" then Some (ambition p)
  else if String.eqb name "forgiveness" then Some (forgiveness p)
  else if String.eqb name "courage" then Some (courage p)
  else if String.eqb name "analytical" then Some (analytical p)
  else if String.eqb name "impulsiveness" then Some (impulsiveness p)
  else None.

(** What [getattr(self, name)] can yield. *)
Inductive attr : Type :=
| Number (v : Q)
| BoundMethod (name : string).

Definition getattr (p : t) (name : string) : option attr :=
  match field p name with
  | Some v => Some (Number v)
  | None =>
      match lookup name (instance_attrs p) with
      | Some v => Some (Number v)
      | None => if str_in name class_attrs then Some (BoundMethod name) else None
      end
  end.

Definition hasattr (p : t) (name : string) : bool :=
  match getattr p name with Some _ => true | None => false end.

Fixpoint assign (name : string) (v : Q) (d : list (string * Q)) : list (string * Q) :=
  match d with
  | [] => [(name, v)]
  | (k, w) :: rest =>
      if String.eqb k name then (k, v) :: rest else (k, w) :: assign name v rest
  end.

Definition setattr (p : t) (name : string) (v : Q) : t :=
  let 'Build_t g s l a f c an i extra := p in
  if String.eqb name "greed" then Build_t v s l a f c an i extra
  else if String.eqb name "sociability" then Build_t g v l a f c an i extra
  else if String.eqb name "laziness" then Build_t g s v a f c an i extra
  else if String.eqb name "ambition" then Build_t g s l v f c an i extra
  else if String.eqb name "forgiveness" then Build_t g s l a v c an i extra
  else if String.eqb name "courage" then Build_t g s l a f v an i extra
  else if String.eqb name "analytical" then Build_t g s l a f c v i extra
  else if String.eqb name "impulsiveness" then Build_t g s l a f c an v extra
  else Build_t g s l a f c an i (assign name v extra).

Definition in_unit_range (v : Q) : bool := Qleb 0 v && Qleb v 1.

(** The dataclass constructor followed by [__post_init__]. *)
Definition make (g s l a f c an i : Q) : result t :=
  if forallb in_unit_range [g; s; l; a; f; c; an; i]
  then Ok (Build_t g s l a f c an i [])
  else Raise (ValueError "trait must be between 0.0 and 1.0").

(** [PersonalityTraits()]: every trait at its default. *)
Definition default : t := Build_t 0.5 0.5 0.5 0.5 0.5 0.5 0.5 0.5 [].

(** Calling [self.name(...)] needs [name] to still be the method. *)
Definition method (p : t) (name : string) : result unit :=
  match lookup name (instance_attrs p) with
  | Some _ => Raise (TypeError "'float' object is not callable")
  | None => Ok tt
  end.

Definition get_trait (trait_name : string) (p : t) : result attr :=
  match getattr p trait_name with
  | None => Raise (ValueError ("Unknown trait: " ++ trait_name))
  | Some a => Ok a
  end.

Definition set_trait (trait_name : string) (value : Q) : Py t unit :=
  fun p =>
    if negb (hasattr p trait_name)
    then (p, Raise (ValueError ("Unknown trait: " ++ trait_name)))
    else if negb (in_unit_range value)
    then (p, Raise (ValueError "Trait value must be between 0.0 and 1.0"))
    else (setattr p trait_name value, Ok tt).

(** The dict of [to_dict], and the [data] of [from_dict]. *)
Record dict : Type := {
  d_greed : option Q;
  d_sociability : option Q;
  d_laziness : option Q;
  d_ambition : option Q;
  d_forgiveness : option Q;
  d_courage : option Q;
  d_analytical : option Q;
  d_impulsiveness : option Q
}.

Definition to_dict (p : t) : result dict :=
  match method p "to_dict" with
  | Raise e => Raise e
  | Ok _ =>
      Ok {| d_greed := Some (greed p);
            d_sociability := Some (sociability p);
            d_laziness := Some (laziness p);
            d_ambition := Some (ambition p);
            d_forgiveness := Some (forgiveness p);
            d_courage := Some (courage p);
            d_analytical := Some (analytical p);
            d_impulsiveness := Some (impulsiveness p) |}
  end.

(** The constructor called with the entries of [data] as keyword
    arguments: an absent key leaves the field at its default. *)
Definition from_dict (data : dict) : result t :=
  make (get_or (d_greed data) 0.5) (get_or (d_sociability data) 0.5)
       (get_or (d_laziness data) 0.5) (get_or (d_ambition data) 0.5)
       (get_or (d_forgiveness data) 0.5) (get_or (d_courage data) 0.5)
       (get_or (d_analytical data) 0.5) (get_or (d_impulsiveness data) 0.5).

End PersonalityTraits.

(* ================================================================= *)
(** ** utils/action_definitions.py *)

Inductive ActionType : Type :=
| GATHER_FOOD | GATHER_MATERIALS | CRAFT_TOOLS | BUILD_SHELTER
| HELP_RANDOM_NPC | SHARE_RESOURCES | START_CONVERSATION | FORM_ALLIANCE
| VOTE_ON_PROPOSAL | PROPOSE_NEW_RULE | CHALLENGE_LEADERSHIP | SUPPORT_LEADER
| REST | PRACTICE_SKILLS | OBSERVE_OTHERS | DO_NOTHING.

(** [action.value] *)
Definition action_value (action : ActionType) : string :=
  match action with
  | GATHER_FOOD => "gather_food"
  | GATHER_MATERIALS => "gather_materials"
  | CRAFT_TOOLS => "craft_tools"
  | BUILD_SHELTER => "build_shelter"
  | HELP_RANDOM_NPC => "help_random_npc"
  | SHARE_RESOURCES => "share_resources"
  | START_CONVERSATION => "start_conversation"
  | FORM_ALLIANCE => "form_alliance"
  | VOTE_ON_PROPOSAL => "vote_on_proposal"
  | PROPOSE_NEW_RULE => "propose_new_rule"
  | CHALLENGE_LEADERSHIP => "challenge_leadership"
  | SUPPORT_LEADER => "support_leader"
  | REST => "rest"
  | PRACTICE_SKILLS => "practice_skills"
  | OBSERVE_OTHERS => "observe_others"
  | DO_NOTHING => "do_nothing"
  end.

Record Metadata : Type := {
  energy_cost : Q;
  base_success_rate : Q;
  category : string
}.

(** [ACTION_METADATA]; every member of the enum has an entry, so the
    fallback of [get_action_metadata] is never taken. *)
Definition get_action_metadata (action : ActionType) : Metadata :=
  match action with
  | GATHER_FOOD => Build_Metadata 0.3 0.7 "resource"
  | GATHER_MATERIALS => Build_Metadata 0.4 0.8 "resource"
  | CRAFT_TOOLS => Build_Metadata 0.2 0.6 "resource"
  | BUILD_SHELTER => Build_Metadata 0.5 0.5 "resource"
  | HELP_RANDOM_NPC => Build_Metadata 0.2 0.8 "social"
  | SHARE_RESOURCES => Build_Metadata 0.1 0.9 "social"
  | START_CONVERSATION => Build_Metadata 0.1 0.7 "social"
  | FORM_ALLIANCE => Build_Metadata 0.1 0.4 "social"
  | VOTE_ON_PROPOSAL => Build_Metadata 0.05 0.9 "governance"
  | PROPOSE_NEW_RULE => Build_Metadata 0.15 0.3 "governance"
  | CHALLENGE_LEADERSHIP => Build_Metadata 0.3 0.2 "governance"
  | SUPPORT_LEADER => Build_Metadata 0.1 0.8 "governance"
  | REST => Build_Metadata (-0.4) 0.95 "personal"
  | PRACTICE_SKILLS => Build_Metadata 0.2 0.9 "personal"
  | OBSERVE_OTHERS => Build_Metadata 0.05 0.8 "personal"
  | DO_NOTHING => Build_Metadata 0.0 1.0 "personal"
  end.

(* ================================================================= *)
(** ** models/experience.py *)

Module ExperienceLevels.

(** One entry of [experience_history]. *)
Record event : Type := {
  ev_category : string;
  amount_attempted : Q;
  amount_gained : Q;
  ev_source : string;
  ev_success : bool;
  old_level : Q;
  new_level : Q
}.

Record t : Type := {
  leadership : Q;
  negotiation : Q;
  resource_management : Q;
  crafting : Q;
  social_manipulation : Q;
  survival : Q;
  combat : Q;
  experience_history : list event
}.

Definition _get_experience_dict (x : t) : list (string * Q) :=
  [ ("leadership", leadership x);
    ("negotiation", negotiation x);
    ("resource_management", resource_management x);
    ("crafting", crafting x);
    ("social_manipulation", social_manipulation x);
    ("survival", survival x);
    ("combat", combat x) ].

Definition in_unit_range (v : Q) : bool := Qleb 0 v && Qleb v 1.

(** The dataclass constructor followed by [__post_init__]. *)
Definition make (l n r c s sv cb : Q) (history : list event) : result t :=
  if forallb in_unit_range [l; n; r; c; s; sv; cb]
  then Ok (Build_t l n r c s sv cb history)
  else Raise (ValueError "experience must be between 0.0 and 1.0").

(** [ExperienceLevels()] *)
Definition default : t := Build_t 0.0 0.0 0.0 0.0 0.0 0.0 0.0 [].

(** [setattr(self, category, v)] for a category of [_get_experience_dict]. *)
Definition set_level (x : t) (name : string) (v : Q) : t :=
  let 'Build_t l n r c s sv cb h := x in
  if String.eqb name "leadership" then Build_t v n r c s sv cb h
  else if String.eqb name "negotiation" then Build_t l v r c s sv cb h
  else if String.eqb name "resource_management" then Build_t l n v c s sv cb h
  else if String.eqb name "crafting" then Build_t l n r v s sv cb h
  else if String.eqb name "social_manipulation" then Build_t l n r c v sv cb h
  else if String.eqb name "survival" then Build_t l n r c s v cb h
  else if String.eqb name "combat" then Build_t l n r c s sv v h
  else x.

Definition append_history (x : t) (e : event) : t :=
  let 'Build_t l n r c s sv cb h := x in Build_t l n r c s sv cb (h ++ [e]).

Definition significant_threshold : Q := 0.05.

Definition gain_experience (category : string) (amount : Q)
    (source : string) (success : bool) : Py t bool :=
  fun self =>
    match lookup category (_get_experience_dict self) with
    | None => (self, Raise (ValueError ("Unknown experience category: " ++ category)))
    | Some old =>
        if Qltb amount 0
        then (self, Raise (ValueError "Experience amount must be positive"))
        else
          let diminishing_factor := 1.0 - (old * 0.3) in
          let actual_gain := amount * diminishing_factor in
          let new := py_min 1.0 (old + actual_gain) in
          let self1 := set_level self category new in
          let self2 := append_history self1
                         {| ev_category := category;
                            amount_attempted := amount;
                            amount_gained := new - old;
                            ev_source := source;
                            ev_success := success;
                            old_level := old;
                            new_level := new |} in
          (self2, Ok (Qleb significant_threshold (new - old)))
    end.

(** [get_experience(category)] *)
Definition get_experience (category : string) (self : t) : result Q :=
  match lookup category (_get_experience_dict self) with
  | None => Raise (ValueError ("Unknown experience category: " ++ category))
  | Some v => Ok v
  end.

(** [EXPERIENCE_MAPPINGS.get(action, {})], in the order the table lists
    the categories. *)
Definition EXPERIENCE_MAPPINGS (action : ActionType) : list (string * Q) :=
  match action with
  | GATHER_FOOD => [("survival", 0.02); ("resource_management", 0.015)]
  | GATHER_MATERIALS => [("survival", 0.01); ("resource_management", 0.025)]
  | CRAFT_TOOLS => [("crafting", 0.03); ("resource_management", 0.01)]
  | BUILD_SHELTER =>
      [("crafting", 0.025); ("survival", 0.015); ("resource_management", 0.01)]
  | HELP_RANDOM_NPC =>
      [("social_manipulation", 0.01); ("negotiation", 0.01); ("leadership", 0.005)]
  | SHARE_RESOURCES =>
      [("negotiation", 0.01); ("leadership", 0.005); ("resource_management", 0.005)]
  | START_CONVERSATION => [("social_manipulation", 0.015); ("negotiation", 0.01)]
  | FORM_ALLIANCE =>
      [("negotiation", 0.025); ("social_manipulation", 0.015); ("leadership", 0.015)]
  | VOTE_ON_PROPOSAL => [("leadership", 0.005)]
  | PROPOSE_NEW_RULE => [("leadership", 0.03); ("negotiation", 0.015)]
  | CHALLENGE_LEADERSHIP =>
      [("leadership", 0.04); ("combat", 0.01); ("social_manipulation", 0.01)]
  | SUPPORT_LEADER => [("leadership", 0.01); ("negotiation", 0.005)]
  | PRACTICE_SKILLS => [("leadership", 0.01); ("crafting", 0.01); ("survival", 0.01)]
  | OBSERVE_OTHERS => [("social_manipulation", 0.02); ("leadership", 0.005)]
  | REST | DO_NOTHING => []
  end.

(** The second definition of [gain_experience_from_action] in the class body
    (it replaces the first): the dict of category to significance flag. *)
Fixpoint gain_each (mappings : list (string * Q)) (source : string)
    (success : bool) (results : list (string * bool)) : Py t (list (string * bool)) :=
  match mappings with
  | [] => ret results
  | (category, base_amount) :: rest =>
      let success_multiplier := if success then 1.0 else 0.3 in
      let actual_amount := base_amount * success_multiplier in
      if Qltb 0 actual_amount
      then significant <- gain_experience category actual_amount source success ;;
           gain_each rest source success (results ++ [(category, significant)])
      else gain_each rest source success results
  end.

Definition gain_experience_from_action (action : ActionType) (success : bool)
    : Py t (list (string * bool)) :=
  gain_each (EXPERIENCE_MAPPINGS action) ("action_" ++ action_value action) success [].

(** The dict of [to_dict], and the [data] of [from_dict]. *)
Record levels : Type := {
  d_leadership : option Q;
  d_negotiation : option Q;
  d_resource_management : option Q;
  d_crafting : option Q;
  d_social_manipulation : option Q;
  d_survival : option Q;
  d_combat : option Q
}.

Record dict : Type := {
  d_experience_levels : option levels;
  d_experience_history : option (list event)
}.

Definition no_levels : levels := Build_levels None None None None None None None.

Definition to_dict (x : t) : dict :=
  {| d_experience_levels :=
       Some {| d_leadership := Some (leadership x);
               d_negotiation := Some (negotiation x);
               d_resource_management := Some (resource_management x);
               d_crafting := Some (crafting x);
               d_social_manipulation := Some (social_manipulation x);
               d_survival := Some (survival x);
               d_combat := Some (combat x) |};
     d_experience_history := Some (experience_history x) |}.

Definition from_dict (data : dict) : result t :=
  let experience_levels := get_or (d_experience_levels data) no_levels in
  let experience_history := get_or (d_experience_history data) [] in
  match make (get_or (d_leadership experience_levels) 0.0)
             (get_or (d_negotiation experience_levels) 0.0)
             (get_or (d_resource_management experience_levels) 0.0)
             (get_or (d_crafting experience_levels) 0.0)
             (get_or (d_social_manipulation experience_levels) 0.0)
             (get_or (d_survival experience_levels) 0.0)
             (get_or (d_combat experience_levels) 0.0) [] with
  | Raise e => Raise e
  | Ok instance =>
      let 'Build_t l n r c s sv cb _ := instance in
      Ok (Build_t l n r c s sv cb experience_history)
  end.

End ExperienceLevels.

(* ================================================================= *)
(** ** models/trauma.py *)

Module TraumaMemory.
Section WithRuntime.
Context `{Runtime}.

Record t : Type := {
  event_type : string;
  original_impact : Q;
  current_impact : Q;
  age_when_occurred : Z;
  description : string;
  related_npcs : list string;
  healing_activities : list string;
  timestamp : datetime
}.

(** The dataclass constructor followed by [__post_init__]. *)
Definition make (event_type : string) (original_impact current_impact : Q)
    (age_when_occurred : Z) (description : string)
    (related_npcs healing_activities : list string) (timestamp : datetime)
    : result t :=
  if Qltb original_impact 0
  then Raise (ValueError "Original impact cannot be negative")
  else if Qltb current_impact 0
  then Raise (ValueError "Current impact cannot be negative")
  else if Qltb original_impact current_impact
  then Raise (ValueError "Current impact cannot exceed original impact")
  else if (age_when_occurred <? 0)%Z
  then Raise (ValueError "Age when occurred must be non-negative")
  else Ok (Build_t event_type original_impact current_impact age_when_occurred
             description related_npcs healing_activities timestamp).

Definition scar_threshold (self : t) : Q :=
  if Qleb (original_impact self) 0.5 then 0.0
  else if Qleb (original_impact self) 1.0 then original_impact self * 0.1
  else original_impact self * 0.3.

Definition is_fully_healed (self : t) : bool :=
  Qleb (current_impact self) (scar_threshold self).

Definition set_current_impact (self : t) (v : Q) : t :=
  let 'Build_t e o _ a d r h ts := self in Build_t e o v a d r h ts.

Definition log_healing (self : t) (entry : string) : t :=
  let 'Build_t e o c a d r h ts := self in Build_t e o c a d r (h ++ [entry]) ts.

Definition apply_healing (healing_amount : Q) (healing_source : string)
    : Py t unit :=
  fun self =>
    if Qltb healing_amount 0
    then (self, Raise (ValueError "Healing amount must be non-negative"))
    else
      let old_impact := current_impact self in
      let self1 :=
        set_current_impact self
          (py_max (scar_threshold self) (current_impact self - healing_amount)) in
      let actual_healing := old_impact - current_impact self1 in
      if Qltb 0 actual_healing
      then (log_healing self1 (healing_source ++ ":" ++ format_3f actual_healing),
            Ok tt)
      else (self1, Ok tt).

(** The dict of [to_dict], and the [data] of [from_dict]. *)
Record dict : Type := {
  d_event_type : option string;
  d_original_impact : option Q;
  d_current_impact : option Q;
  d_age_when_occurred : option Z;
  d_description : option string;
  d_related_npcs : option (list string);
  d_healing_activities : option (list string);
  d_timestamp : option string
}.

Definition to_dict (self : t) : dict :=
  {| d_event_type := Some (event_type self);
     d_original_impact := Some (original_impact self);
     d_current_impact := Some (current_impact self);
     d_age_when_occurred := Some (age_when_occurred self);
     d_description := Some (description self);
     d_related_npcs := Some (related_npcs self);
     d_healing_activities := Some (healing_activities self);
     d_timestamp := Some (isoformat (timestamp self)) |}.

Definition from_dict (now : datetime) (data : dict) : result t :=
  match parse_datetime (get_or (d_timestamp data) (isoformat now)) with
  | Raise e => Raise e
  | Ok timestamp =>
  match get_item "event_type" (d_event_type data) with
  | Raise e => Raise e
  | Ok event_type =>
  match get_item "original_impact" (d_original_impact data) with
  | Raise e => Raise e
  | Ok original_impact =>
  match get_item "current_impact" (d_current_impact data) with
  | Raise e => Raise e
  | Ok current_impact =>
  match get_item "age_when_occurred" (d_age_when_occurred data) with
  | Raise e => Raise e
  | Ok age_when_occurred =>
  match get_item "description" (d_description data) with
  | Raise e => Raise e
  | Ok description =>
      make event_type original_impact current_impact age_when_occurred
        description (get_or (d_related_npcs data) [])
        (get_or (d_healing_activities data) []) timestamp
  end end end end end end.

End WithRuntime.
End TraumaMemory.

Module TraumaState.
Section WithRuntime.
Context `{Runtime}.

Record t : Type := {
  memories : list TraumaMemory.t;
  healing_progress : list (string * Q);
  last_healing_activity : option string;
  natural_healing_rate : Q
}.

(** [TraumaState()] *)
Definition default : t := Build_t [] [] None 0.001.

Definition set_memories (self : t) (ms : list TraumaMemory.t) : t :=
  let 'Build_t _ hp la rate := self in Build_t ms hp la rate.

(** [for memory in self.memories: body(memory)] *)
Definition for_memories (body : Py TraumaMemory.t unit) : Py t unit :=
  fun self =>
    let (ms, r) := for_each body (memories self) in (set_memories self ms, r).

(** [x or []] for an optional list argument. *)
Definition or_empty {A} (x : option (list A)) : list A :=
  match x with Some l => l | None => [] end.

Definition add_trauma (now : datetime) (event_type : string) (impact : Q)
    (age : Z) (description : string) (related_npcs : option (list string))
    : Py t TraumaMemory.t :=
  fun self =>
    if Qltb impact 0
    then (self, Raise (ValueError "Trauma impact must be non-negative"))
    else if (age <? 0)%Z
    then (self, Raise (ValueError "Age must be non-negative"))
    else
      match TraumaMemory.make event_type impact impact age description
              (or_empty related_npcs) [] now with
      | Raise e => (self, Raise e)
      | Ok memory => (set_memories self (memories self ++ [memory]), Ok memory)
      end.

Definition healing_multiplier (personality_traits : PersonalityTraits.t) : Q :=
  PersonalityTraits.forgiveness personality_traits * 0.5
  + (1.0 - PersonalityTraits.impulsiveness personality_traits) * 0.3
  + PersonalityTraits.analytical personality_traits * 0.2
  + (1.0 - PersonalityTraits.laziness personality_traits) * 0.2.

Definition apply_daily_healing (personality_traits : PersonalityTraits.t)
    (days_passed : Z) : Py t unit :=
  fun self =>
    let daily_healing :=
      natural_healing_rate self * healing_multiplier personality_traits
      * inject_Z days_passed in
    for_memories
      (fun memory =>
         if negb (TraumaMemory.is_fully_healed memory)
         then TraumaMemory.apply_healing daily_healing "natural_healing" memory
         else (memory, Ok tt))
      self.

(** One entry of the [activity_effectiveness] table. *)
Record activity_config : Type := {
  effective_types : list string;
  general_effectiveness : Q
}.

Definition activity_effectiveness : list (string * activity_config) :=
  [ ("prayer", Build_activity_config ["guilt"; "loss_of_purpose"; "moral_failure"] 0.8);
    ("meditation",
      Build_activity_config ["anxiety"; "leadership_failure"; "social_rejection"] 0.9);
    ("socializing",
      Build_activity_config ["social_rejection"; "isolation"; "betrayal"] 0.7);
    ("helping_others",
      Build_activity_config ["guilt"; "selfishness"; "leadership_failure"] 0.8);
    ("crafting",
      Build_activity_config ["depression"; "purposelessness"; "resource_loss"] 0.6);
    ("storytelling", Build_activity_config ["all"] 1.0);
    ("physical_exercise",
      Build_activity_config ["anxiety"; "depression"; "violence"] 0.7) ].

Definition set_last_healing_activity (self : t) (a : option string) : t :=
  let 'Build_t ms hp _ rate := self in Build_t ms hp a rate.

(** The personality modifiers of [apply_activity_healing]; [None] is the
    default argument. *)
Definition personality_modifier (activity : string)
    (personality_traits : option PersonalityTraits.t) (effectiveness : Q) : Q :=
  match personality_traits with
  | None => effectiveness
  | Some traits =>
      if String.eqb activity "socializing"
         && Qltb 0.7 (PersonalityTraits.sociability traits)
      then effectiveness * 1.3
      else if String.eqb activity "meditation"
              && Qltb 0.7 (PersonalityTraits.analytical traits)
      then effectiveness * 1.2
      else if String.eqb activity "helping_others"
              && Qltb 0.7 (PersonalityTraits.forgiveness traits)
      then effectiveness * 1.2
      else effectiveness
  end.

Definition apply_activity_healing (activity : string) (healing_amount : Q)
    (personality_traits : option PersonalityTraits.t) : Py t unit :=
  fun self =>
    if Qltb healing_amount 0
    then (self, Raise (ValueError "Healing amount must be non-negative"))
    else
      let self1 := set_last_healing_activity self (Some activity) in
      let config :=
        get_or (lookup activity activity_effectiveness)
               (Build_activity_config [] 0.5) in
      for_memories
        (fun memory =>
           if negb (TraumaMemory.is_fully_healed memory)
           then
             let base_effectiveness := general_effectiveness config in
             let effectiveness :=
               if str_in "all" (effective_types config)
                  || str_in (TraumaMemory.event_type memory) (effective_types config)
               then base_effectiveness * 1.5
               else base_effectiveness * 0.5 in
             let effectiveness :=
               personality_modifier activity personality_traits effectiveness in
             let adjusted_healing := healing_amount * effectiveness in
             TraumaMemory.apply_healing adjusted_healing ("activity_" ++ activity)
               memory
           else (memory, Ok tt))
        self1.

Definition counter_mappings : list (string * list string) :=
  [ ("betrayal", ["trust_restoration"; "loyalty_demonstrated"]);
    ("leadership_failure", ["leadership_success"; "recognition"]);
    ("social_rejection", ["social_acceptance"; "friendship_formed"]);
    ("resource_loss", ["resource_security"; "abundance_experienced"]);
    ("violence", ["safety_provided"; "protection_received"]);
    ("abandonment", ["loyalty_shown"; "commitment_demonstrated"]) ].

(** [get_trauma_memories_by_type] returns the very objects of
    [self.memories]; healing them heals the entries of the list. *)
Definition apply_counter_experience_healing (counter_event_type : string)
    (positive_impact : Q) (description : string) : Py t unit :=
  fun self =>
    if Qltb positive_impact 0
    then (self, Raise (ValueError "Positive impact must be non-negative"))
    else
      for_in counter_mappings
        (fun entry =>
           let '(trauma_type, counter_types) := entry in
           if str_in counter_event_type counter_types
           then
             for_memories
               (fun memory =>
                  if String.eqb (TraumaMemory.event_type memory) trauma_type
                     && negb (TraumaMemory.is_fully_healed memory)
                  then
                    let healing_amount :=
                      py_min (positive_impact * 0.6)
                             (TraumaMemory.current_impact memory * 0.8) in
                    TraumaMemory.apply_healing healing_amount
                      ("counter_experience_" ++ counter_event_type) memory
                  else (memory, Ok tt))
           else ret tt)
        self.

(** The dict of [to_dict], and the [data] of [from_dict]. *)
Record dict : Type := {
  d_memories : option (list TraumaMemory.dict);
  d_healing_progress : option (list (string * Q));
  d_last_healing_activity : option (option string);
  d_natural_healing_rate : option Q
}.

Definition to_dict (self : t) : dict :=
  {| d_memories := Some (map TraumaMemory.to_dict (memories self));
     d_healing_progress := Some (healing_progress self);
     d_last_healing_activity := Some (last_healing_activity self);
     d_natural_healing_rate := Some (natural_healing_rate self) |}.

(** The loop of [from_dict] that rebuilds and appends each memory. *)
Fixpoint memories_from (now : datetime) (data : list TraumaMemory.dict)
    : result (list TraumaMemory.t) :=
  match data with
  | [] => Ok []
  | memory_data :: rest =>
      match TraumaMemory.from_dict now memory_data with
      | Raise e => Raise e
      | Ok memory =>
          match memories_from now rest with
          | Raise e => Raise e
          | Ok ms => Ok (memory :: ms)
          end
      end
  end.

Definition from_dict (now : datetime) (data : dict) : result t :=
  match memories_from now (get_or (d_memories data) []) with
  | Raise e => Raise e
  | Ok ms =>
      Ok {| memories := ms;
            healing_progress := get_or (d_healing_progress data) [];
            last_healing_activity := get_or (d_last_healing_activity data) None;
            natural_healing_rate := get_or (d_natural_healing_rate data) 0.001 |}
  end.

End WithRuntime.
End TraumaState.

(* ================================================================= *)
(** ** models/relationships.py *)

Module RelationshipDimensions.
Section WithRuntime.
Context `{Runtime}.

(** One entry of [relationship_history]. *)
Record change : Type := {
  ch_dimension : string;
  old_value : Q;
  new_value : Q;
  ch_change : Q;
  ch_reason : string;
  ch_timestamp : string
}.

Record t : Type := {
  trust : Q;
  respect : Q;
  affection : Q;
  dependency : Q;
  fear : Q;
  relationship_history : list change
}.

Definition in_unit_range (v : Q) : bool := Qleb 0 v && Qleb v 1.

(** The dataclass constructor followed by [__post_init__]. *)
Definition make (trust respect affection dependency fear : Q)
    (relationship_history : list change) : result t :=
  if forallb in_unit_range [trust; respect; affection; dependency; fear]
  then Ok (Build_t trust respect affection dependency fear relationship_history)
  else Raise (ValueError "dimension must be between 0.0 and 1.0").

(** [RelationshipDimensions()] *)
Definition default : t := Build_t 0.5 0.5 0.5 0.0 0.0 [].

Definition get_overall_sentiment (self : t) : Q :=
  let positive := (trust self + respect self + affection self) / 3.0 in
  let negative := fear self in
  let sentiment := (positive * 2 - 1.0) - negative in
  py_max (-1.0) (py_min 1.0 sentiment).

Definition get_closeness (self : t) : Q :=
  let base_closeness := (affection self + trust self + dependency self) / 3.0 in
  let fear_penalty := fear self * 0.5 in
  py_max 0.0 (base_closeness - fear_penalty).

Definition get_influence_potential (self : t) : Q :=
  let positive_influence := (respect self + trust self) / 2.0 in
  let fear_influence := fear self * 0.8 in
  py_max positive_influence fear_influence.

Definition get_relationship_type (self : t) : string :=
  let sentiment := get_overall_sentiment self in
  let closeness := get_closeness self in
  if Qltb 0.7 (fear self)
  then (if Qltb sentiment (-0.3) then "feared enemy" else "feared authority")
  else if Qltb 0.6 sentiment && Qltb 0.7 closeness
  then (if Qltb 0.8 (affection self) then "close friend" else "trusted ally")
  else if Qltb 0.3 sentiment && Qltb 0.5 closeness then "friend"
  else if Qltb 0.0 sentiment then "acquaintance"
  else if Qltb (-0.3) sentiment then "neutral"
  else if Qltb (-0.6) sentiment then "disliked"
  else "enemy".

(** The attributes [hasattr] finds besides the five dimensions: the history
    list and the names bound in the class body.  The names every object
    inherits, which start with two underscores, are left out. *)
Definition other_attrs : list string :=
  [ "relationship_history"; "__post_init__"; "get_overall_sentiment";
    "get_closeness"; "get_influence_potential"; "get_relationship_type";
    "update_dimension"; "apply_relationship_event"; "get_recent_changes";
    "to_dict"; "from_dict" ].

Definition dimension_value (self : t) (dimension : string) : option Q :=
  if String.eqb dimension "trust" then Some (trust self)
  else if String.eqb dimension "respect" then Some (respect self)
  else if String.eqb dimension "affection" then Some (affection self)
  else if String.eqb dimension "dependency" then Some (dependency self)
  else if String.eqb dimension "fear" then Some (fear self)
  else None.

Definition hasattr (self : t) (name : string) : bool :=
  match dimension_value self name with
  | Some _ => true
  | None => str_in name other_attrs
  end.

Definition set_dimension (self : t) (dimension : string) (v : Q) : t :=
  let 'Build_t tr re af de fe h := self in
  if String.eqb dimension "trust" then Build_t v re af de fe h
  else if String.eqb dimension "respect" then Build_t tr v af de fe h
  else if String.eqb dimension "affection" then Build_t tr re v de fe h
  else if String.eqb dimension "dependency" then Build_t tr re af v fe h
  else if String.eqb dimension "fear" then Build_t tr re af de v h
  else self.

Definition append_history (self : t) (c : change) : t :=
  let 'Build_t tr re af de fe h := self in Build_t tr re af de fe (h ++ [c]).

Definition update_dimension (now : datetime) (dimension : string) (change : Q)
    (reason : string) (closeness_multiplier : bool) : Py t unit :=
  fun self =>
    if negb (hasattr self dimension)
    then (self, Raise (ValueError ("Unknown relationship dimension: " ++ dimension)))
    else
      let adjusted_change :=
        if closeness_multiplier
        then change * (1.0 + get_closeness self)
        else change in
      match dimension_value self dimension with
      | None =>
          (* the attribute is the history list or a method: it has no [+] *)
          (self, Raise (TypeError "unsupported operand type(s) for +"))
      | Some current_value =>
          let new := py_max 0.0 (py_min 1.0 (current_value + adjusted_change)) in
          let self1 := set_dimension self dimension new in
          (append_history self1
             {| ch_dimension := dimension;
                old_value := current_value;
                new_value := new;
                ch_change := adjusted_change;
                ch_reason := reason;
                ch_timestamp := isoformat now |},
           Ok tt)
      end.

Definition relationship_events : list (string * list (string * Q)) :=
  [ ("helped_in_crisis",
      [("trust", 0.15); ("respect", 0.1); ("affection", 0.1); ("dependency", 0.05)]);
    ("betrayed_trust",
      [("trust", -0.4); ("respect", -0.2); ("affection", -0.3); ("fear", 0.1)]);
    ("shared_resources",
      [("trust", 0.08); ("affection", 0.06); ("dependency", 0.03)]);
    ("competed_for_leadership",
      [("respect", 0.05); ("fear", 0.03); ("trust", -0.05)]);
    ("saved_from_danger",
      [("trust", 0.25); ("respect", 0.2); ("affection", 0.2); ("dependency", 0.15)]);
    ("public_humiliation",
      [("respect", -0.3); ("affection", -0.2); ("fear", 0.1)]);
    ("kept_secret", [("trust", 0.2); ("affection", 0.1)]);
    ("broke_promise",
      [("trust", -0.25); ("respect", -0.1); ("affection", -0.15)]);
    ("showed_vulnerability",
      [("affection", 0.1); ("trust", 0.05); ("fear", -0.05)]);
    ("demonstrated_competence", [("respect", 0.15); ("trust", 0.05)]) ].

(** The loop over the bundle of an event; [clock k] is what
    [datetime.now()] returns in the [k]-th update of the call. *)
Fixpoint apply_changes (clock : nat -> datetime) (k : nat)
    (changes : list (string * Q)) (scale : Q -> Q) (reason : string)
    : Py t unit :=
  match changes with
  | [] => ret tt
  | (dimension, base_change) :: rest =>
      update_dimension (clock k) dimension (scale base_change) reason true ;;;
      apply_changes clock (S k) rest scale reason
  end.

Definition apply_relationship_event (clock : nat -> datetime)
    (event_type : string) (impact_strength : Q) : Py t unit :=
  fun self =>
    match lookup event_type relationship_events with
    | None => (self, Raise (ValueError ("Unknown event type: " ++ event_type)))
    | Some changes =>
        apply_changes clock 0 changes
          (fun base_change => base_change * impact_strength) event_type self
    end.

(** The dict of [to_dict], and the [data] of [from_dict]. *)
Record dict : Type := {
  d_trust : option Q;
  d_respect : option Q;
  d_affection : option Q;
  d_dependency : option Q;
  d_fear : option Q;
  d_relationship_history : option (list change)
}.

Definition to_dict (self : t) : dict :=
  {| d_trust := Some (trust self);
     d_respect := Some (respect self);
     d_affection := Some (affection self);
     d_dependency := Some (dependency self);
     d_fear := Some (fear self);
     d_relationship_history := Some (relationship_history self) |}.

Definition from_dict (data : dict) : result t :=
  make (get_or (d_trust data) 0.5) (get_or (d_respect data) 0.5)
       (get_or (d_affection data) 0.5) (get_or (d_dependency data) 0.0)
       (get_or (d_fear data) 0.0) (get_or (d_relationship_history data) []).

End WithRuntime.
End RelationshipDimensions.

Module RelationshipMatrix.
Section WithRuntime.
Context `{Runtime}.

(** [relationships] is a dict; an association list keeps its insertion
    order. *)
Record t : Type := {
  relationships : list (string * RelationshipDimensions.t)
}.

(** [RelationshipMatrix()] *)
Definition default : t := Build_t [].

(** [d[key] = v]: an existing key keeps its place, a new one goes last. *)
Fixpoint assign {V} (key : string) (v : V) (d : list (string * V))
    : list (string * V) :=
  match d with
  | [] => [(key, v)]
  | (k, w) :: rest =>
      if String.eqb k key then (k, v) :: rest else (k, w) :: assign key v rest
  end.

Definition get_relationship (target_npc_id : string)
    : Py t RelationshipDimensions.t :=
  fun self =>
    match lookup target_npc_id (relationships self) with
    | Some rel => (self, Ok rel)
    | None =>
        (Build_t (assign target_npc_id RelationshipDimensions.default
                    (relationships self)),
         Ok RelationshipDimensions.default)
    end.

(** A method called on the object that [get_relationship] returns mutates
    the entry of the dict. *)
Definition on_relationship {A} (target_npc_id : string)
    (call : Py RelationshipDimensions.t A) : Py t A :=
  relationship <- get_relationship target_npc_id ;;
  fun self =>
    let (relationship', r) := call relationship in
    (Build_t (assign target_npc_id relationship' (relationships self)), r).

Definition update_relationship (now : datetime) (target_npc_id dimension : string)
    (change : Q) (reason : string) : Py t unit :=
  on_relationship target_npc_id
    (RelationshipDimensions.update_dimension now dimension change reason true).

Definition apply_relationship_event (clock : nat -> datetime)
    (target_npc_id event_type : string) (impact_strength : Q) : Py t unit :=
  on_relationship target_npc_id
    (RelationshipDimensions.apply_relationship_event clock event_type
       impact_strength).

Definition sum_Q (xs : list Q) : Q := fold_left Qplus xs 0.

Definition len {A} (xs : list A) : Q := inject_Z (Z.of_nat (List.length xs)).

Definition calculate_social_isolation (self : t) : Q :=
  match relationships self with
  | [] => 1.0
  | _ =>
      let rels := map snd (relationships self) in
      let total_closeness :=
        fold_left (fun acc rel => acc + RelationshipDimensions.get_closeness rel)
          rels 0.0 in
      let positive_relationships :=
        fold_left
          (fun acc rel =>
             if Qltb 0.0 (RelationshipDimensions.get_overall_sentiment rel)
             then (acc + 1)%Z else acc)
          rels 0%Z in
      let average_closeness := total_closeness / len rels in
      let positive_ratio := inject_Z positive_relationships / len rels in
      let social_connection := (average_closeness + positive_ratio) / 2.0 in
      1.0 - social_connection
  end.

Definition calculate_social_influence (self : t) : Q :=
  match relationships self with
  | [] => 0.0
  | _ =>
      let rels := map snd (relationships self) in
      let total_influence :=
        sum_Q (map RelationshipDimensions.get_influence_potential rels) in
      let average_influence := total_influence / len rels in
      let relationship_bonus := py_min 1.0 (len rels / 20.0) in
      py_min 1.0 (average_influence * (1.0 + relationship_bonus))
  end.

Definition dict : Type := list (string * RelationshipDimensions.dict).

Definition to_dict (self : t) : dict :=
  map (fun entry => (fst entry, RelationshipDimensions.to_dict (snd entry)))
      (relationships self).

(** The loop of [from_dict] over [data.items()]. *)
Fixpoint from_items (data : dict) (acc : list (string * RelationshipDimensions.t))
    : result t :=
  match data with
  | [] => Ok (Build_t acc)
  | (npc_id, rel_data) :: rest =>
      match RelationshipDimensions.from_dict rel_data with
      | Raise e => Raise e
      | Ok rel => from_items rest (assign npc_id rel acc)
      end
  end.

Definition from_dict (data : dict) : result t := from_items data [].

End WithRuntime.
End RelationshipMatrix.

(* ================================================================= *)
(** ** models/npc.py *)

Module NPCState.
Section WithRuntime.
Context `{Runtime}.

Record t : Type := {
  npc_id : string;
  name : string;
  age : Z;
  health : Q;
  hunger_level : Q;
  energy_level : Q;
  personality : PersonalityTraits.t;
  experience : ExperienceLevels.t;
  trauma : TraumaState.t;
  relationships : RelationshipMatrix.t;
  last_action : option string;
  last_action_success : option bool;
  days_alive : Z;
  creation_timestamp : datetime
}.

Definition in_unit_range (v : Q) : bool := Qleb 0 v && Qleb v 1.

(** The dataclass constructor followed by [__post_init__]. *)
Definition make (npc_id name : string) (age : Z) (health hunger_level energy_level : Q)
    (personality : PersonalityTraits.t) (experience : ExperienceLevels.t)
    (trauma : TraumaState.t) (relationships : RelationshipMatrix.t)
    (last_action : option string) (last_action_success : option bool)
    (days_alive : Z) (creation_timestamp : datetime) : result t :=
  if (age <? 0)%Z then Raise (ValueError "Age cannot be negative")
  else if negb (forallb in_unit_range [health; hunger_level; energy_level])
  then Raise (ValueError "physical stat must be between 0.0 and 1.0")
  else
    Ok (Build_t npc_id
          (if String.eqb name "" then "NPC_" ++ npc_id else name)
          age health hunger_level energy_level personality experience trauma
          relationships last_action last_action_success days_alive
          creation_timestamp).

(** [NPCState(npc_id=...)]: every other field at its default. *)
Definition default (now : datetime) (npc_id : string) : result t :=
  make npc_id "" 25 0.8 0.5 0.7 PersonalityTraits.default
    ExperienceLevels.default TraumaState.default RelationshipMatrix.default
    None None 0 now.

Definition clamp01 (v : Q) : Q := py_max 0.0 (py_min 1.0 v).

Definition update_physical_state (health_change hunger_change energy_change : Q)
    : Py t unit :=
  fun self =>
    let 'Build_t i n a h hu e p x tr r la las d ts := self in
    (Build_t i n a (clamp01 (h + health_change)) (clamp01 (hu + hunger_change))
       (clamp01 (e + energy_change)) p x tr r la las d ts,
     Ok tt).

(** The [trauma_data] dict of [_process_traumatic_event]. *)
Record trauma_data : Type := {
  td_type : option string;
  td_impact : option Q;
  td_description : option string;
  td_related_npcs : option (list string)
}.

(** The [outcome_data] dict of [perform_action]. *)
Record outcome_data : Type := {
  food_gained : option Q;
  target_npc : option string;
  traumatic_event : option trauma_data
}.

(** [outcome_data or {}] *)
Definition no_outcome : outcome_data := Build_outcome_data None None None.

Definition set_last_action (self : t) (action : option string)
    (success : option bool) : t :=
  let 'Build_t i n a h hu e p x tr r _ _ d ts := self in
  Build_t i n a h hu e p x tr r action success d ts.

(** Calls on the sub-objects the NPC owns. *)
Definition on_experience {A} (call : Py ExperienceLevels.t A) : Py t A :=
  fun self =>
    let 'Build_t i n a h hu e p x tr r la las d ts := self in
    let (x', res) := call x in
    (Build_t i n a h hu e p x' tr r la las d ts, res).

Definition on_trauma {A} (call : Py TraumaState.t A) : Py t A :=
  fun self =>
    let 'Build_t i n a h hu e p x tr r la las d ts := self in
    let (tr', res) := call tr in
    (Build_t i n a h hu e p x tr' r la las d ts, res).

Definition on_relationships {A} (call : Py RelationshipMatrix.t A) : Py t A :=
  fun self =>
    let 'Build_t i n a h hu e p x tr r la las d ts := self in
    let (r', res) := call r in
    (Build_t i n a h hu e p x tr r' la las d ts, res).

Definition _apply_action_physical_effects (action : ActionType) (success : bool)
    (outcome : outcome_data) : Py t unit :=
  let metadata := get_action_metadata action in
  let energy_cost := energy_cost metadata in
  update_physical_state 0.0 0.0 (- energy_cost) ;;;
  match action with
  | GATHER_FOOD =>
      if success
      then update_physical_state 0.0 (- get_or (food_gained outcome) 0.1) 0.0
      else ret tt
  | REST =>
      fun self =>
        let energy_restoration := if success then 0.4 else 0.2 in
        let health_restoration := if Qltb (health self) 0.8 then 0.1 else 0.0 in
        update_physical_state health_restoration 0.0 energy_restoration self
  | BUILD_SHELTER | CRAFT_TOOLS =>
      if success then update_physical_state 0.02 0.0 0.0 else ret tt
  | _ => ret tt
  end.

(** [clock k] is what [datetime.now()] returns in the [k]-th relationship
    update of the call. *)
Definition _apply_action_relationship_effects (clock : nat -> datetime)
    (action : ActionType) (success : bool) (outcome : outcome_data)
    : Py t unit :=
  match target_npc outcome with
  | None => ret tt
  | Some target =>
      if String.eqb target "" then ret tt
      else
        match action, success with
        | HELP_RANDOM_NPC, true =>
            on_relationships
              (RelationshipMatrix.apply_relationship_event clock target
                 "helped_in_crisis" 1.0)
        | SHARE_RESOURCES, true =>
            on_relationships
              (RelationshipMatrix.apply_relationship_event clock target
                 "shared_resources" 1.0)
        | FORM_ALLIANCE, true =>
            on_relationships
              (RelationshipMatrix.update_relationship (clock 0%nat) target "trust"
                 0.1 "formed_alliance") ;;;
            on_relationships
              (RelationshipMatrix.update_relationship (clock 1%nat) target "respect"
                 0.05 "formed_alliance")
        | START_CONVERSATION, true =>
            on_relationships
              (RelationshipMatrix.update_relationship (clock 0%nat) target
                 "affection" 0.05 "conversation")
        | _, _ => ret tt
        end
  end.

Definition _process_traumatic_event (now : datetime) (data : trauma_data)
    : Py t unit :=
  fun self =>
    let trauma_type := get_or (td_type data) "generic" in
    let impact := get_or (td_impact data) 0.5 in
    let description :=
      get_or (td_description data) ("Experienced " ++ trauma_type) in
    let related_npcs := get_or (td_related_npcs data) [] in
    (on_trauma
       (TraumaState.add_trauma now trauma_type impact (age self) description
          (Some related_npcs)) ;;;
     ret tt) self.

(** [clock] serves the relationship updates, [now] the creation of the
    trauma memory. *)
Definition perform_action (clock : nat -> datetime) (now : datetime)
    (action : ActionType) (success : bool) (outcome : option outcome_data)
    : Py t (list (string * bool)) :=
  fun self =>
    let self1 := set_last_action self (Some (action_value action)) (Some success) in
    let outcome := get_or outcome no_outcome in
    (experience_results <-
       on_experience (ExperienceLevels.gain_experience_from_action action success) ;;
     _apply_action_physical_effects action success outcome ;;;
     match target_npc outcome with
     | Some _ => _apply_action_relationship_effects clock action success outcome
     | None => ret tt
     end ;;;
     match traumatic_event outcome with
     | Some data => _process_traumatic_event now data
     | None => ret tt
     end ;;;
     ret experience_results) self1.

Definition interaction_effects
    : list (string * list (string * list (string * Q))) :=
  [ ("casual_conversation",
      [ ("success", [("affection", 0.05); ("trust", 0.02)]);
        ("failure", [("affection", -0.02)]) ]);
    ("help_request",
      [ ("success", [("trust", 0.1); ("dependency", 0.05); ("affection", 0.08)]);
        ("failure", [("trust", -0.05); ("respect", -0.03)]) ]);
    ("resource_sharing",
      [ ("success", [("trust", 0.08); ("affection", 0.06); ("dependency", 0.03)]);
        ("failure", [("trust", -0.1); ("affection", -0.05)]) ]);
    ("conflict",
      [ ("success", [("fear", 0.1); ("respect", 0.05); ("affection", -0.1)]);
        ("failure", [("fear", -0.05); ("respect", -0.1); ("trust", -0.05)]) ]);
    ("betrayal",
      [ ("success",
          [("trust", -0.4); ("affection", -0.3); ("fear", 0.2); ("respect", -0.2)]) ])
  ].

(** What [interact_with_npc] returns: the error payload or the report. *)
Inductive interaction_result : Type :=
| ErrorPayload (error : string)
| Report (interaction_type outcome : string)
         (relationship_changes : list (string * Q))
         (new_relationship_type : string).

Fixpoint apply_effects (clock : nat -> datetime) (k : nat) (target : string)
    (effects : list (string * Q)) (reason : string) : Py t unit :=
  match effects with
  | [] => ret tt
  | (dimension, change) :: rest =>
      on_relationships
        (RelationshipMatrix.update_relationship (clock k) target dimension change
           reason) ;;;
      apply_effects clock (S k) target rest reason
  end.

Definition interact_with_npc (clock : nat -> datetime) (now : datetime)
    (target_npc_id interaction_type outcome : string)
    : Py t interaction_result :=
  match lookup interaction_type interaction_effects with
  | None => ret (ErrorPayload ("Unknown interaction type: " ++ interaction_type))
  | Some by_outcome =>
      let effects := get_or (lookup outcome by_outcome) [] in
      apply_effects clock 0 target_npc_id effects
        (interaction_type ++ "_" ++ outcome) ;;;
      (if String.eqb interaction_type "betrayal" && String.eqb outcome "success"
       then _process_traumatic_event now
              {| td_type := Some "betrayal";
                 td_impact := Some 0.6;
                 td_description := Some ("Betrayed by " ++ target_npc_id);
                 td_related_npcs := Some [target_npc_id] |}
       else ret tt) ;;;
      relationship <-
        on_relationships (RelationshipMatrix.get_relationship target_npc_id) ;;
      ret (Report interaction_type outcome effects
             (RelationshipDimensions.get_relationship_type relationship))
  end.

(** The dict of [to_dict], and the [data] of [from_dict]. *)
Record dict : Type := {
  d_npc_id : option string;
  d_name : option string;
  d_age : option Z;
  d_health : option Q;
  d_hunger_level : option Q;
  d_energy_level : option Q;
  d_personality : option PersonalityTraits.dict;
  d_experience : option ExperienceLevels.dict;
  d_trauma : option TraumaState.dict;
  d_relationships : option RelationshipMatrix.dict;
  d_last_action : option (option string);
  d_last_action_success : option (option bool);
  d_days_alive : option Z;
  d_creation_timestamp : option string
}.

Definition to_dict (self : t) : result dict :=
  match PersonalityTraits.to_dict (personality self) with
  | Raise e => Raise e
  | Ok personality_dict =>
      Ok {| d_npc_id := Some (npc_id self);
            d_name := Some (name self);
            d_age := Some (age self);
            d_health := Some (health self);
            d_hunger_level := Some (hunger_level self);
            d_energy_level := Some (energy_level self);
            d_personality := Some personality_dict;
            d_experience := Some (ExperienceLevels.to_dict (experience self));
            d_trauma := Some (TraumaState.to_dict (trauma self));
            d_relationships :=
              Some (RelationshipMatrix.to_dict (relationships self));
            d_last_action := Some (last_action self);
            d_last_action_success := Some (last_action_success self);
            d_days_alive := Some (days_alive self);
            d_creation_timestamp := Some (isoformat (creation_timestamp self)) |}
  end.

(** [x = from_dict(data[key])] when [key] is in [data], else [x] stays. *)
Definition rebuilt {D A} (field : option D) (from : D -> result A) (current : A)
    : result A :=
  match field with
  | None => Ok current
  | Some d => from d
  end.

(** [now] is what [datetime.now()] returns during the call. *)
Definition from_dict (now : datetime) (data : dict) : result t :=
  match get_item "npc_id" (d_npc_id data) with
  | Raise e => Raise e
  | Ok npc_id =>
  match parse_datetime (get_or (d_creation_timestamp data) (isoformat now)) with
  | Raise e => Raise e
  | Ok creation_timestamp =>
  match make npc_id (get_or (d_name data) "") (get_or (d_age data) 25%Z)
          (get_or (d_health data) 0.8) (get_or (d_hunger_level data) 0.5)
          (get_or (d_energy_level data) 0.7) PersonalityTraits.default
          ExperienceLevels.default TraumaState.default RelationshipMatrix.default
          (get_or (d_last_action data) None)
          (get_or (d_last_action_success data) None)
          (get_or (d_days_alive data) 0%Z) creation_timestamp with
  | Raise e => Raise e
  | Ok npc =>
  match rebuilt (d_personality data) PersonalityTraits.from_dict (personality npc) with
  | Raise e => Raise e
  | Ok personality =>
  match rebuilt (d_experience data) ExperienceLevels.from_dict (experience npc) with
  | Raise e => Raise e
  | Ok experience =>
  match rebuilt (d_trauma data) (TraumaState.from_dict now) (trauma npc) with
  | Raise e => Raise e
  | Ok trauma =>
  match rebuilt (d_relationships data) RelationshipMatrix.from_dict
          (relationships npc) with
  | Raise e => Raise e
  | Ok relationships =>
      let 'Build_t i n a h hu e _ _ _ _ la las d ts := npc in
      Ok (Build_t i n a h hu e personality experience trauma relationships
            la las d ts)
  end end end end end end end.

End WithRuntime.
End NPCState.

(* ================================================================= *)
(** ** Sequences of healing calls on a trauma ledger *)

Module Healing.
Section WithRuntime.
Context `{Runtime}.

(** The four ways the code heals: [memories[index].apply_healing], and the
    three ledger methods. *)
Inductive call : Type :=
| Heal (index : nat) (amount : Q) (source : string)
| Daily (traits : PersonalityTraits.t) (days : Z)
| Activity (activity : string) (amount : Q) (traits : option PersonalityTraits.t)
| Counter (event : string) (impact : Q) (description : string).

(** [xs[index].method(...)]: an index past the end raises [IndexError]. *)
Fixpoint at_index {E} (index : nat) (body : Py E unit) (xs : list E)
    : list E * result unit :=
  match xs, index with
  | [], _ => ([], Raise (IndexError "list index out of range"))
  | x :: rest, O => let (x', r) := body x in (x' :: rest, r)
  | x :: rest, S k => let (rest', r) := at_index k body rest in (x :: rest', r)
  end.

Definition run (c : call) : Py TraumaState.t unit :=
  match c with
  | Heal index amount source =>
      fun ledger =>
        let (ms, r) :=
          at_index index (TraumaMemory.apply_healing amount source)
            (TraumaState.memories ledger) in
        (TraumaState.set_memories ledger ms, r)
  | Daily traits days => TraumaState.apply_daily_healing traits days
  | Activity activity amount traits =>
      TraumaState.apply_activity_healing activity amount traits
  | Counter event impact description =>
      TraumaState.apply_counter_experience_healing event impact description
  end.

(** The ledger after the calls, each one made whether or not an earlier one
    raised. *)
Definition run_all (calls : list call) (ledger : TraumaState.t) : TraumaState.t :=
  fold_left (fun s c => state_of (run c s)) calls ledger.

(** [apply_healing] called with each amount in turn. *)
Definition heal_repeatedly (amounts : list Q) (source : string)
    (memory : TraumaMemory.t) : TraumaMemory.t :=
  fold_left (fun m a => state_of (TraumaMemory.apply_healing a source m))
    amounts memory.

(** A memory at or above its scar and at or below its original impact. *)
Definition settled (m : TraumaMemory.t) : Prop :=
  TraumaMemory.scar_threshold m <= TraumaMemory.current_impact m
  /\ TraumaMemory.current_impact m <= TraumaMemory.original_impact m.

(** [m'] is [m] after some healing: the same event and original impact, a
    current impact that did not rise and is not below the scar. *)
Definition healed_from (m m' : TraumaMemory.t) : Prop :=
  TraumaMemory.event_type m' = TraumaMemory.event_type m
  /\ TraumaMemory.original_impact m' = TraumaMemory.original_impact m
  /\ TraumaMemory.scar_threshold m <= TraumaMemory.current_impact m'
  /\ TraumaMemory.current_impact m' <= TraumaMemory.current_impact m
  /\ TraumaMemory.current_impact m' <= TraumaMemory.original_impact m.

End WithRuntime.
End Healing.

(* ================================================================= *)
(** ** Repeated experience gain *)

Module Practice.

(** [getattr(x, category)], 0 for a name that is not a category. *)
Definition level (category : string) (x : ExperienceLevels.t) : Q :=
  get_or (lookup category (ExperienceLevels._get_experience_dict x)) 0.

(** [x] after [n] calls of [gain_experience] with the same arguments. *)
Fixpoint gain_repeatedly (n : nat) (category : string) (amount : Q)
    (source : string) (success : bool) (x : ExperienceLevels.t)
    : ExperienceLevels.t :=
  match n with
  | O => x
  | S k =>
      gain_repeatedly k category amount source success
        (state_of (ExperienceLevels.gain_experience category amount source
                     success x))
  end.

(** The level a call of [gain_experience] at level [old] leaves behind. *)
Definition next_level (amount old : Q) : Q :=
  py_min 1.0 (old + amount * (1.0 - old * 0.3)).

End Practice.

(* ================================================================= *)
(** ** The arithmetic of [gain_experience] in binary64 *)

Module Binary64.

Import PrimFloat.

#[local] Set Warnings "-inexact-float".

(** [min(a, b)] on floats: the second argument wins only when it is
    smaller. *)
Definition py_min (a b : float) : float := if (b <? a)%float then b else a.

(** [new_level] of [gain_experience], from [old_level] and [amount]. *)
Definition next_level (amount old_level : float) : float :=
  let diminishing_factor := (1.0 - (old_level * 0.3))%float in
  let actual_gain := (amount * diminishing_factor)%float in
  py_min 1.0%float (old_level + actual_gain)%float.

(** The level after [n] calls with the same amount. *)
Fixpoint level_after (n : nat) (amount level : float) : float :=
  match n with
  | O => level
  | S k => level_after k amount (next_level amount level)
  end.

(** The [amount_gained] recorded by call number [n] (counted from 0):
    [new_level - old_level]. *)
Definition amount_gained (n : nat) (amount level : float) : float :=
  (level_after (S n) amount level - level_after n amount level)%float.

(** The level of every category of [ExperienceLevels()]. *)
Definition untrained : float := 0.0%float.

Definition tiny_amount : float := 1e-16%float.

End Binary64.

(* ================================================================= *)
(** ** What the constructors guarantee *)

Module Valid.
Section WithRuntime.
Context `{Runtime}.

Definition unit_range (v : Q) : Prop := 0 <= v /\ v <= 1.

(** The checks of [NPCState.__post_init__] on the three vitals. *)
Definition vitals (npc : NPCState.t) : Prop :=
  unit_range (NPCState.health npc)
  /\ unit_range (NPCState.hunger_level npc)
  /\ unit_range (NPCState.energy_level npc).

(** The checks of [PersonalityTraits.__post_init__], on an object that
    has no attribute besides its dataclass fields. *)
Definition personality (p : PersonalityTraits.t) : Prop :=
  Forall unit_range
    [ PersonalityTraits.greed p; PersonalityTraits.sociability p;
      PersonalityTraits.laziness p; PersonalityTraits.ambition p;
      PersonalityTraits.forgiveness p; PersonalityTraits.courage p;
      PersonalityTraits.analytical p; PersonalityTraits.impulsiveness p ]
  /\ PersonalityTraits.instance_attrs p = [].

(** The checks of [ExperienceLevels.__post_init__]. *)
Definition experience (x : ExperienceLevels.t) : Prop :=
  Forall unit_range (map snd (ExperienceLevels._get_experience_dict x)).

(** The checks of [TraumaMemory.__post_init__]. *)
Definition memory (m : TraumaMemory.t) : Prop :=
  0 <= TraumaMemory.original_impact m
  /\ 0 <= TraumaMemory.current_impact m
  /\ TraumaMemory.current_impact m <= TraumaMemory.original_impact m
  /\ (0 <= TraumaMemory.age_when_occurred m)%Z.

Definition ledger (s : TraumaState.t) : Prop :=
  Forall memory (TraumaState.memories s).

(** The checks of [RelationshipDimensions.__post_init__]. *)
Definition dimensions (r : RelationshipDimensions.t) : Prop :=
  Forall unit_range
    [ RelationshipDimensions.trust r; RelationshipDimensions.respect r;
      RelationshipDimensions.affection r; RelationshipDimensions.dependency r;
      RelationshipDimensions.fear r ].

(** A dict has each key once; every entry passed its constructor. *)
Definition graph (g : RelationshipMatrix.t) : Prop :=
  NoDup (map fst (RelationshipMatrix.relationships g))
  /\ Forall dimensions (map snd (RelationshipMatrix.relationships g)).

(** The checks of [NPCState.__post_init__], which also replaces an empty
    name, on a character whose parts passed theirs. *)
Definition character (npc : NPCState.t) : Prop :=
  (0 <= NPCState.age npc)%Z
  /\ vitals npc
  /\ NPCState.name npc <> ""
  /\ personality (NPCState.personality npc)
  /\ experience (NPCState.experience npc)
  /\ ledger (NPCState.trauma npc)
  /\ graph (NPCState.relationships npc).

End WithRuntime.
End Valid.

(* ================================================================= *)
(** ** Persisted records with their missing optional keys spelled out *)

Module Defaults.
Section WithRuntime.
Context `{Runtime}.

Definition no_personality : PersonalityTraits.dict :=
  PersonalityTraits.Build_dict None None None None None None None None.

Definition personality (d : PersonalityTraits.dict) : PersonalityTraits.dict :=
  {| PersonalityTraits.d_greed := Some (get_or (PersonalityTraits.d_greed d) 0.5);
     PersonalityTraits.d_sociability :=
       Some (get_or (PersonalityTraits.d_sociability d) 0.5);
     PersonalityTraits.d_laziness :=
       Some (get_or (PersonalityTraits.d_laziness d) 0.5);
     PersonalityTraits.d_ambition :=
       Some (get_or (PersonalityTraits.d_ambition d) 0.5);
     PersonalityTraits.d_forgiveness :=
       Some (get_or (PersonalityTraits.d_forgiveness d) 0.5);
     PersonalityTraits.d_courage :=
       Some (get_or (PersonalityTraits.d_courage d) 0.5);
     PersonalityTraits.d_analytical :=
       Some (get_or (PersonalityTraits.d_analytical d) 0.5);
     PersonalityTraits.d_impulsiveness :=
       Some (get_or (PersonalityTraits.d_impulsiveness d) 0.5) |}.

Definition levels (d : ExperienceLevels.levels) : ExperienceLevels.levels :=
  {| ExperienceLevels.d_leadership :=
       Some (get_or (ExperienceLevels.d_leadership d) 0.0);
     ExperienceLevels.d_negotiation :=
       Some (get_or (ExperienceLevels.d_negotiation d) 0.0);
     ExperienceLevels.d_resource_management :=
       Some (get_or (ExperienceLevels.d_resource_management d) 0.0);
     ExperienceLevels.d_crafting :=
       Some (get_or (ExperienceLevels.d_crafting d) 0.0);
     ExperienceLevels.d_social_manipulation :=
       Some (get_or (ExperienceLevels.d_social_manipulation d) 0.0);
     ExperienceLevels.d_survival :=
       Some (get_or (ExperienceLevels.d_survival d) 0.0);
     ExperienceLevels.d_combat :=
       Some (get_or (ExperienceLevels.d_combat d) 0.0) |}.

Definition no_experience : ExperienceLevels.dict :=
  ExperienceLevels.Build_dict None None.

Definition experience (d : ExperienceLevels.dict) : ExperienceLevels.dict :=
  {| ExperienceLevels.d_experience_levels :=
       Some (levels (get_or (ExperienceLevels.d_experience_levels d)
                       ExperienceLevels.no_levels));
     ExperienceLevels.d_experience_history :=
       Some (get_or (ExperienceLevels.d_experience_history d) []) |}.

(** The five keys read with [data[...]] have no default and stay as they
    are. *)
Definition memory (now : datetime) (d : TraumaMemory.dict) : TraumaMemory.dict :=
  {| TraumaMemory.d_event_type := TraumaMemory.d_event_type d;
     TraumaMemory.d_original_impact := TraumaMemory.d_original_impact d;
     TraumaMemory.d_current_impact := TraumaMemory.d_current_impact d;
     TraumaMemory.d_age_when_occurred := TraumaMemory.d_age_when_occurred d;
     TraumaMemory.d_description := TraumaMemory.d_description d;
     TraumaMemory.d_related_npcs :=
       Some (get_or (TraumaMemory.d_related_npcs d) []);
     TraumaMemory.d_healing_activities :=
       Some (get_or (TraumaMemory.d_healing_activities d) []);
     TraumaMemory.d_timestamp :=
       Some (get_or (TraumaMemory.d_timestamp d) (isoformat now)) |}.

Definition no_ledger : TraumaState.dict :=
  TraumaState.Build_dict None None None None.

Definition ledger (now : datetime) (d : TraumaState.dict) : TraumaState.dict :=
  {| TraumaState.d_memories :=
       Some (map (memory now) (get_or (TraumaState.d_memories d) []));
     TraumaState.d_healing_progress :=
       Some (get_or (TraumaState.d_healing_progress d) []);
     TraumaState.d_last_healing_activity :=
       Some (get_or (TraumaState.d_last_healing_activity d) None);
     TraumaState.d_natural_healing_rate :=
       Some (get_or (TraumaState.d_natural_healing_rate d) 0.001) |}.

Definition dimensions (d : RelationshipDimensions.dict)
    : RelationshipDimensions.dict :=
  {| RelationshipDimensions.d_trust :=
       Some (get_or (RelationshipDimensions.d_trust d) 0.5);
     RelationshipDimensions.d_respect :=
       Some (get_or (RelationshipDimensions.d_respect d) 0.5);
     RelationshipDimensions.d_affection :=
       Some (get_or (RelationshipDimensions.d_affection d) 0.5);
     RelationshipDimensions.d_dependency :=
       Some (get_or (RelationshipDimensions.d_dependency d) 0.0);
     RelationshipDimensions.d_fear :=
       Some (get_or (RelationshipDimensions.d_fear d) 0.0);
     RelationshipDimensions.d_relationship_history :=
       Some (get_or (RelationshipDimensions.d_relationship_history d) []) |}.

Definition graph (d : RelationshipMatrix.dict) : RelationshipMatrix.dict :=
  map (fun entry => (fst entry, dimensions (snd entry))) d.

(** [npc_id] is read with [data['npc_id']] and stays as it is. *)
Definition character (now : datetime) (d : NPCState.dict) : NPCState.dict :=
  {| NPCState.d_npc_id := NPCState.d_npc_id d;
     NPCState.d_name := Some (get_or (NPCState.d_name d) "");
     NPCState.d_age := Some (get_or (NPCState.d_age d) 25%Z);
     NPCState.d_health := Some (get_or (NPCState.d_health d) 0.8);
     NPCState.d_hunger_level := Some (get_or (NPCState.d_hunger_level d) 0.5);
     NPCState.d_energy_level := Some (get_or (NPCState.d_energy_level d) 0.7);
     NPCState.d_personality :=
       Some (personality (get_or (NPCState.d_personality d) no_personality));
     NPCState.d_experience :=
       Some (experience (get_or (NPCState.d_experience d) no_experience));
     NPCState.d_trauma :=
       Some (ledger now (get_or (NPCState.d_trauma d) no_ledger));
     NPCState.d_relationships :=
       Some (graph (get_or (NPCState.d_relationships d) []));
     NPCState.d_last_action := Some (get_or (NPCState.d_last_action d) None);
     NPCState.d_last_action_success :=
       Some (get_or (NPCState.d_last_action_success d) None);
     NPCState.d_days_alive := Some (get_or (NPCState.d_days_alive d) 0%Z);
     NPCState.d_creation_timestamp :=
       Some (get_or (NPCState.d_creation_timestamp d) (isoformat now)) |}.

(** A record that holds nothing but the identifier. *)
Definition only_id (npc_id : string) : NPCState.dict :=
  NPCState.Build_dict (Some npc_id) None None None None None None None None None
    None None None None.

Definition present {A} (field : option A) : bool :=
  match field with Some _ => true | None => false end.

(** The keys of a persisted memory that [from_dict] reads with [data[...]]. *)
Definition memory_keys (d : TraumaMemory.dict) : bool :=
  present (TraumaMemory.d_event_type d)
  && present (TraumaMemory.d_original_impact d)
  && present (TraumaMemory.d_current_impact d)
  && present (TraumaMemory.d_age_when_occurred d)
  && present (TraumaMemory.d_description d).

(** The same for a persisted character and the memories in it. *)
Definition character_keys (d : NPCState.dict) : bool :=
  present (NPCState.d_npc_id d)
  && forallb memory_keys
       (get_or (TraumaState.d_memories (get_or (NPCState.d_trauma d) no_ledger))
          []).

Definition is_key_error {A} (r : result A) : bool :=
  match r with Raise (KeyError _) => true | _ => false end.

End WithRuntime.
End Defaults.

(* ================================================================= *)
(** ** Concrete values, in the runtime whose datetimes are texts *)

Module Examples.

#[local] Existing Instance text_runtime.

Definition noon : datetime := "2024-01-01T12:00:00".

Definition clock (k : nat) : datetime := noon.

(** The memory of the first test of [test_trauma.py]. *)
Definition betrayal : TraumaMemory.t :=
  TraumaMemory.Build_t "betrayal" 0.8 0.8 25 "Betrayed by close ally" [] [] noon.

Definition assault : TraumaMemory.t :=
  TraumaMemory.Build_t "violence" 1.5 1.5 30 "Attacked on the road" [] [] noon.

(** A memory the constructor accepts although its current impact is below
    its scar threshold: 0.1 against 30% of 2.0. *)
Definition faded : TraumaMemory.t :=
  TraumaMemory.Build_t "violence" 2.0 0.1 30 "Attacked on the road" [] [] noon.

Definition ledger : TraumaState.t :=
  TraumaState.Build_t [betrayal; assault] [] None 0.001.

Definition graph : RelationshipMatrix.t :=
  RelationshipMatrix.Build_t [("bob", RelationshipDimensions.default)].

Definition villager : NPCState.t :=
  NPCState.Build_t "npc1" "Ann" 30 0.5 0.5 0.7 PersonalityTraits.default
    ExperienceLevels.default ledger graph None None 0 noon.

(** A persisted memory without its [event_type]. *)
Definition untyped_memory : TraumaMemory.dict :=
  TraumaMemory.Build_dict None (Some 0.6) (Some 0.6) (Some 20%Z)
    (Some "Rejected by community") None None None.

(** A persisted character without its [npc_id]. *)
Definition anonymous : NPCState.dict :=
  NPCState.Build_dict None (Some "Ann") None None None None None None None None
    None None None None.

(** A persisted character with an identifier and one memory that has its
    five keys and nothing else. *)
Definition sparse : NPCState.dict :=
  NPCState.Build_dict (Some "npc1") None None None None None None None
    (Some (TraumaState.Build_dict
             (Some [TraumaMemory.Build_dict (Some "betrayal") (Some 0.6)
                      (Some 0.6) (Some 20%Z) (Some "Betrayed by a friend")
                      None None None])
             None None None))
    None None None None None.

End Examples.

(* ================================================================= *)
(** ** Python lists: slices and [sorted] *)

Module PyList.

(** [xs[:stop]]: a negative [stop] counts from the end. *)
Definition slice_to {A} (stop : Z) (xs : list A) : list A :=
  if (stop <? 0)%Z
  then firstn (List.length xs - Z.to_nat (- stop)) xs
  else firstn (Z.to_nat stop) xs.

(** [xs[start:]]: a negative [start] counts from the end. *)
Definition slice_from {A} (start : Z) (xs : list A) : list A :=
  if (start <? 0)%Z
  then skipn (List.length xs - Z.to_nat (- start)) xs
  else skipn (Z.to_nat start) xs.

(** [sorted(xs, key=key, reverse=True)]. The sort is stable, also when
    reversed: of two elements with the same key the one that came first
    stays first.  That fixes the result, which is built here by insertion
    from the right. *)
Fixpoint insert_desc {A} (key : A -> Q) (x : A) (xs : list A) : list A :=
  match xs with
  | [] => [x]
  | y :: ys =>
      if Qltb (key x) (key y) then y :: insert_desc key x ys else x :: y :: ys
  end.

Definition sorted_desc {A} (key : A -> Q) (xs : list A) : list A :=
  fold_right (insert_desc key) [] xs.

(** [a] may stand before [b] in a list sorted by descending key. *)
Definition descending {A} (key : A -> Q) (a b : A) : Prop := key b <= key a.

(** [max(xs, key=key)] on a non-empty list: the first of the largest. *)
Fixpoint max_by {A} (key : A -> Q) (best : A) (xs : list A) : A :=
  match xs with
  | [] => best
  | x :: rest => max_by key (if Qltb (key best) (key x) then x else best) rest
  end.

(** [sum(xs)], which starts from the integer 0. *)
Definition sum (xs : list Q) : Q := fold_left Qplus xs 0.

(** [d[key] = v] on an insertion-ordered dict. *)
Fixpoint assign {V} (key : string) (v : V) (d : list (string * V))
    : list (string * V) :=
  match d with
  | [] => [(key, v)]
  | (k, w) :: rest =>
      if String.eqb k key then (k, v) :: rest else (k, w) :: assign key v rest
  end.

End PyList.

(* ================================================================= *)
(** ** utils/math_helpers.py *)

Module MathHelpers.

Inductive arithmetic_error : Type := ZeroDivisionError.

(** The dict of probabilities is kept as the list of its items. *)
Definition normalize_probabilities {K} (probabilities : list (K * Q))
    : list (K * Q) + arithmetic_error :=
  let total := PyList.sum (map snd probabilities) in
  if Qeq_bool total 0
  then
    match probabilities with
    | [] => inr ZeroDivisionError
    | _ =>
        let uniform_prob :=
          1.0 / inject_Z (Z.of_nat (List.length probabilities)) in
        inl (map (fun item => (fst item, uniform_prob)) probabilities)
    end
  else inl (map (fun item => (fst item, snd item / total)) probabilities).

Definition clamp (value min_val max_val : Q) : Q :=
  py_max min_val (py_min max_val value).

Definition lerp (a b t : Q) : Q := a + (b - a) * clamp t 0.0 1.0.

End MathHelpers.

(* ================================================================= *)
(** ** models/trauma.py: the read-only queries *)

Module TraumaQueries.
Section WithRuntime.
Context `{Runtime}.

(** The property [TraumaMemory.healing_progress]. *)
Definition healing_progress (self : TraumaMemory.t) : Q :=
  if Qeq_bool (TraumaMemory.original_impact self) 0 then 1.0
  else
    let max_possible_healing :=
      TraumaMemory.original_impact self - TraumaMemory.scar_threshold self in
    let actual_healing :=
      TraumaMemory.original_impact self - TraumaMemory.current_impact self in
    if Qeq_bool max_possible_healing 0 then 1.0
    else py_min 1.0 (actual_healing / max_possible_healing).

Definition get_intensity_description (self : TraumaMemory.t) : string :=
  if Qleb (TraumaMemory.current_impact self) 0.1 then "minimal"
  else if Qleb (TraumaMemory.current_impact self) 0.3 then "mild"
  else if Qleb (TraumaMemory.current_impact self) 0.6 then "moderate"
  else if Qleb (TraumaMemory.current_impact self) 0.9 then "severe"
  else "overwhelming".

Definition get_trauma_impact (trauma_type : string) (self : TraumaState.t) : Q :=
  let total_impact :=
    fold_left
      (fun total memory =>
         if String.eqb (TraumaMemory.event_type memory) trauma_type
         then total + TraumaMemory.current_impact memory
         else total)
      (TraumaState.memories self) 0.0 in
  py_min 2.0 total_impact.

(** The loop of [get_active_traumas] that builds [trauma_totals]. *)
Definition trauma_totals (threshold : Q) (memories : list TraumaMemory.t)
    : list (string * Q) :=
  fold_left
    (fun totals memory =>
       if Qleb threshold (TraumaMemory.current_impact memory)
       then
         let key := TraumaMemory.event_type memory in
         let totals1 :=
           match lookup key totals with
           | None => PyList.assign key 0.0 totals
           | Some _ => totals
           end in
         PyList.assign key
           (get_or (lookup key totals1) 0.0 + TraumaMemory.current_impact memory)
           totals1
       else totals)
    memories [].

Definition get_active_traumas (threshold : Q) (self : TraumaState.t)
    : list (string * Q) :=
  map (fun item => (fst item, py_min 2.0 (snd item)))
    (trauma_totals threshold (TraumaState.memories self)).

Definition get_trauma_memories_by_type (trauma_type : string)
    (self : TraumaState.t) : list TraumaMemory.t :=
  filter (fun memory => String.eqb (TraumaMemory.event_type memory) trauma_type)
    (TraumaState.memories self).

Definition get_most_severe_trauma (self : TraumaState.t)
    : option TraumaMemory.t :=
  match TraumaState.memories self with
  | [] => None
  | first :: rest => Some (PyList.max_by TraumaMemory.current_impact first rest)
  end.

Definition trauma_behavior_map : list (string * list (string * Q)) :=
  [ ("betrayal", [("trust_issues", 0.8); ("social_withdrawal", 0.4)]);
    ("leadership_failure",
      [("leadership_avoidance", 0.9); ("social_withdrawal", 0.3)]);
    ("social_rejection", [("social_withdrawal", 0.8); ("trust_issues", 0.3)]);
    ("resource_loss", [("resource_hoarding", 0.7); ("risk_aversion", 0.5)]);
    ("violence", [("conflict_avoidance", 0.9); ("risk_aversion", 0.6)]);
    ("abandonment", [("trust_issues", 0.6); ("social_withdrawal", 0.5)]) ].

Definition no_influences : list (string * Q) :=
  [ ("trust_issues", 0.0); ("social_withdrawal", 0.0);
    ("leadership_avoidance", 0.0); ("resource_hoarding", 0.0);
    ("conflict_avoidance", 0.0); ("risk_aversion", 0.0) ].

Definition influence_names : list string := map fst no_influences.

(** The two nested loops of [get_trauma_influence_on_behavior]. *)
Definition accumulate_influences (active_traumas : list (string * Q))
    : list (string * Q) :=
  fold_left
    (fun influences item =>
       let '(trauma_type, impact) := item in
       match lookup trauma_type trauma_behavior_map with
       | None => influences
       | Some behaviors =>
           fold_left
             (fun influences entry =>
                let '(behavior, strength) := entry in
                PyList.assign behavior
                  (get_or (lookup behavior influences) 0.0 + impact * strength)
                  influences)
             behaviors influences
       end)
    active_traumas no_influences.

Definition get_trauma_influence_on_behavior (self : TraumaState.t)
    : list (string * Q) :=
  map (fun item => (fst item, py_min 1.0 (snd item)))
    (accumulate_influences (get_active_traumas 0.1 self)).

(** What healing leaves alone, and how the log of healing activities
    relates to the earlier log. *)
Definition later_self (m m' : TraumaMemory.t) : Prop :=
  TraumaMemory.event_type m' = TraumaMemory.event_type m
  /\ TraumaMemory.original_impact m' = TraumaMemory.original_impact m
  /\ TraumaMemory.age_when_occurred m' = TraumaMemory.age_when_occurred m
  /\ TraumaMemory.description m' = TraumaMemory.description m
  /\ TraumaMemory.related_npcs m' = TraumaMemory.related_npcs m
  /\ TraumaMemory.timestamp m' = TraumaMemory.timestamp m
  /\ exists entries,
       TraumaMemory.healing_activities m'
       = (TraumaMemory.healing_activities m ++ entries)%list.

(** What one entry of the counter table does to one memory. *)
Definition counter_step (event : string) (impact : Q)
    (entry : string * list string) (m : TraumaMemory.t) : TraumaMemory.t :=
  if str_in event (snd entry)
     && (String.eqb (TraumaMemory.event_type m) (fst entry)
         && negb (TraumaMemory.is_fully_healed m))
  then state_of
         (TraumaMemory.apply_healing
            (py_min (impact * 0.6) (TraumaMemory.current_impact m * 0.8))
            ("counter_experience_" ++ event) m)
  else m.

End WithRuntime.
End TraumaQueries.

(* ================================================================= *)
(** ** models/experience.py: the read-only queries *)

Module ExperienceQueries.

(** The bands of [get_skill_level_description], on the level it reads. *)
Definition describe (level : Q) : string :=
  if Qltb level 0.1 then "Novice"
  else if Qltb level 0.3 then "Beginner"
  else if Qltb level 0.5 then "Intermediate"
  else if Qltb level 0.7 then "Advanced"
  else if Qltb level 0.9 then "Expert"
  else "Master".

Definition get_skill_level_description (category : string)
    (self : ExperienceLevels.t) : result string :=
  match ExperienceLevels.get_experience category self with
  | Raise e => Raise e
  | Ok level => Ok (describe level)
  end.

(** The names are those of [_get_experience_dict], for which
    [get_skill_level_description] reads the very value of the item. *)
Definition skills (self : ExperienceLevels.t) : list (string * Q * string) :=
  map (fun item => (fst item, snd item, describe (snd item)))
    (ExperienceLevels._get_experience_dict self).

Definition get_top_skills (limit : Z) (self : ExperienceLevels.t)
    : list (string * Q * string) :=
  PyList.slice_to limit
    (PyList.sorted_desc (fun skill => snd (fst skill)) (skills self)).

Definition get_skills_above_threshold (threshold : Q)
    (self : ExperienceLevels.t) : list (string * (Q * string)) :=
  map (fun item => (fst item, (snd item, describe (snd item))))
    (filter (fun item => Qleb threshold (snd item))
       (ExperienceLevels._get_experience_dict self)).

Definition get_confidence_modifier (category : string)
    (self : ExperienceLevels.t) : result Q :=
  match ExperienceLevels.get_experience category self with
  | Raise e => Raise e
  | Ok level => Ok (1.0 + level)
  end.

Definition get_competence_modifier (category : string)
    (self : ExperienceLevels.t) : result Q :=
  match ExperienceLevels.get_experience category self with
  | Raise e => Raise e
  | Ok level => Ok (1.0 + level * 1.5)
  end.

Definition has_expertise_in (category : string) (threshold : Q)
    (self : ExperienceLevels.t) : result bool :=
  match ExperienceLevels.get_experience category self with
  | Raise e => Raise e
  | Ok level => Ok (Qleb threshold level)
  end.

Definition get_learning_rate (category : string) (self : ExperienceLevels.t)
    : result Q :=
  match ExperienceLevels.get_experience category self with
  | Raise e => Raise e
  | Ok level => Ok (1.0 - level * 0.5)
  end.

Definition get_experience_categories_from_action (action : ActionType)
    : list string :=
  map fst (ExperienceLevels.EXPERIENCE_MAPPINGS action).

Definition calculate_action_success_probability (base_rate experience_level : Q)
    : Q :=
  let competence_modifier := 1.0 + experience_level * 1.5 in
  let adjusted_rate := base_rate * competence_modifier in
  py_min 0.95 adjusted_rate.

Definition get_relevant_experience_for_action (action : ActionType)
    (experience : ExperienceLevels.t) : result (string * Q) :=
  match ExperienceLevels.EXPERIENCE_MAPPINGS action with
  | [] => Ok ("survival", 0.0)
  | first :: rest =>
      let best_category := fst (PyList.max_by snd first rest) in
      match ExperienceLevels.get_experience best_category experience with
      | Raise e => Raise e
      | Ok experience_level => Ok (best_category, experience_level)
      end
  end.

(** The keys of [_get_experience_dict]. *)
Definition category_names : list string :=
  [ "leadership"; "negotiation"; "resource_management"; "crafting";
    "social_manipulation"; "survival"; "combat" ].

(** The multiplier [gain_experience_from_action] applies to a base amount. *)
Definition success_multiplier (success : bool) : Q :=
  if success then 1.0 else 0.3.

End ExperienceQueries.

(* ================================================================= *)
(** ** models/relationships.py: the read-only queries *)

Module RelationshipQueries.
Section WithRuntime.
Context `{Runtime}.

(** [self.relationship_history[-limit:] if self.relationship_history else []] *)
Definition get_recent_changes (limit : Z) (self : RelationshipDimensions.t)
    : list RelationshipDimensions.change :=
  match RelationshipDimensions.relationship_history self with
  | [] => []
  | history => PyList.slice_from (- limit) history
  end.

Definition get_closest_relationships (limit : Z) (self : RelationshipMatrix.t)
    : list (string * Q * string) :=
  PyList.slice_to limit
    (PyList.sorted_desc (fun row => snd (fst row))
       (map (fun entry =>
               (fst entry, RelationshipDimensions.get_closeness (snd entry),
                RelationshipDimensions.get_relationship_type (snd entry)))
          (RelationshipMatrix.relationships self))).

Definition get_most_influential_relationships (limit : Z)
    (self : RelationshipMatrix.t) : list (string * Q * string) :=
  PyList.slice_to limit
    (PyList.sorted_desc (fun row => snd (fst row))
       (map (fun entry =>
               (fst entry,
                RelationshipDimensions.get_influence_potential (snd entry),
                RelationshipDimensions.get_relationship_type (snd entry)))
          (RelationshipMatrix.relationships self))).

(** The loop of [get_npcs_by_dimension]; [None] when [getattr] raises or
    yields something that is not a number, on the first entry reached. *)
Fixpoint above_threshold (dimension : string) (threshold : Q)
    (entries : list (string * RelationshipDimensions.t))
    : option (list (string * Q)) :=
  match entries with
  | [] => Some []
  | (npc_id, rel) :: rest =>
      match RelationshipDimensions.dimension_value rel dimension with
      | None => None
      | Some value =>
          match above_threshold dimension threshold rest with
          | None => None
          | Some results =>
              Some (if Qleb threshold value then (npc_id, value) :: results
                    else results)
          end
      end
  end.

Definition get_npcs_by_dimension (dimension : string) (threshold : Q)
    (self : RelationshipMatrix.t) : option (list (string * Q)) :=
  match above_threshold dimension threshold
          (RelationshipMatrix.relationships self) with
  | None => None
  | Some results => Some (PyList.sorted_desc snd results)
  end.

(** The four callers pass the name of a dimension, on which
    [get_npcs_by_dimension] cannot fail. *)
Definition ids_by_dimension (dimension : string) (threshold : Q)
    (self : RelationshipMatrix.t) : list string :=
  map fst (get_or (get_npcs_by_dimension dimension threshold self) []).

Definition get_trusted_npcs (threshold : Q) (self : RelationshipMatrix.t)
    : list string := ids_by_dimension "trust" threshold self.

Definition get_feared_npcs (threshold : Q) (self : RelationshipMatrix.t)
    : list string := ids_by_dimension "fear" threshold self.

Definition get_respected_npcs (threshold : Q) (self : RelationshipMatrix.t)
    : list string := ids_by_dimension "respect" threshold self.

Definition get_loved_npcs (threshold : Q) (self : RelationshipMatrix.t)
    : list string := ids_by_dimension "affection" threshold self.

Definition get_relationships_by_type (self : RelationshipMatrix.t)
    : list (string * list string) :=
  fold_left
    (fun by_type entry =>
       let rel_type := RelationshipDimensions.get_relationship_type (snd entry) in
       PyList.assign rel_type
         (get_or (lookup rel_type by_type) [] ++ [fst entry])%list by_type)
    (RelationshipMatrix.relationships self) [].

Definition conflicts_of (npc_id : string) (rel : RelationshipDimensions.t)
    : list (string * string * string) :=
  ((if Qltb 0.6 (RelationshipDimensions.fear rel)
       && Qltb 0.6 (RelationshipDimensions.dependency rel)
    then [(npc_id, "fear_dependency", "Fears someone they depend on")]
    else [])
   ++ (if Qltb 0.7 (RelationshipDimensions.affection rel)
          && Qltb (RelationshipDimensions.trust rel) 0.3
       then [(npc_id, "love_distrust", "Loves someone they don't trust")]
       else [])
   ++ (if Qltb 0.7 (RelationshipDimensions.respect rel)
          && Qltb 0.6 (RelationshipDimensions.fear rel)
       then [(npc_id, "respect_fear", "Respects someone they fear")]
       else []))%list.

Definition get_relationship_conflicts (self : RelationshipMatrix.t)
    : list (string * string * string) :=
  flat_map (fun entry => conflicts_of (fst entry) (snd entry))
    (RelationshipMatrix.relationships self).

(** The five dimensions as the items of a dict, in the order of the
    dataclass fields. *)
Definition dimension_items (self : RelationshipDimensions.t)
    : list (string * Q) :=
  [ ("trust", RelationshipDimensions.trust self);
    ("respect", RelationshipDimensions.respect self);
    ("affection", RelationshipDimensions.affection self);
    ("dependency", RelationshipDimensions.dependency self);
    ("fear", RelationshipDimensions.fear self) ].

Definition dimension_names : list string :=
  [ "trust"; "respect"; "affection"; "dependency"; "fear" ].

End WithRuntime.
End RelationshipQueries.

(* ================================================================= *)
(** ** models/npc.py: the read-only queries *)

Module NPCQueries.
Section WithRuntime.
Context `{Runtime}.

Definition get_physical_condition (self : NPCState.t) : string :=
  if Qltb (NPCState.health self) 0.2 then "critically injured"
  else if Qltb (NPCState.health self) 0.5 then "injured"
  else if Qltb 0.8 (NPCState.hunger_level self) then "starving"
  else if Qltb 0.6 (NPCState.hunger_level self) then "very hungry"
  else if Qltb (NPCState.energy_level self) 0.2 then "exhausted"
  else if Qltb (NPCState.energy_level self) 0.4 then "tired"
  else "healthy".

Definition needs_immediate_attention (self : NPCState.t) : list string :=
  ((if Qltb (NPCState.health self) 0.3 then ["medical_attention"] else [])
   ++ (if Qltb 0.7 (NPCState.hunger_level self) then ["food"] else [])
   ++ (if Qltb (NPCState.energy_level self) 0.2 then ["rest"] else []))%list.

End WithRuntime.
End NPCQueries.

(* ================================================================= *)
(** ** models/personality.py: the read-only queries *)

Module PersonalityQueries.

(** The items of the dict that [to_dict] returns. *)
Definition items (p : PersonalityTraits.t) : list (string * Q) :=
  [ ("greed", PersonalityTraits.greed p);
    ("sociability", PersonalityTraits.sociability p);
    ("laziness", PersonalityTraits.laziness p);
    ("ambition", PersonalityTraits.ambition p);
    ("forgiveness", PersonalityTraits.forgiveness p);
    ("courage", PersonalityTraits.courage p);
    ("analytical", PersonalityTraits.analytical p);
    ("impulsiveness", PersonalityTraits.impulsiveness p) ].

Definition get_dominant_traits (threshold : Q) (p : PersonalityTraits.t)
    : result (list (string * Q)) :=
  match PersonalityTraits.method p "get_dominant_traits" with
  | Raise e => Raise e
  | Ok _ =>
      match PersonalityTraits.to_dict p with
      | Raise e => Raise e
      | Ok _ => Ok (filter (fun item => Qleb threshold (snd item)) (items p))
      end
  end.

Definition get_weak_traits (threshold : Q) (p : PersonalityTraits.t)
    : result (list (string * Q)) :=
  match PersonalityTraits.method p "get_weak_traits" with
  | Raise e => Raise e
  | Ok _ =>
      match PersonalityTraits.to_dict p with
      | Raise e => Raise e
      | Ok _ => Ok (filter (fun item => Qleb (snd item) threshold) (items p))
      end
  end.

(** [", ".join(parts)] *)
Fixpoint join (parts : list string) : string :=
  match parts with
  | [] => ""
  | [part] => part
  | part :: rest => part ++ ", " ++ join rest
  end.

Definition has_key (name : string) (d : list (string * Q)) : bool :=
  match lookup name d with Some _ => true | None => false end.

Definition summary_parts (dominant weak : list (string * Q)) : list string :=
  ((if has_key "greed" dominant then ["hoards resources"] else [])
  ++ (if has_key "sociability" dominant then ["very social"] else [])
  ++ (if has_key "laziness" dominant then ["avoids work"] else [])
  ++ (if has_key "ambition" dominant then ["seeks leadership"] else [])
  ++ (if has_key "forgiveness" dominant then ["very forgiving"] else [])
  ++ (if has_key "courage" dominant then ["brave"] else [])
  ++ (if has_key "analytical" dominant then ["logical thinker"] else [])
  ++ (if has_key "impulsiveness" dominant then ["acts quickly"] else [])
  ++ (if has_key "sociability" weak then ["antisocial"] else [])
  ++ (if has_key "courage" weak then ["cowardly"] else [])
  ++ (if has_key "forgiveness" weak then ["holds grudges"] else [])
  ++ (if has_key "analytical" weak then ["emotional decision-maker"] else []))%list.

(** The phrases a summary is made of. *)
Definition phrases : list string :=
  [ "hoards resources"; "very social"; "avoids work"; "seeks leadership";
    "very forgiving"; "brave"; "logical thinker"; "acts quickly";
    "antisocial"; "cowardly"; "holds grudges"; "emotional decision-maker" ].

Definition get_personality_summary (p : PersonalityTraits.t) : result string :=
  match PersonalityTraits.method p "get_personality_summary" with
  | Raise e => Raise e
  | Ok _ =>
      match get_dominant_traits 0.7 p with
      | Raise e => Raise e
      | Ok dominant =>
          match get_weak_traits 0.3 p with
          | Raise e => Raise e
          | Ok weak =>
              match summary_parts dominant weak with
              | [] => Ok "balanced personality"
              | parts => Ok (join parts)
              end
          end
      end
  end.

End PersonalityQueries.

(* ================================================================= *)
(** * Properties *)

(** ** Numbers *)

Lemma Qltb_true (x y : Q) : Qltb x y = true -> x < y.
Proof.
  unfold Qltb. intros E. apply negb_true_iff in E.
  apply Qnot_le_lt. intros L. apply Qle_bool_iff in L. congruence.
Qed.

Lemma Qltb_false (x y : Q) : Qltb x y = false -> y <= x.
Proof.
  unfold Qltb. intros E. apply negb_false_iff in E. now apply Qle_bool_iff.
Qed.

Lemma Qleb_true (x y : Q) : Qleb x y = true -> x <= y.
Proof. unfold Qleb. apply Qle_bool_iff. Qed.

Lemma Qleb_false (x y : Q) : Qleb x y = false -> y < x.
Proof.
  unfold Qleb. intros E. apply Qnot_le_lt. intros L.
  apply Qle_bool_iff in L. congruence.
Qed.

Lemma Qltb_intro (x y : Q) : x < y -> Qltb x y = true.
Proof.
  intros L. destruct (Qltb x y) eqn:E; [reflexivity|].
  apply Qltb_false in E. lra.
Qed.

Lemma Qltb_intro_false (x y : Q) : y <= x -> Qltb x y = false.
Proof.
  intros L. destruct (Qltb x y) eqn:E; [|reflexivity].
  apply Qltb_true in E. lra.
Qed.

Lemma Qleb_intro (x y : Q) : x <= y -> Qleb x y = true.
Proof. unfold Qleb. apply Qle_bool_iff. Qed.

Lemma Qleb_intro_false (x y : Q) : y < x -> Qleb x y = false.
Proof.
  intros L. destruct (Qleb x y) eqn:E; [|reflexivity].
  apply Qleb_true in E. lra.
Qed.

(** Split on every float comparison in sight and keep its meaning. *)
Ltac compare_floats :=
  repeat match goal with
  | |- context [Qltb ?x ?y] =>
      let E := fresh "E" in
      destruct (Qltb x y) eqn:E;
      [apply Qltb_true in E | apply Qltb_false in E]
  | |- context [Qleb ?x ?y] =>
      let E := fresh "E" in
      destruct (Qleb x y) eqn:E;
      [apply Qleb_true in E | apply Qleb_false in E]
  end.

Lemma py_max_cases (a b : Q) :
  (a < b /\ py_max a b = b) \/ (b <= a /\ py_max a b = a).
Proof. unfold py_max. compare_floats; auto. Qed.

Lemma py_min_cases (a b : Q) :
  (b < a /\ py_min a b = b) \/ (a <= b /\ py_min a b = a).
Proof. unfold py_min. compare_floats; auto. Qed.

(** Replace every [py_max] and [py_min] of the goal by its value. *)
Ltac max_min_cases :=
  repeat match goal with
  | |- context [py_max ?a ?b] =>
      let L := fresh "L" in let E := fresh "E" in
      destruct (py_max_cases a b) as [[L E]|[L E]]; rewrite E in *; clear E
  | |- context [py_min ?a ?b] =>
      let L := fresh "L" in let E := fresh "E" in
      destruct (py_min_cases a b) as [[L E]|[L E]]; rewrite E in *; clear E
  | _ : context [py_max ?a ?b] |- _ =>
      let L := fresh "L" in let E := fresh "E" in
      destruct (py_max_cases a b) as [[L E]|[L E]]; rewrite E in *; clear E
  | _ : context [py_min ?a ?b] |- _ =>
      let L := fresh "L" in let E := fresh "E" in
      destruct (py_min_cases a b) as [[L E]|[L E]]; rewrite E in *; clear E
  end.

Lemma py_max_is_Qmax (a b : Q) : py_max a b == Qmax a b.
Proof.
  destruct (py_max_cases a b) as [[L E]|[L E]]; rewrite E.
  - symmetry. apply Q.max_r. lra.
  - symmetry. apply Q.max_l. lra.
Qed.

Lemma py_min_is_Qmin (a b : Q) : py_min a b == Qmin a b.
Proof.
  destruct (py_min_cases a b) as [[L E]|[L E]]; rewrite E.
  - symmetry. apply Q.min_r. lra.
  - symmetry. apply Q.min_l. lra.
Qed.

(** ** Trauma: the floor at the scar threshold *)

Section TraumaProperties.
Context `{Runtime}.

Import Healing.

Lemma scar_threshold_le_original (m : TraumaMemory.t) :
  0 <= TraumaMemory.original_impact m ->
  TraumaMemory.scar_threshold m <= TraumaMemory.original_impact m.
Proof.
  intros O. unfold TraumaMemory.scar_threshold. compare_floats; lra.
Qed.

Lemma healed_from_refl (m : TraumaMemory.t) : settled m -> healed_from m m.
Proof. intros [S1 S2]. unfold healed_from. repeat split; auto; lra. Qed.

Lemma healed_from_settled (m m' : TraumaMemory.t) :
  healed_from m m' -> settled m'.
Proof.
  intros (_ & O & S & _ & C). unfold settled.
  unfold TraumaMemory.scar_threshold in *. rewrite O. split; assumption.
Qed.

Lemma healed_from_trans (m1 m2 m3 : TraumaMemory.t) :
  healed_from m1 m2 -> healed_from m2 m3 -> healed_from m1 m3.
Proof.
  intros (E1 & O1 & S1 & C1 & B1) (E2 & O2 & S2 & C2 & B2).
  unfold healed_from. unfold TraumaMemory.scar_threshold in *.
  rewrite O1 in *. repeat split; try congruence; try lra.
Qed.

(** What one [apply_healing] does to the numbers of a memory. *)
Lemma apply_healing_current (amount : Q) (source : string) (m : TraumaMemory.t) :
  let m' := state_of (TraumaMemory.apply_healing amount source m) in
  TraumaMemory.event_type m' = TraumaMemory.event_type m
  /\ TraumaMemory.original_impact m' = TraumaMemory.original_impact m
  /\ TraumaMemory.current_impact m'
     = if Qltb amount 0 then TraumaMemory.current_impact m
       else py_max (TraumaMemory.scar_threshold m)
                   (TraumaMemory.current_impact m - amount).
Proof.
  unfold TraumaMemory.apply_healing, state_of.
  destruct (Qltb amount 0); simpl; [auto|].
  destruct m as [e o c a d r h ts]; simpl.
  match goal with |- context [if ?b then _ else _] => destruct b end;
    simpl; auto.
Qed.

Lemma apply_healing_healed_from (amount : Q) (source : string)
    (m : TraumaMemory.t) :
  settled m ->
  healed_from m (state_of (TraumaMemory.apply_healing amount source m)).
Proof.
  intros [S1 S2].
  destruct (apply_healing_current amount source m) as (E & O & C).
  unfold healed_from. rewrite E, O, C. clear E O C.
  repeat split; compare_floats; max_min_cases; lra.
Qed.

(** A loop over the memories whose body heals (or skips) each memory. *)
Lemma for_each_healed_from (body : Py TraumaMemory.t unit)
    (ms : list TraumaMemory.t) :
  (forall m, settled m -> healed_from m (state_of (body m))) ->
  Forall settled ms ->
  Forall2 healed_from ms (fst (for_each body ms)).
Proof.
  intros B. induction 1 as [|m rest Sm Srest IH]; simpl; [constructor|].
  specialize (B m Sm). unfold state_of in B.
  destruct (body m) as [m' [[]|e]]; simpl in *.
  - destruct (for_each body rest) as [rest' r]; simpl in *.
    constructor; assumption.
  - constructor; [assumption|].
    clear IH. induction Srest; constructor; auto using healed_from_refl.
Qed.

Lemma at_index_healed_from (body : Py TraumaMemory.t unit) (index : nat)
    (ms : list TraumaMemory.t) :
  (forall m, settled m -> healed_from m (state_of (body m))) ->
  Forall settled ms ->
  Forall2 healed_from ms (fst (at_index index body ms)).
Proof.
  intros B S. revert index.
  induction S as [|m rest Sm Srest IH]; intros index; simpl.
  - destruct index; constructor.
  - assert (R : Forall2 healed_from rest rest).
    { clear IH. induction Srest; constructor; auto using healed_from_refl. }
    destruct index as [|k]; simpl.
    + specialize (B m Sm). unfold state_of in B.
      destruct (body m) as [m' r]; simpl in *. constructor; assumption.
    + specialize (IH k). destruct (at_index k body rest) as [rest' r]; simpl in *.
      constructor; auto using healed_from_refl.
Qed.

Lemma Forall2_healed_from_settled (ms ms' : list TraumaMemory.t) :
  Forall2 healed_from ms ms' -> Forall settled ms'.
Proof. induction 1; constructor; eauto using healed_from_settled. Qed.

Lemma Forall2_healed_from_refl (ms : list TraumaMemory.t) :
  Forall settled ms -> Forall2 healed_from ms ms.
Proof. induction 1; constructor; auto using healed_from_refl. Qed.

Lemma Forall2_healed_from_trans (ms1 ms2 ms3 : list TraumaMemory.t) :
  Forall2 healed_from ms1 ms2 -> Forall2 healed_from ms2 ms3 ->
  Forall2 healed_from ms1 ms3.
Proof.
  intros F. revert ms3. induction F; intros ms3 G; inversion G; subst;
    constructor; eauto using healed_from_trans.
Qed.

Lemma memories_set_memories (ledger : TraumaState.t) (ms : list TraumaMemory.t) :
  TraumaState.memories (TraumaState.set_memories ledger ms) = ms.
Proof. destruct ledger; reflexivity. Qed.

Lemma for_memories_healed_from (body : Py TraumaMemory.t unit)
    (ledger : TraumaState.t) :
  (forall m, settled m -> healed_from m (state_of (body m))) ->
  Forall settled (TraumaState.memories ledger) ->
  Forall2 healed_from (TraumaState.memories ledger)
    (TraumaState.memories (state_of (TraumaState.for_memories body ledger))).
Proof.
  intros B S. unfold TraumaState.for_memories, state_of.
  pose proof (for_each_healed_from body _ B S) as F.
  destruct (for_each body (TraumaState.memories ledger)) as [ms r]; simpl in *.
  now rewrite memories_set_memories.
Qed.

(** A body that heals when its guard holds and skips otherwise. *)
Lemma guarded_healing_healed_from (guard : TraumaMemory.t -> bool)
    (amount : TraumaMemory.t -> Q) (source : string) (m : TraumaMemory.t) :
  settled m ->
  healed_from m
    (state_of (if guard m
               then TraumaMemory.apply_healing (amount m) source m
               else (m, Ok tt))).
Proof.
  intros S. destruct (guard m).
  - now apply apply_healing_healed_from.
  - now apply healed_from_refl.
Qed.

(** Every healing call leaves every memory healed from what it was. *)
Lemma run_healed_from (c : call) (ledger : TraumaState.t) :
  Forall settled (TraumaState.memories ledger) ->
  Forall2 healed_from (TraumaState.memories ledger)
    (TraumaState.memories (state_of (run c ledger))).
Proof.
  intros S. destruct c as [index amount source|traits days|activity amount traits
                          |event impact description]; simpl.
  - unfold state_of.
    pose proof (at_index_healed_from
                  (TraumaMemory.apply_healing amount source) index _
                  (apply_healing_healed_from amount source) S) as F.
    destruct (at_index _ _ _) as [ms r]; simpl in *.
    now rewrite memories_set_memories.
  - unfold TraumaState.apply_daily_healing.
    apply for_memories_healed_from; [|assumption].
    intros m Sm.
    apply (guarded_healing_healed_from
             (fun m => negb (TraumaMemory.is_fully_healed m)) (fun _ => _)).
    assumption.
  - unfold TraumaState.apply_activity_healing.
    destruct (Qltb amount 0).
    + now apply Forall2_healed_from_refl.
    + assert (M : TraumaState.memories
                    (TraumaState.set_last_healing_activity ledger (Some activity))
                  = TraumaState.memories ledger) by (destruct ledger; reflexivity).
      rewrite <- M at 1.
      apply for_memories_healed_from; [|now rewrite M].
      intros m Sm.
      apply (guarded_healing_healed_from
               (fun m => negb (TraumaMemory.is_fully_healed m))
               (fun m => amount * _)).
      assumption.
  - unfold TraumaState.apply_counter_experience_healing.
    destruct (Qltb impact 0); [now apply Forall2_healed_from_refl|].
    generalize TraumaState.counter_mappings as table.
    intros table. revert ledger S.
    induction table as [|[trauma_type counter_types] table IH]; intros ledger S.
    + simpl. now apply Forall2_healed_from_refl.
    + simpl. unfold bind.
      set (step := if str_in event counter_types then _ else _).
      assert (F : Forall2 healed_from (TraumaState.memories ledger)
                    (TraumaState.memories (state_of (step ledger)))).
      { subst step. destruct (str_in event counter_types).
        - apply for_memories_healed_from; [|assumption].
          intros m Sm.
          apply (guarded_healing_healed_from
                   (fun m => String.eqb (TraumaMemory.event_type m) trauma_type
                             && negb (TraumaMemory.is_fully_healed m))
                   (fun m => py_min _ _)).
          assumption.
        - now apply Forall2_healed_from_refl. }
      unfold state_of in F.
      destruct (step ledger) as [ledger1 [[]|e]]; simpl in *.
      * eapply Forall2_healed_from_trans; [exact F|].
        apply IH. eapply Forall2_healed_from_settled; eassumption.
      * assumption.
Qed.

Lemma run_all_healed_from (calls : list call) (ledger : TraumaState.t) :
  Forall settled (TraumaState.memories ledger) ->
  Forall2 healed_from (TraumaState.memories ledger)
    (TraumaState.memories (run_all calls ledger)).
Proof.
  revert ledger. induction calls as [|c calls IH]; intros ledger S; simpl.
  - now apply Forall2_healed_from_refl.
  - pose proof (run_healed_from c ledger S) as F.
    eapply Forall2_healed_from_trans; [exact F|].
    apply IH. eapply Forall2_healed_from_settled; eassumption.
Qed.

End TraumaProperties.

Section TraumaClaims.
Context `{Runtime}.

Import Healing.

(** A memory that [add_trauma] creates starts at its original impact, which
    is at or above its scar. *)
Lemma add_trauma_settled (now : datetime) (event_type : string) (impact : Q)
    (age : Z) (description : string) (related : option (list string))
    (ledger : TraumaState.t) :
  Forall settled (TraumaState.memories ledger) ->
  Forall settled
    (TraumaState.memories
       (state_of (TraumaState.add_trauma now event_type impact age description
                    related ledger))).
Proof.
  intros S. unfold TraumaState.add_trauma, TraumaMemory.make, state_of.
  destruct (Qltb impact 0) eqn:I; simpl; [assumption|].
  destruct (age <? 0)%Z; simpl; [assumption|].
  rewrite Qltb_intro_false by lra. simpl.
  rewrite memories_set_memories. apply Forall_app. split; [assumption|].
  constructor; [|constructor]. apply Qltb_false in I. split; simpl.
  - now apply scar_threshold_le_original.
  - lra.
Qed.

(** C1 (as amended). For every ledger whose memories each start at or above
    their scar threshold and at or below their original impact (as every
    memory made by [add_trauma] does), and every sequence of healing calls
    -- [apply_healing] on a memory, daily healing, activity healing,
    counter-experience healing -- cut at any point: each memory keeps its
    original impact, its current impact after the whole sequence is not
    below its scar threshold, not above its original impact, and not above
    what it was at the cut. *)
Theorem healing_keeps_impact_between_scar_and_original
    (ledger : TraumaState.t) (before after : list call) :
  Forall settled (TraumaState.memories ledger) ->
  Forall2
    (fun m1 m2 =>
       TraumaMemory.original_impact m2 = TraumaMemory.original_impact m1
       /\ TraumaMemory.scar_threshold m2 <= TraumaMemory.current_impact m2
       /\ TraumaMemory.current_impact m2 <= TraumaMemory.original_impact m2
       /\ TraumaMemory.current_impact m2 <= TraumaMemory.current_impact m1)
    (TraumaState.memories (run_all before ledger))
    (TraumaState.memories (run_all (before ++ after) ledger)).
Proof.
  intros S.
  assert (S1 : Forall settled (TraumaState.memories (run_all before ledger))).
  { eapply Forall2_healed_from_settled. now apply run_all_healed_from. }
  unfold run_all at 2. rewrite fold_left_app. fold (run_all before ledger).
  fold (run_all after (run_all before ledger)).
  pose proof (run_all_healed_from after _ S1) as F.
  clear S S1. induction F as [|m1 m2 ms1 ms2 Hm _ IH]; [constructor|].
  constructor; [|exact IH].
  pose proof (healed_from_settled _ _ Hm) as [A B].
  destruct Hm as (_ & O & _ & C & _). auto.
Qed.

(** C2 (as amended). A memory created with original impact 0.8 has scar
    threshold 0.08, ten per cent of 0.8; repeated [apply_healing] calls never
    raise its current impact and never take it below 0.08. *)
Theorem moderate_trauma_scar_is_a_tenth
    (m : TraumaMemory.t) (amounts : list Q) (source : string) :
  TraumaMemory.original_impact m == 0.8 ->
  TraumaMemory.current_impact m == 0.8 ->
  TraumaMemory.scar_threshold m == 0.08
  /\ 0.08 <= TraumaMemory.current_impact (heal_repeatedly amounts source m)
  /\ TraumaMemory.current_impact (heal_repeatedly amounts source m)
     <= TraumaMemory.current_impact m.
Proof.
  intros O C.
  assert (T : TraumaMemory.scar_threshold m == 0.08).
  { unfold TraumaMemory.scar_threshold. compare_floats; lra. }
  assert (S : settled m) by (unfold settled; lra).
  assert (F : healed_from m (heal_repeatedly amounts source m)).
  { clear O C T. revert m S. unfold heal_repeatedly.
    induction amounts as [|a amounts IH]; intros m S; simpl.
    - now apply healed_from_refl.
    - pose proof (apply_healing_healed_from a source m S) as F.
      eapply healed_from_trans; [exact F|].
      apply IH. eapply healed_from_settled; eassumption. }
  destruct F as (_ & _ & F1 & F2 & _).
  repeat split; lra.
Qed.

Lemma lookup_absent {V} (key : string) (d : list (string * V)) :
  str_in key (map fst d) = false -> lookup key d = None.
Proof.
  unfold str_in. induction d as [|[k v] d IH]; simpl; [reflexivity|].
  intros E. apply orb_false_iff in E. destruct E as [E1 E2].
  rewrite String.eqb_sym, E1. auto.
Qed.

(** A loop whose body never raises runs to the end. *)
Lemma for_each_never_raises {E} (body : Py E unit) (xs : list E) :
  (forall x, snd (body x) = Ok tt) ->
  for_each body xs = (map (fun x => fst (body x)) xs, Ok tt).
Proof.
  intros B. induction xs as [|x xs IH]; simpl; [reflexivity|].
  specialize (B x). destruct (body x) as [x' r]; simpl in *. subst r.
  now rewrite IH.
Qed.

Lemma apply_healing_returns (amount : Q) (source : string) (m : TraumaMemory.t) :
  0 <= amount -> snd (TraumaMemory.apply_healing amount source m) = Ok tt.
Proof.
  intros A. unfold TraumaMemory.apply_healing.
  rewrite Qltb_intro_false by assumption.
  match goal with |- context [if ?b then _ else _] => destruct b end; reflexivity.
Qed.

(** C10. For an activity that is not one of the seven of the table and a
    non-negative amount, [apply_activity_healing] returns normally, records
    the activity as the last healing activity, leaves the fully healed
    memories as they are and takes every other memory to
    max(scar threshold, current impact - amount * 0.25). *)
Theorem unrecognized_activity_heals_by_a_quarter
    (ledger : TraumaState.t) (activity : string) (amount : Q)
    (traits : option PersonalityTraits.t) :
  str_in activity (map fst TraumaState.activity_effectiveness) = false ->
  0 <= amount ->
  let r := TraumaState.apply_activity_healing activity amount traits ledger in
  value_of r = Ok tt
  /\ TraumaState.last_healing_activity (state_of r) = Some activity
  /\ Forall2
       (fun m m' =>
          if TraumaMemory.is_fully_healed m then m' = m
          else TraumaMemory.original_impact m' = TraumaMemory.original_impact m
               /\ TraumaMemory.current_impact m'
                  == Qmax (TraumaMemory.scar_threshold m)
                          (TraumaMemory.current_impact m - amount * 0.25))
       (TraumaState.memories ledger) (TraumaState.memories (state_of r)).
Proof.
  intros U A.
  pose proof (lookup_absent _ _ U) as L.
  unfold TraumaState.activity_effectiveness, str_in in U. simpl in U.
  repeat (apply orb_false_iff in U; destruct U as [? U]).
  assert (P : forall e, TraumaState.personality_modifier activity traits e = e).
  { intros e. unfold TraumaState.personality_modifier.
    destruct traits as [traits|]; [|reflexivity].
    repeat match goal with E : String.eqb activity _ = false |- _ =>
      rewrite ?E; clear E end. reflexivity. }
  unfold TraumaState.apply_activity_healing.
  rewrite Qltb_intro_false by assumption. rewrite L. simpl get_or.
  unfold TraumaState.for_memories.
  rewrite for_each_never_raises.
  2:{ intros m. destruct (negb (TraumaMemory.is_fully_healed m)); [|reflexivity].
      apply apply_healing_returns. rewrite P. simpl. lra. }
  cbv zeta. unfold value_of, state_of. simpl fst. simpl snd.
  split; [reflexivity|]. split; [destruct ledger; reflexivity|].
  rewrite memories_set_memories.
  replace (TraumaState.memories
             (TraumaState.set_last_healing_activity ledger (Some activity)))
    with (TraumaState.memories ledger) by (destruct ledger; reflexivity).
  induction (TraumaState.memories ledger) as [|m ms IH]; simpl; constructor;
    [|exact IH].
  destruct (TraumaMemory.is_fully_healed m); simpl; [reflexivity|].
  rewrite P.
  match goal with |- context [TraumaMemory.apply_healing ?a ?s m] =>
    destruct (apply_healing_current a s m) as (_ & O & C);
    unfold state_of in O, C; rewrite O, C;
    rewrite (Qltb_intro_false a 0) by (simpl; lra)
  end.
  split; [reflexivity|].
  rewrite py_max_is_Qmax.
  destruct (Q.max_spec (TraumaMemory.scar_threshold m)
              (TraumaMemory.current_impact m - amount * (0.5 * 0.5)))
    as [[L1 E1]|[L1 E1]];
  destruct (Q.max_spec (TraumaMemory.scar_threshold m)
              (TraumaMemory.current_impact m - amount * 0.25))
    as [[L2 E2]|[L2 E2]]; rewrite E1, E2; lra.
Qed.

End TraumaClaims.

(** ** Experience: diminishing returns *)

Section ExperienceClaims.

Import Practice.

Lemma lookup_present {V} (key : string) (d : list (string * V)) (v : V) :
  lookup key d = Some v -> In key (map fst d).
Proof.
  induction d as [|[k w] d IH]; simpl; [discriminate|].
  destruct (String.eqb k key) eqn:E; [|auto].
  apply String.eqb_eq in E. auto.
Qed.

Lemma lookup_in_range (category : string) (x : ExperienceLevels.t) (old : Q) :
  lookup category (ExperienceLevels._get_experience_dict x) = Some old ->
  Valid.experience x -> 0 <= old /\ old <= 1.
Proof.
  unfold Valid.experience. intros L R. rewrite Forall_forall in R. apply R.
  clear R. revert L. generalize (ExperienceLevels._get_experience_dict x) as d.
  induction d as [|[k w] d IH]; simpl; [discriminate|].
  destruct (String.eqb k category); [intros [= ->]; auto|auto].
Qed.

Lemma next_level_range (amount old : Q) :
  0 <= amount -> 0 <= old -> old <= 1 ->
  old <= next_level amount old /\ next_level amount old <= 1.
Proof.
  intros A L U. unfold next_level.
  assert (0 <= amount * (1.0 - old * 0.3)) by (apply Qmult_le_0_compat; lra).
  max_min_cases; lra.
Qed.

(** One valid call moves the level of its category to [next_level] and keeps
    every level within range. *)
Lemma gain_experience_level (category : string) (amount : Q) (source : string)
    (success : bool) (x : ExperienceLevels.t) (old : Q) :
  lookup category (ExperienceLevels._get_experience_dict x) = Some old ->
  0 <= amount ->
  Valid.experience x ->
  let x' := state_of (ExperienceLevels.gain_experience category amount source
                        success x) in
  level category x = old
  /\ level category x' = next_level amount old
  /\ lookup category (ExperienceLevels._get_experience_dict x')
     = Some (next_level amount old)
  /\ Valid.experience x'.
Proof.
  intros L A R. cbv zeta.
  unfold ExperienceLevels.gain_experience, state_of, level. rewrite L.
  rewrite Qltb_intro_false by assumption. cbn [fst get_or].
  fold (next_level amount old).
  assert (B : 0 <= old /\ old <= 1).
  { eapply lookup_in_range; eassumption. }
  destruct (next_level_range amount old A (proj1 B) (proj2 B)) as [N1 N2].
  assert (N : 0 <= next_level amount old /\ next_level amount old <= 1)
    by (split; lra).
  generalize dependent (next_level amount old). intros v _ _ N.
  split; [reflexivity|].
  pose proof (lookup_present _ _ _ L) as C.
  destruct x as [l n r c s sv cb h].
  unfold Valid.experience, Valid.unit_range in *. simpl in R.
  repeat match goal with R : Forall _ (_ :: _) |- _ =>
    let P := fresh "P" in apply Forall_cons_iff in R; destruct R as [P R] end.
  simpl in C.
  repeat (destruct C as [<-|C]; [repeat split; try reflexivity;
                                 simpl; repeat constructor; auto; tauto|]);
    contradiction.
Qed.

Lemma gain_repeatedly_level (n : nat) (category : string) (amount : Q)
    (source : string) (success : bool) (x : ExperienceLevels.t) (old : Q) :
  lookup category (ExperienceLevels._get_experience_dict x) = Some old ->
  0 <= amount ->
  Valid.experience x ->
  let xn := gain_repeatedly n category amount source success x in
  old <= level category xn /\ level category xn <= 1
  /\ lookup category (ExperienceLevels._get_experience_dict xn)
     = Some (level category xn)
  /\ Valid.experience xn.
Proof.
  revert x old. induction n as [|n IH]; intros x old L A R; cbv zeta.
  - simpl. unfold level. rewrite L. simpl.
    assert (B : 0 <= old /\ old <= 1).
    { eapply lookup_in_range; eassumption. }
    repeat split; try lra; assumption.
  - simpl.
    destruct (gain_experience_level category amount source success x old L A R)
      as (E0 & E1 & L' & R').
    specialize (IH _ _ L' A R'). cbv zeta in IH.
    destruct IH as (I1 & I2 & I3 & I4).
    assert (B : 0 <= old /\ old <= 1).
    { eapply lookup_in_range; eassumption. }
    destruct (next_level_range amount old A (proj1 B) (proj2 B)) as [N1 N2].
    repeat split; try assumption; lra.
Qed.

Lemma gain_repeatedly_succ (n : nat) (category : string) (amount : Q)
    (source : string) (success : bool) (x : ExperienceLevels.t) :
  gain_repeatedly (S n) category amount source success x
  = state_of (ExperienceLevels.gain_experience category amount source success
                (gain_repeatedly n category amount source success x)).
Proof.
  revert x. induction n as [|n IH]; intros x; [reflexivity|].
  change (gain_repeatedly (S (S n)) category amount source success x)
    with (gain_repeatedly (S n) category amount source success
            (state_of (ExperienceLevels.gain_experience category amount source
                         success x))).
  rewrite IH. reflexivity.
Qed.

(** C3 (as amended). For every category of the tracker and every
    non-negative amount, each call of [gain_experience] sets the level to
    min(1.0, old + amount * (1.0 - old * 0.3)); in a run of calls with the
    same arguments the level never falls and never exceeds 1, and neither
    the diminishing factor 1.0 - old * 0.3 nor the gain applied,
    amount * (1.0 - old * 0.3), is larger at a call than at the call before
    it. *)
Theorem repeated_gains_apply_a_shrinking_factor
    (x : ExperienceLevels.t) (category : string) (amount : Q) (source : string)
    (success : bool) (n : nat) :
  Valid.experience x ->
  In category (map fst (ExperienceLevels._get_experience_dict x)) ->
  0 <= amount ->
  let before :=
    level category (gain_repeatedly n category amount source success x) in
  let after :=
    level category (gain_repeatedly (S n) category amount source success x) in
  after = py_min 1.0 (before + amount * (1.0 - before * 0.3))
  /\ before <= after
  /\ after <= 1
  /\ 1.0 - after * 0.3 <= 1.0 - before * 0.3
  /\ amount * (1.0 - after * 0.3) <= amount * (1.0 - before * 0.3).
Proof.
  intros R C A.
  assert (L : exists old,
             lookup category (ExperienceLevels._get_experience_dict x) = Some old).
  { destruct x as [l k r c s sv cb h]. simpl in C.
    repeat (destruct C as [<-|C]; [eexists; reflexivity|]). contradiction. }
  destruct L as [old L]. cbv zeta.
  rewrite gain_repeatedly_succ.
  destruct (gain_repeatedly_level n category amount source success x old L A R)
    as (B1 & B2 & Ln & Rn).
  set (xn := gain_repeatedly n category amount source success x) in *.
  destruct (gain_experience_level category amount source success xn _ Ln A Rn)
    as (_ & E1 & _ & _).
  rewrite E1.
  assert (B0 : 0 <= old) by (eapply lookup_in_range; eassumption).
  destruct (next_level_range amount (level category xn) A) as [N1 N2];
    try lra.
  split; [reflexivity|]. split; [exact N1|]. split; [exact N2|].
  split; [lra|].
  rewrite !(Qmult_comm amount). apply Qmult_le_compat_r; lra.
Qed.

End ExperienceClaims.

(** ** Relationships *)

Section RelationshipClaims.
Context `{Runtime}.

(** C5. A default [RelationshipDimensions] has trust, respect and affection
    0.5, dependency and fear 0.0, and is of type "neutral"; after
    [apply_relationship_event('saved_from_danger')] at the default strength
    its type is "friend", one of the warmer categories. *)
Theorem default_is_neutral_and_rescue_makes_a_friend (clock : nat -> datetime) :
  let r0 := RelationshipDimensions.default in
  let call :=
    RelationshipDimensions.apply_relationship_event clock "saved_from_danger"
      1.0 r0 in
  RelationshipDimensions.trust r0 = 0.5
  /\ RelationshipDimensions.respect r0 = 0.5
  /\ RelationshipDimensions.affection r0 = 0.5
  /\ RelationshipDimensions.dependency r0 = 0.0
  /\ RelationshipDimensions.fear r0 = 0.0
  /\ RelationshipDimensions.get_relationship_type r0 = "neutral"
  /\ value_of call = Ok tt
  /\ RelationshipDimensions.get_relationship_type (state_of call) = "friend"
  /\ In (RelationshipDimensions.get_relationship_type (state_of call))
        ["friend"; "trusted ally"; "close friend"].
Proof.
  cbv zeta. do 8 (split; [vm_compute; reflexivity|]).
  vm_compute. auto.
Qed.

(** C7. A relationship graph without entries has social isolation 1.0 and
    social influence 0.0. *)
Theorem empty_graph_is_isolated_and_without_influence :
  RelationshipMatrix.calculate_social_isolation RelationshipMatrix.default = 1.0
  /\ RelationshipMatrix.calculate_social_influence RelationshipMatrix.default
     = 0.0.
Proof. split; reflexivity. Qed.

End RelationshipClaims.

(** ** The character: resting *)

Section RestClaims.
Context `{Runtime}.

Lemma clamp01_in_range (v : Q) : 0 <= v -> v <= 1 -> NPCState.clamp01 v == v.
Proof.
  intros L U. unfold NPCState.clamp01. max_min_cases; lra.
Qed.

Lemma clamp01_is_min (v : Q) : 0 <= v -> NPCState.clamp01 v == Qmin 1 v.
Proof.
  intros L. unfold NPCState.clamp01.
  destruct (Q.min_spec 1 v) as [[A E]|[A E]]; rewrite E; max_min_cases; lra.
Qed.

(** C9. For a character whose vitals are within 0 and 1, a successful REST
    with an empty outcome returns the empty experience map and moves energy
    to min(1, e + 0.8): 0.4 from the negative energy cost of the metadata
    and 0.4 from the REST branch; health becomes min(1, h + 0.1) when it was
    below 0.8 and stays as it was otherwise. *)
Theorem rest_restores_energy_twice (clock : nat -> datetime) (now : datetime)
    (outcome : option NPCState.outcome_data) (npc : NPCState.t) :
  Valid.vitals npc ->
  get_or outcome NPCState.no_outcome = NPCState.no_outcome ->
  let r := NPCState.perform_action clock now REST true outcome npc in
  value_of r = Ok []
  /\ energy_cost (get_action_metadata REST) = -0.4
  /\ NPCState.energy_level (state_of r)
     == Qmin 1 (NPCState.energy_level npc + 0.8)
  /\ (NPCState.health npc < 0.8 ->
      NPCState.health (state_of r) == Qmin 1 (NPCState.health npc + 0.1))
  /\ (0.8 <= NPCState.health npc ->
      NPCState.health (state_of r) == NPCState.health npc).
Proof.
  intros ([H1 H2] & [U1 U2] & [E1 E2]) O. cbv zeta.
  unfold NPCState.perform_action. rewrite O.
  destruct npc as [i n a h hu e p x tr r la las d ts]. simpl in *.
  unfold bind, NPCState.on_experience, NPCState.set_last_action. simpl.
  destruct x as [l k rm c s sv cb hist]. simpl.
  split; [reflexivity|]. split; [reflexivity|].
  unfold value_of, state_of. simpl.
  assert (C0 : NPCState.clamp01 (h + 0.0) == h)
    by (rewrite clamp01_in_range; lra).
  assert (Hlt : forall z, Qltb (NPCState.clamp01 (h + 0.0)) z = Qltb h z).
  { intros z. unfold Qltb. f_equal. apply Qleb_comp; [reflexivity|exact C0]. }
  rewrite Hlt. split; [|split].
  - unfold NPCState.clamp01.
    destruct (Q.min_spec 1 (e + 0.8)) as [[A E]|[A E]]; rewrite E;
      max_min_cases; lra.
  - intros Lt. rewrite Qltb_intro by assumption.
    rewrite clamp01_is_min by (rewrite C0; lra).
    rewrite C0. reflexivity.
  - intros Ge. rewrite Qltb_intro_false by assumption.
    rewrite clamp01_in_range; rewrite C0; lra.
Qed.

End RestClaims.

(** ** Invalid input *)

Section InvalidInput.
Context `{Runtime}.

(** [gain_experience] rejects an unknown category or a negative amount and
    leaves the tracker as it was. *)
Lemma gain_experience_rejects (category : string) (amount : Q) (source : string)
    (success : bool) (x : ExperienceLevels.t) :
  lookup category (ExperienceLevels._get_experience_dict x) = None
  \/ amount < 0 ->
  let r := ExperienceLevels.gain_experience category amount source success x in
  state_of r = x /\ raised (value_of r) = true.
Proof.
  intros I. cbv zeta. unfold ExperienceLevels.gain_experience.
  destruct (lookup category _) as [old|]; [|split; reflexivity].
  destruct I as [I|I]; [discriminate|].
  rewrite Qltb_intro by assumption. split; reflexivity.
Qed.

(** [update_dimension] raises on every name that is not a dimension, also
    on the attribute names that pass its [hasattr] test, and leaves the
    relationship as it was.  (Which exception it is, [ValueError] or
    [TypeError], the embedding tells for the names that do not start with
    two underscores.) *)
Lemma update_dimension_rejects (now : datetime) (dimension : string) (change : Q)
    (reason : string) (scaled : bool) (self : RelationshipDimensions.t) :
  RelationshipDimensions.dimension_value self dimension = None ->
  let r := RelationshipDimensions.update_dimension now dimension change reason
             scaled self in
  state_of r = self /\ raised (value_of r) = true.
Proof.
  intros I. cbv zeta. unfold RelationshipDimensions.update_dimension.
  destruct (negb (RelationshipDimensions.hasattr self dimension));
    [split; reflexivity|].
  rewrite I. split; reflexivity.
Qed.

(** [apply_relationship_event] on a relationship rejects an unknown event
    name before it applies any dimension of any bundle. *)
Lemma apply_relationship_event_rejects (clock : nat -> datetime)
    (event_type : string) (strength : Q) (self : RelationshipDimensions.t) :
  lookup event_type RelationshipDimensions.relationship_events = None ->
  let r := RelationshipDimensions.apply_relationship_event clock event_type
             strength self in
  state_of r = self /\ raised (value_of r) = true.
Proof.
  intros I. cbv zeta. unfold RelationshipDimensions.apply_relationship_event.
  rewrite I. split; reflexivity.
Qed.

(** [set_trait] rejects a name that is no attribute at all, and a value
    outside 0 and 1, and leaves the traits as they were.  Names that start
    with two underscores are set aside: the table of attributes does not
    list the inherited ones. *)
Lemma set_trait_rejects (trait_name : string) (value : Q)
    (p : PersonalityTraits.t) :
  dunder trait_name = false ->
  PersonalityTraits.hasattr p trait_name = false
  \/ value < 0 \/ 1 < value ->
  let r := PersonalityTraits.set_trait trait_name value p in
  state_of r = p /\ raised (value_of r) = true.
Proof.
  intros _ I. cbv zeta. unfold PersonalityTraits.set_trait.
  destruct (PersonalityTraits.hasattr p trait_name); simpl;
    [|split; reflexivity].
  destruct I as [I|I]; [discriminate|].
  assert (R : PersonalityTraits.in_unit_range value = false).
  { unfold PersonalityTraits.in_unit_range.
    destruct I as [I|I].
    - rewrite Qleb_intro_false by assumption. reflexivity.
    - rewrite (Qleb_intro_false value 1) by assumption. apply andb_false_r. }
  rewrite R. split; reflexivity.
Qed.

(** [add_trauma] rejects a negative impact or age and leaves the ledger as
    it was. *)
Lemma add_trauma_rejects (now : datetime) (event_type : string) (impact : Q)
    (age : Z) (description : string) (related : option (list string))
    (ledger : TraumaState.t) :
  impact < 0 \/ (age < 0)%Z ->
  let r := TraumaState.add_trauma now event_type impact age description related
             ledger in
  state_of r = ledger /\ raised (value_of r) = true.
Proof.
  intros I. cbv zeta. unfold TraumaState.add_trauma.
  destruct (Qltb impact 0) eqn:E; [split; reflexivity|].
  apply Qltb_false in E. destruct I as [I|I]; [lra|].
  apply Z.ltb_lt in I. rewrite I. split; reflexivity.
Qed.

(** [interact_with_npc] answers an unknown interaction type with the error
    payload, raises nothing and leaves the character as it was. *)
Lemma interact_with_npc_rejects (clock : nat -> datetime) (now : datetime)
    (target interaction_type outcome : string) (npc : NPCState.t) :
  lookup interaction_type NPCState.interaction_effects = None ->
  NPCState.interact_with_npc clock now target interaction_type outcome npc
  = (npc, Ok (NPCState.ErrorPayload
                ("Unknown interaction type: " ++ interaction_type))).
Proof.
  intros I. unfold NPCState.interact_with_npc. rewrite I. reflexivity.
Qed.

(** On the graph, the entry of a partner not met before is created before
    the event name is looked at: the call raises and the entry stays. *)
Lemma graph_event_creates_entry_before_it_rejects (clock : nat -> datetime) :
  RelationshipMatrix.apply_relationship_event clock "bob" "no_such_event" 1.0
    RelationshipMatrix.default
  = ({| RelationshipMatrix.relationships :=
          [("bob", RelationshipDimensions.default)] |},
     Raise (ValueError "Unknown event type: no_such_event")).
Proof. reflexivity. Qed.

End InvalidInput.

(** C4, where the code departs from it. [set_trait] tests the name with
    [hasattr], which also finds the methods of the class: "to_dict" is not
    one of the eight traits, yet [set_trait('to_dict', 0.5)] on a default
    personality is not rejected; it stores 0.5 in the instance under that
    name, and [to_dict] can no longer be called on the object. *)
Theorem set_trait_takes_a_method_name_for_a_trait :
  let p := PersonalityTraits.default in
  let p' := state_of (PersonalityTraits.set_trait "to_dict" 0.5 p) in
  str_in "to_dict" PersonalityTraits.field_names = false
  /\ PersonalityTraits.field p "to_dict" = None
  /\ value_of (PersonalityTraits.set_trait "to_dict" 0.5 p) = Ok tt
  /\ PersonalityTraits.instance_attrs p = []
  /\ PersonalityTraits.instance_attrs p' = [("to_dict", 0.5)]
  /\ p' <> p
  /\ PersonalityTraits.to_dict p'
     = Raise (TypeError "'float' object is not callable").
Proof.
  cbv zeta. repeat split; try reflexivity.
  intros E. apply (f_equal PersonalityTraits.instance_attrs) in E.
  discriminate E.
Qed.

(** ** Serialization: there and back *)

Section RoundTrip.
Context `{Runtime}.

Lemma range_check (f : Q -> bool) (vs : list Q) :
  (forall v, f v = Qleb 0 v && Qleb v 1) ->
  Forall Valid.unit_range vs -> forallb f vs = true.
Proof.
  intros F. induction 1 as [|v vs [L U] _ IH]; simpl; [reflexivity|].
  rewrite F, IH. rewrite !Qleb_intro by assumption. reflexivity.
Qed.

Lemma personality_round_trip (p : PersonalityTraits.t) :
  Valid.personality p ->
  exists data, PersonalityTraits.to_dict p = Ok data
               /\ PersonalityTraits.from_dict data = Ok p.
Proof.
  intros [R E]. destruct p as [g s l a f c an i extra]. simpl in *. subst extra.
  eexists. split; [reflexivity|].
  unfold PersonalityTraits.from_dict, PersonalityTraits.make. simpl get_or.
  rewrite (range_check PersonalityTraits.in_unit_range) by (auto || reflexivity).
  reflexivity.
Qed.

Lemma experience_round_trip (x : ExperienceLevels.t) :
  Valid.experience x ->
  ExperienceLevels.from_dict (ExperienceLevels.to_dict x) = Ok x.
Proof.
  intros R. destruct x as [l n r c s sv cb h].
  unfold Valid.experience in R. simpl in R.
  unfold ExperienceLevels.from_dict, ExperienceLevels.make. simpl get_or.
  rewrite (range_check ExperienceLevels.in_unit_range) by (auto || reflexivity).
  reflexivity.
Qed.

Lemma memory_round_trip (now : datetime) (m : TraumaMemory.t) :
  Valid.memory m ->
  TraumaMemory.from_dict now (TraumaMemory.to_dict m) = Ok m.
Proof.
  intros (O & C & B & A). destruct m as [e o c a d r h ts]. simpl in *.
  unfold TraumaMemory.from_dict, TraumaMemory.to_dict, parse_datetime.
  simpl. rewrite fromisoformat_isoformat. simpl.
  unfold TraumaMemory.make.
  rewrite !Qltb_intro_false by assumption.
  apply Z.ltb_ge in A. rewrite A. reflexivity.
Qed.

Lemma memories_round_trip (now : datetime) (ms : list TraumaMemory.t) :
  Forall Valid.memory ms ->
  TraumaState.memories_from now (map TraumaMemory.to_dict ms) = Ok ms.
Proof.
  induction 1 as [|m ms V _ IH]; simpl; [reflexivity|].
  rewrite memory_round_trip by assumption. rewrite IH. reflexivity.
Qed.

Lemma ledger_round_trip (now : datetime) (s : TraumaState.t) :
  Valid.ledger s ->
  TraumaState.from_dict now (TraumaState.to_dict s) = Ok s.
Proof.
  intros V. destruct s as [ms hp la rate]. unfold Valid.ledger in V. simpl in V.
  unfold TraumaState.from_dict, TraumaState.to_dict. simpl.
  rewrite memories_round_trip by assumption. reflexivity.
Qed.

Lemma dimensions_round_trip (r : RelationshipDimensions.t) :
  Valid.dimensions r ->
  RelationshipDimensions.from_dict (RelationshipDimensions.to_dict r) = Ok r.
Proof.
  intros R. destruct r as [tr re af de fe h]. unfold Valid.dimensions in R.
  simpl in R.
  unfold RelationshipDimensions.from_dict, RelationshipDimensions.make.
  simpl get_or.
  rewrite (range_check RelationshipDimensions.in_unit_range)
    by (auto || reflexivity).
  reflexivity.
Qed.

Lemma assign_fresh {V} (key : string) (v : V) (d : list (string * V)) :
  ~ In key (map fst d) -> RelationshipMatrix.assign key v d = (d ++ [(key, v)])%list.
Proof.
  induction d as [|[k w] d IH]; simpl; intros N; [reflexivity|].
  destruct (String.eqb k key) eqn:E.
  - apply String.eqb_eq in E. tauto.
  - rewrite IH by tauto. reflexivity.
Qed.

Lemma entries_round_trip (rels acc : list (string * RelationshipDimensions.t)) :
  NoDup (map fst (acc ++ rels)%list) ->
  Forall Valid.dimensions (map snd rels) ->
  RelationshipMatrix.from_items
    (map (fun entry => (fst entry, RelationshipDimensions.to_dict (snd entry)))
       rels) acc
  = Ok (RelationshipMatrix.Build_t (acc ++ rels)%list).
Proof.
  revert acc. induction rels as [|[k r] rels IH]; intros acc N V; simpl.
  - now rewrite app_nil_r.
  - simpl in V. apply Forall_cons_iff in V. destruct V as [Vr V].
    rewrite dimensions_round_trip by assumption.
    rewrite map_app in N. simpl in N.
    pose proof (NoDup_remove_2 _ _ _ N) as F.
    rewrite assign_fresh by (intros I; apply F; apply in_or_app; auto).
    rewrite IH; [|rewrite <- app_assoc, map_app; exact N|assumption].
    now rewrite <- app_assoc.
Qed.

Lemma graph_round_trip (g : RelationshipMatrix.t) :
  Valid.graph g ->
  RelationshipMatrix.from_dict (RelationshipMatrix.to_dict g) = Ok g.
Proof.
  intros [N V]. destruct g as [rels]. simpl in *.
  unfold RelationshipMatrix.from_dict, RelationshipMatrix.to_dict. simpl.
  now rewrite entries_round_trip.
Qed.

Lemma character_round_trip (now : datetime) (npc : NPCState.t) :
  Valid.character npc ->
  exists data, NPCState.to_dict npc = Ok data
               /\ NPCState.from_dict now data = Ok npc.
Proof.
  intros (A & (Vh & Vu & Ve) & N & P & X & T & G).
  destruct npc as [i n a h hu e p x tr r la las d ts]. simpl in *.
  destruct (personality_round_trip p P) as (pd & Pto & Pfrom).
  unfold NPCState.to_dict. simpl. rewrite Pto.
  eexists. split; [reflexivity|].
  unfold NPCState.from_dict, parse_datetime. simpl.
  rewrite fromisoformat_isoformat. unfold NPCState.make.
  apply Z.ltb_ge in A. rewrite A.
  rewrite (range_check NPCState.in_unit_range) by (auto || reflexivity).
  simpl negb. cbv iota.
  rewrite Pfrom, experience_round_trip, ledger_round_trip, graph_round_trip
    by assumption.
  destruct (String.eqb n "") eqn:E.
  - apply String.eqb_eq in E. contradiction.
  - reflexivity.
Qed.

(** C6. For every experience tracker, trauma ledger, relationship graph and
    character that passed its constructor's checks, [from_dict] of [to_dict]
    is the value itself: every field, and every history list entry by entry
    in its order. *)
Theorem to_dict_from_dict_round_trip (now : datetime)
    (x : ExperienceLevels.t) (s : TraumaState.t) (g : RelationshipMatrix.t)
    (npc : NPCState.t) :
  Valid.experience x -> Valid.ledger s -> Valid.graph g ->
  Valid.character npc ->
  ExperienceLevels.from_dict (ExperienceLevels.to_dict x) = Ok x
  /\ TraumaState.from_dict now (TraumaState.to_dict s) = Ok s
  /\ RelationshipMatrix.from_dict (RelationshipMatrix.to_dict g) = Ok g
  /\ exists data, NPCState.to_dict npc = Ok data
                  /\ NPCState.from_dict now data = Ok npc.
Proof.
  intros X S G N.
  auto using experience_round_trip, ledger_round_trip, graph_round_trip,
    character_round_trip.
Qed.

End RoundTrip.

(** ** Reconstruction from incomplete records *)

Section Leniency.
Context `{Runtime}.

Import Defaults.

Lemma personality_defaults (d : PersonalityTraits.dict) :
  PersonalityTraits.from_dict d = PersonalityTraits.from_dict (personality d).
Proof. reflexivity. Qed.

Lemma experience_defaults (d : ExperienceLevels.dict) :
  ExperienceLevels.from_dict d = ExperienceLevels.from_dict (experience d).
Proof. reflexivity. Qed.

Lemma memory_defaults (now : datetime) (d : TraumaMemory.dict) :
  TraumaMemory.from_dict now d = TraumaMemory.from_dict now (memory now d).
Proof. reflexivity. Qed.

Lemma memories_defaults (now : datetime) (ds : list TraumaMemory.dict) :
  TraumaState.memories_from now ds
  = TraumaState.memories_from now (map (memory now) ds).
Proof.
  induction ds as [|d ds IH]; simpl; [reflexivity|].
  rewrite <- memory_defaults, <- IH. reflexivity.
Qed.

Lemma ledger_defaults (now : datetime) (d : TraumaState.dict) :
  TraumaState.from_dict now d = TraumaState.from_dict now (ledger now d).
Proof.
  unfold TraumaState.from_dict, ledger. simpl.
  rewrite <- memories_defaults. reflexivity.
Qed.

Lemma dimensions_defaults (d : RelationshipDimensions.dict) :
  RelationshipDimensions.from_dict d
  = RelationshipDimensions.from_dict (dimensions d).
Proof. reflexivity. Qed.

Lemma graph_defaults (d : RelationshipMatrix.dict) :
  RelationshipMatrix.from_dict d = RelationshipMatrix.from_dict (graph d).
Proof.
  unfold RelationshipMatrix.from_dict, graph.
  generalize (@nil (string * RelationshipDimensions.t)) as acc.
  induction d as [|[k r] d IH]; intros acc; simpl; [reflexivity|].
  rewrite <- dimensions_defaults.
  destruct (RelationshipDimensions.from_dict r); [apply IH|reflexivity].
Qed.

(** The constructors raise [ValueError] only. *)
Lemma personality_no_key_error (d : PersonalityTraits.dict) :
  is_key_error (PersonalityTraits.from_dict d) = false.
Proof.
  unfold PersonalityTraits.from_dict, PersonalityTraits.make.
  destruct (forallb _ _); reflexivity.
Qed.

Lemma experience_no_key_error (d : ExperienceLevels.dict) :
  is_key_error (ExperienceLevels.from_dict d) = false.
Proof.
  unfold ExperienceLevels.from_dict, ExperienceLevels.make.
  destruct (forallb _ _); reflexivity.
Qed.

Lemma dimensions_no_key_error (d : RelationshipDimensions.dict) :
  is_key_error (RelationshipDimensions.from_dict d) = false.
Proof.
  unfold RelationshipDimensions.from_dict, RelationshipDimensions.make.
  destruct (forallb _ _); reflexivity.
Qed.

Lemma graph_no_key_error (d : RelationshipMatrix.dict) :
  is_key_error (RelationshipMatrix.from_dict d) = false.
Proof.
  unfold RelationshipMatrix.from_dict.
  generalize (@nil (string * RelationshipDimensions.t)) as acc.
  induction d as [|[k r] d IH]; intros acc; simpl; [reflexivity|].
  pose proof (dimensions_no_key_error r) as K.
  destruct (RelationshipDimensions.from_dict r) as [rel|e]; [apply IH|exact K].
Qed.

Lemma memory_no_key_error (now : datetime) (d : TraumaMemory.dict) :
  memory_keys d = true -> is_key_error (TraumaMemory.from_dict now d) = false.
Proof.
  destruct d as [[e|] [o|] [c|] [a|] [ds|] r h ts]; try discriminate.
  intros _. unfold TraumaMemory.from_dict, parse_datetime. simpl.
  destruct (fromisoformat _); [|reflexivity].
  unfold TraumaMemory.make.
  repeat match goal with |- context [if ?b then _ else _] =>
    destruct b; try reflexivity end.
Qed.

Lemma memories_no_key_error (now : datetime) (ds : list TraumaMemory.dict) :
  forallb memory_keys ds = true ->
  is_key_error (TraumaState.memories_from now ds) = false.
Proof.
  induction ds as [|d ds IH]; simpl; [reflexivity|].
  intros K. apply andb_true_iff in K. destruct K as [K1 K2].
  pose proof (memory_no_key_error now d K1) as M.
  destruct (TraumaMemory.from_dict now d) as [m|e]; [|exact M].
  specialize (IH K2).
  destruct (TraumaState.memories_from now ds) as [ms|e]; [reflexivity|exact IH].
Qed.

Lemma ledger_no_key_error (now : datetime) (d : TraumaState.dict) :
  forallb memory_keys (get_or (TraumaState.d_memories d) []) = true ->
  is_key_error (TraumaState.from_dict now d) = false.
Proof.
  intros K. unfold TraumaState.from_dict.
  pose proof (memories_no_key_error now _ K) as M.
  destruct (TraumaState.memories_from now _) as [ms|e]; [reflexivity|exact M].
Qed.

Lemma character_defaults (now : datetime) (d : NPCState.dict) :
  NPCState.from_dict now d = NPCState.from_dict now (character now d).
Proof.
  unfold NPCState.from_dict, character. simpl.
  destruct (get_item "npc_id" (NPCState.d_npc_id d)) as [id|e]; [|reflexivity].
  destruct (parse_datetime _) as [ts|e]; [|reflexivity].
  unfold NPCState.make.
  destruct (get_or (NPCState.d_age d) 25 <? 0)%Z; [reflexivity|].
  destruct (negb _); [reflexivity|]. simpl.
  assert (P : NPCState.rebuilt (NPCState.d_personality d)
                PersonalityTraits.from_dict PersonalityTraits.default
              = PersonalityTraits.from_dict
                  (personality
                     (get_or (NPCState.d_personality d) no_personality))).
  { destruct (NPCState.d_personality d); reflexivity. }
  assert (X : NPCState.rebuilt (NPCState.d_experience d)
                ExperienceLevels.from_dict ExperienceLevels.default
              = ExperienceLevels.from_dict
                  (experience (get_or (NPCState.d_experience d) no_experience))).
  { destruct (NPCState.d_experience d); reflexivity. }
  assert (T : NPCState.rebuilt (NPCState.d_trauma d)
                (TraumaState.from_dict now) TraumaState.default
              = TraumaState.from_dict now
                  (ledger now (get_or (NPCState.d_trauma d) no_ledger))).
  { destruct (NPCState.d_trauma d) as [td|]; simpl; [|reflexivity].
    apply ledger_defaults. }
  assert (G : NPCState.rebuilt (NPCState.d_relationships d)
                RelationshipMatrix.from_dict RelationshipMatrix.default
              = RelationshipMatrix.from_dict
                  (graph (get_or (NPCState.d_relationships d) []))).
  { destruct (NPCState.d_relationships d) as [gd|]; simpl; [|reflexivity].
    apply graph_defaults. }
  rewrite P, X, T, G. reflexivity.
Qed.

Lemma character_no_key_error (now : datetime) (d : NPCState.dict) :
  character_keys d = true -> is_key_error (NPCState.from_dict now d) = false.
Proof.
  unfold character_keys. intros K. apply andb_true_iff in K.
  destruct K as [K1 K2].
  unfold NPCState.from_dict.
  destruct (NPCState.d_npc_id d) as [id|]; [|discriminate]. simpl.
  unfold parse_datetime. destruct (fromisoformat _); [|reflexivity].
  unfold NPCState.make.
  destruct (_ <? 0)%Z; [reflexivity|].
  destruct (negb _); [reflexivity|]. simpl.
  assert (P : is_key_error
                (NPCState.rebuilt (NPCState.d_personality d)
                   PersonalityTraits.from_dict PersonalityTraits.default)
              = false).
  { destruct (NPCState.d_personality d); simpl;
      [apply personality_no_key_error|reflexivity]. }
  assert (X : is_key_error
                (NPCState.rebuilt (NPCState.d_experience d)
                   ExperienceLevels.from_dict ExperienceLevels.default)
              = false).
  { destruct (NPCState.d_experience d); simpl;
      [apply experience_no_key_error|reflexivity]. }
  assert (T : is_key_error
                (NPCState.rebuilt (NPCState.d_trauma d)
                   (TraumaState.from_dict now) TraumaState.default)
              = false).
  { destruct (NPCState.d_trauma d) as [td|]; simpl in *;
      [now apply ledger_no_key_error|reflexivity]. }
  assert (G : is_key_error
                (NPCState.rebuilt (NPCState.d_relationships d)
                   RelationshipMatrix.from_dict RelationshipMatrix.default)
              = false).
  { destruct (NPCState.d_relationships d); simpl;
      [apply graph_no_key_error|reflexivity]. }
  destruct (NPCState.rebuilt (NPCState.d_personality d) _ _); [|exact P].
  destruct (NPCState.rebuilt (NPCState.d_experience d) _ _); [|exact X].
  destruct (NPCState.rebuilt (NPCState.d_trauma d) _ _); [|exact T].
  destruct (NPCState.rebuilt (NPCState.d_relationships d) _ _); [|exact G].
  reflexivity.
Qed.

Lemma only_id_gives_the_default_character (now : datetime) (id : string) :
  NPCState.from_dict now (only_id id) = NPCState.default now id
  /\ raised (NPCState.default now id) = false.
Proof.
  unfold NPCState.from_dict, NPCState.default, parse_datetime. simpl.
  rewrite fromisoformat_isoformat. split; reflexivity.
Qed.

(** C8 (as amended). For every persisted character in which the keys the
    code reads with [data[...]] are present -- [npc_id], and in each
    persisted memory [event_type], [original_impact], [current_impact],
    [age_when_occurred] and [description] -- [from_dict] raises no
    [KeyError] and rebuilds exactly what it rebuilds from the record in
    which every other missing key of the character, its personality,
    experience, ledger, memories and relationships is spelled out with its
    default; a record holding only [npc_id] gives the default character. *)
Theorem from_dict_fills_missing_optional_keys (now : datetime)
    (data : NPCState.dict) :
  character_keys data = true ->
  NPCState.from_dict now data = NPCState.from_dict now (character now data)
  /\ is_key_error (NPCState.from_dict now data) = false
  /\ forall id,
       NPCState.from_dict now (only_id id) = NPCState.default now id
       /\ raised (NPCState.default now id) = false.
Proof.
  intros K. split; [apply character_defaults|].
  split; [now apply character_no_key_error|].
  apply only_id_gives_the_default_character.
Qed.

End Leniency.

(** ** The claims at concrete values *)

Section AtExamples.

#[local] Existing Instance text_runtime.

Import Healing Practice Examples.

Ltac decide_order := vm_compute; solve [reflexivity | discriminate].

Lemma ledger_is_settled : Forall settled (TraumaState.memories ledger).
Proof. repeat constructor; decide_order. Defined.

(** C1 fails as stated: [faded] is a memory the constructor accepts; its
    current impact 0.1 is below its scar threshold 0.6, and healing it by
    0.05 raises the current impact to 0.6. *)
Lemma healing_raises_a_memory_created_below_its_scar :
  TraumaMemory.make "violence" 2.0 0.1 30 "Attacked on the road" [] [] noon
  = Ok faded
  /\ TraumaMemory.current_impact faded < TraumaMemory.scar_threshold faded
  /\ TraumaMemory.current_impact faded
     < TraumaMemory.current_impact
         (state_of (TraumaMemory.apply_healing 0.05 "rest" faded)).
Proof. split; [reflexivity|split; decide_order]. Qed.

Lemma healing_keeps_impact_between_scar_and_original_witness :
  Forall settled (TraumaState.memories ledger)
  /\ Forall2
       (fun m1 m2 =>
          TraumaMemory.original_impact m2 = TraumaMemory.original_impact m1
          /\ TraumaMemory.scar_threshold m2 <= TraumaMemory.current_impact m2
          /\ TraumaMemory.current_impact m2 <= TraumaMemory.original_impact m2
          /\ TraumaMemory.current_impact m2 <= TraumaMemory.current_impact m1)
       (TraumaState.memories (run_all [Heal 0 0.3 "therapy"] ledger))
       (TraumaState.memories
          (run_all ([Heal 0 0.3 "therapy"]
                    ++ [Daily PersonalityTraits.default 30;
                        Counter "trust_restoration" 0.5 "An ally kept faith";
                        Activity "meditation" 0.1 None])
             ledger)).
Proof.
  split; [exact ledger_is_settled|].
  apply (healing_keeps_impact_between_scar_and_original ledger
           [Heal 0 0.3 "therapy"]
           [Daily PersonalityTraits.default 30;
            Counter "trust_restoration" 0.5 "An ally kept faith";
            Activity "meditation" 0.1 None]).
  exact ledger_is_settled.
Defined.

(** C2 fails as stated: the memory of original impact 0.8 has scar
    threshold 0.08, not about 0.24, and healing it by 0.7 takes its current
    impact to 0.1, across 0.24. *)
Lemma scar_of_eight_tenths_is_not_a_quarter :
  TraumaMemory.original_impact betrayal = 0.8
  /\ TraumaMemory.scar_threshold betrayal == 0.08
  /\ ~ (0.23 <= TraumaMemory.scar_threshold betrayal)
  /\ TraumaMemory.current_impact
       (state_of (TraumaMemory.apply_healing 0.7 "therapy" betrayal)) < 0.24.
Proof.
  split; [reflexivity|]. split; [decide_order|]. split; [|decide_order].
  vm_compute. intros L. apply L. reflexivity.
Qed.

Lemma moderate_trauma_scar_is_a_tenth_witness :
  TraumaMemory.original_impact betrayal == 0.8
  /\ TraumaMemory.current_impact betrayal == 0.8
  /\ TraumaMemory.scar_threshold betrayal == 0.08
  /\ 0.08 <= TraumaMemory.current_impact
               (heal_repeatedly [0.2; 0.2; 0.5] "therapy" betrayal).
Proof.
  assert (O : TraumaMemory.original_impact betrayal == 0.8) by reflexivity.
  assert (C : TraumaMemory.current_impact betrayal == 0.8) by reflexivity.
  split; [exact O|]. split; [exact C|].
  pose proof (moderate_trauma_scar_is_a_tenth betrayal [0.2; 0.2; 0.5] "therapy"
                O C) as T.
  split; [exact (proj1 T)|exact (proj1 (proj2 T))].
Defined.

Lemma repeated_gains_apply_a_shrinking_factor_witness :
  Valid.experience ExperienceLevels.default
  /\ level "survival"
       (gain_repeatedly 2 "survival" 0.3 "practice" true ExperienceLevels.default)
     = py_min 1.0
         (level "survival"
            (gain_repeatedly 1 "survival" 0.3 "practice" true
               ExperienceLevels.default)
          + 0.3 * (1.0 - level "survival"
                           (gain_repeatedly 1 "survival" 0.3 "practice" true
                              ExperienceLevels.default) * 0.3))
  /\ level "survival"
       (gain_repeatedly 1 "survival" 0.3 "practice" true ExperienceLevels.default)
     <= level "survival"
          (gain_repeatedly 2 "survival" 0.3 "practice" true
             ExperienceLevels.default).
Proof.
  assert (R : Valid.experience ExperienceLevels.default)
    by (repeat constructor; decide_order).
  assert (C : In "survival"
                (map fst (ExperienceLevels._get_experience_dict
                            ExperienceLevels.default)))
    by (simpl; tauto).
  assert (A : 0 <= 0.3) by decide_order.
  pose proof (repeated_gains_apply_a_shrinking_factor ExperienceLevels.default
                "survival" 0.3 "practice" true 1 R C A) as T.
  cbv zeta in T.
  split; [exact R|]. split; [exact (proj1 T)|exact (proj1 (proj2 T))].
Defined.

(** C3 fails as stated: in binary64, from the levels of
    [ExperienceLevels()] and with amount 1e-16, the level rises at every
    one of the first nine calls, and the ninth call records a larger
    [amount_gained] than the eighth. *)
Lemma a_later_call_gains_more_in_binary64 :
  PrimFloat.ltb
    (Binary64.level_after 7 Binary64.tiny_amount Binary64.untrained)
    (Binary64.level_after 8 Binary64.tiny_amount Binary64.untrained)
  = true
  /\ PrimFloat.ltb
       (Binary64.level_after 8 Binary64.tiny_amount Binary64.untrained)
       (Binary64.level_after 9 Binary64.tiny_amount Binary64.untrained)
     = true
  /\ PrimFloat.ltb
       (Binary64.amount_gained 7 Binary64.tiny_amount Binary64.untrained)
       (Binary64.amount_gained 8 Binary64.tiny_amount Binary64.untrained)
     = true.
Proof. repeat split; vm_compute; reflexivity. Qed.

Lemma villager_is_valid : Valid.character villager.
Proof.
  unfold Valid.character, Valid.vitals, Valid.personality, Valid.experience,
    Valid.ledger, Valid.graph, Valid.unit_range. simpl.
  repeat match goal with
  | |- _ /\ _ => split
  | |- Forall _ _ => constructor
  | |- NoDup _ => constructor
  | |- ~ In _ _ => simpl; tauto
  | |- _ <> _ => discriminate
  | |- (_ <= _)%Z => lia
  | |- _ = _ => reflexivity
  | |- Valid.memory _ => unfold Valid.memory; simpl
  | |- Valid.dimensions _ => unfold Valid.dimensions; simpl
  | |- Valid.unit_range _ => unfold Valid.unit_range
  | |- _ <= _ => decide_order
  end.
Defined.

Lemma to_dict_from_dict_round_trip_witness :
  Valid.character villager
  /\ TraumaState.from_dict noon (TraumaState.to_dict ledger) = Ok ledger
  /\ exists data, NPCState.to_dict villager = Ok data
                  /\ NPCState.from_dict noon data = Ok villager.
Proof.
  pose proof villager_is_valid as V.
  destruct V as (A & B & N & P & X & T & G).
  pose proof (to_dict_from_dict_round_trip noon ExperienceLevels.default ledger
                graph villager X T G
                (conj A (conj B (conj N (conj P (conj X (conj T G)))))))
    as R.
  split; [exact (conj A (conj B (conj N (conj P (conj X (conj T G))))))|].
  split; [exact (proj1 (proj2 R))|exact (proj2 (proj2 (proj2 R)))].
Defined.

(** C8 fails as stated: a persisted memory without [event_type] and a
    persisted character without [npc_id] are not given defaults; [from_dict]
    raises [KeyError]. *)
Lemma from_dict_needs_the_keys_without_defaults :
  TraumaMemory.from_dict noon untyped_memory = Raise (KeyError "event_type")
  /\ NPCState.from_dict noon anonymous = Raise (KeyError "npc_id").
Proof. split; reflexivity. Qed.

Lemma from_dict_fills_missing_optional_keys_witness :
  Defaults.character_keys sparse = true
  /\ NPCState.from_dict noon sparse
     = NPCState.from_dict noon (Defaults.character noon sparse)
  /\ Defaults.is_key_error (NPCState.from_dict noon sparse) = false.
Proof.
  assert (K : Defaults.character_keys sparse = true) by reflexivity.
  pose proof (from_dict_fills_missing_optional_keys noon sparse K) as T.
  split; [exact K|]. split; [exact (proj1 T)|exact (proj1 (proj2 T))].
Defined.

Lemma rest_restores_energy_twice_witness :
  Valid.vitals villager
  /\ NPCState.energy_level
       (state_of (NPCState.perform_action clock noon REST true None villager))
     == Qmin 1 (NPCState.energy_level villager + 0.8).
Proof.
  assert (V : Valid.vitals villager)
    by (unfold Valid.vitals, Valid.unit_range; simpl;
        repeat split; decide_order).
  split; [exact V|].
  exact (proj1 (proj2 (proj2
           (rest_restores_energy_twice clock noon None villager V eq_refl)))).
Defined.

Lemma unrecognized_activity_heals_by_a_quarter_witness :
  str_in "gardening" (map fst TraumaState.activity_effectiveness) = false
  /\ value_of (TraumaState.apply_activity_healing "gardening" 0.1 None ledger)
     = Ok tt
  /\ TraumaState.last_healing_activity
       (state_of (TraumaState.apply_activity_healing "gardening" 0.1 None
                    ledger))
     = Some "gardening".
Proof.
  assert (U : str_in "gardening" (map fst TraumaState.activity_effectiveness)
              = false) by reflexivity.
  assert (A : 0 <= 0.1) by decide_order.
  pose proof (unrecognized_activity_heals_by_a_quarter ledger "gardening" 0.1
                None U A) as T.
  split; [exact U|]. split; [exact (proj1 T)|exact (proj1 (proj2 T))].
Defined.

End AtExamples.

(* ================================================================= *)
(** * Further properties of the code *)

(** ** utils/math_helpers.py *)

Section MathHelperProperties.

Import MathHelpers.

(** With [min_val <= max_val], [clamp] lands between the two bounds and
    leaves a value that already lies between them as it is. *)
Lemma clamp_bounds (value min_val max_val : Q) :
  min_val <= max_val ->
  min_val <= clamp value min_val max_val
  /\ clamp value min_val max_val <= max_val
  /\ (min_val <= value -> value <= max_val ->
      clamp value min_val max_val == value).
Proof.
  intros B. unfold clamp. repeat split; intros; max_min_cases; lra.
Qed.

Lemma clamp_grows_with_value (v v' min_val max_val : Q) :
  v <= v' -> clamp v min_val max_val <= clamp v' min_val max_val.
Proof. intros L. unfold clamp. max_min_cases; lra. Qed.

(** X1. For [a <= b], [lerp a b t] is never below [a], is [a] for every
    [t <= 0], takes for every [t >= 1] the value it takes at [t = 1], and
    does not fall when [t] grows. *)
Theorem lerp_starts_at_a_and_never_falls (a b t t' : Q) :
  a <= b ->
  a <= lerp a b t
  /\ (t <= 0 -> lerp a b t == a)
  /\ (1 <= t -> lerp a b t == lerp a b 1)
  /\ (t <= t' -> lerp a b t <= lerp a b t').
Proof.
  intros B. unfold lerp.
  destruct (clamp_bounds t 0.0 1.0) as (C0 & C1 & _); [lra|].
  assert (Z0 : t <= 0 -> clamp t 0.0 1.0 == 0).
  { intros T. unfold clamp. max_min_cases; lra. }
  assert (Z1 : 1 <= t -> clamp t 0.0 1.0 == clamp 1 0.0 1.0).
  { intros T. unfold clamp. max_min_cases; lra. }
  pose proof (clamp_grows_with_value t t' 0.0 1.0) as M.
  generalize dependent (clamp 1 0.0 1.0). intros c1 Z1.
  generalize dependent (clamp t' 0.0 1.0). intros c' M.
  generalize dependent (clamp t 0.0 1.0). intros c C0 C1 Z0 Z1 M.
  split; [|split; [|split]].
  - assert (0 <= (b - a) * c) by (apply Qmult_le_0_compat; lra). lra.
  - intros T. rewrite (Z0 T). lra.
  - intros T. rewrite (Z1 T). lra.
  - intros T. specialize (M T).
    assert ((b - a) * c <= (b - a) * c').
    { rewrite !(Qmult_comm (b - a)). apply Qmult_le_compat_r; lra. }
    lra.
Qed.

Lemma fold_left_Qplus (xs : list Q) (a : Q) :
  fold_left Qplus xs a == a + PyList.sum xs.
Proof.
  unfold PyList.sum. revert a. induction xs as [|x xs IH]; intros a; simpl.
  - lra.
  - rewrite IH, (IH (0 + x)). lra.
Qed.

Lemma sum_cons (x : Q) (xs : list Q) :
  PyList.sum (x :: xs) == x + PyList.sum xs.
Proof. unfold PyList.sum at 1. simpl. rewrite fold_left_Qplus. lra. Qed.

Lemma sum_nonneg (xs : list Q) :
  Forall (fun x => 0 <= x) xs -> 0 <= PyList.sum xs.
Proof.
  induction 1 as [|x xs P _ IH].
  - unfold PyList.sum. simpl. lra.
  - rewrite sum_cons. lra.
Qed.

Lemma sum_bounds_its_terms (xs : list Q) :
  Forall (fun x => 0 <= x) xs -> Forall (fun x => x <= PyList.sum xs) xs.
Proof.
  induction 1 as [|x xs P F IH]; [constructor|].
  pose proof (sum_nonneg xs F) as S. constructor.
  - rewrite sum_cons. lra.
  - eapply Forall_impl; [|exact IH]. cbv beta. intros y L.
    rewrite sum_cons. lra.
Qed.

Lemma sum_of_zeros (xs : list Q) :
  Forall (fun x => x == 0) xs -> PyList.sum xs == 0.
Proof.
  induction 1 as [|x xs P _ IH].
  - unfold PyList.sum. simpl. lra.
  - rewrite sum_cons. lra.
Qed.

(** X2. When no probability is negative and they do not all vanish,
    [normalize_probabilities] keeps the keys in their order and divides
    every value by the total; every value of the result lies in [0, 1]. *)
Theorem normalized_probabilities_are_shares {K} (probabilities : list (K * Q)) :
  Forall (fun p => 0 <= p) (map snd probabilities) ->
  ~ PyList.sum (map snd probabilities) == 0 ->
  exists normalized,
    normalize_probabilities probabilities = inl normalized
    /\ map fst normalized = map fst probabilities
    /\ map snd normalized
       = map (fun p => p / PyList.sum (map snd probabilities))
           (map snd probabilities)
    /\ Forall (fun share => 0 <= share /\ share <= 1) (map snd normalized).
Proof.
  intros P T. unfold normalize_probabilities.
  destruct (Qeq_bool _ 0) eqn:E; [apply Qeq_bool_iff in E; contradiction|].
  eexists. split; [reflexivity|].
  set (total := PyList.sum (map snd probabilities)) in *.
  split; [rewrite map_map; reflexivity|].
  split; [rewrite !map_map; reflexivity|].
  rewrite map_map. cbn [snd].
  rewrite <- (map_map snd (fun p => p / total)).
  pose proof (sum_nonneg _ P) as S. fold total in S.
  assert (S0 : 0 < total).
  { destruct (Qlt_le_dec 0 total) as [L|L]; [exact L|].
    exfalso. apply T. lra. }
  pose proof (sum_bounds_its_terms _ P) as B. fold total in B.
  revert P B. generalize (map snd probabilities) as ps.
  induction ps as [|p ps IH]; intros P B; [constructor|].
  apply Forall_cons_iff in P. destruct P as [P0 P].
  apply Forall_cons_iff in B. destruct B as [B0 B].
  cbn [map]. constructor; [|now apply IH]. split.
  - apply Qle_shift_div_l; [exact S0|lra].
  - apply Qle_shift_div_r; [exact S0|lra].
Qed.

(** X3. When every probability is 0, [normalize_probabilities] gives every
    key of a non-empty dict the same share 1/n, which lies in (0, 1]; on
    the empty dict the division by its length raises
    [ZeroDivisionError]. *)
Theorem all_zero_probabilities_give_uniform_or_fail {K}
    (probabilities : list (K * Q)) :
  Forall (fun p => p == 0) (map snd probabilities) ->
  match normalize_probabilities probabilities with
  | inr ZeroDivisionError => probabilities = []
  | inl normalized =>
      probabilities <> []
      /\ map fst normalized = map fst probabilities
      /\ Forall
           (fun share =>
              share == 1 / inject_Z (Z.of_nat (List.length probabilities))
              /\ 0 < share /\ share <= 1)
           (map snd normalized)
  end.
Proof.
  intros Z. pose proof (sum_of_zeros _ Z) as T.
  unfold normalize_probabilities.
  apply Qeq_bool_iff in T. rewrite T.
  destruct probabilities as [|item rest]; [reflexivity|].
  set (ps := item :: rest).
  set (u := 1.0 / inject_Z (Z.of_nat (List.length ps))).
  split; [discriminate|]. split; [now rewrite map_map|].
  rewrite map_map. cbn [snd].
  assert (N : 1 <= inject_Z (Z.of_nat (List.length ps))).
  { subst ps. cbn [List.length]. change 1 with (inject_Z 1).
    rewrite <- Zle_Qle. lia. }
  assert (U : u == 1 / inject_Z (Z.of_nat (List.length ps)) /\ 0 < u /\ u <= 1).
  { subst u. split; [unfold Qdiv; now rewrite !Qmult_1_l|]. split.
    - apply Qlt_shift_div_l; lra.
    - apply Qle_shift_div_r; lra. }
  apply Forall_forall. intros p I. apply in_map_iff in I.
  destruct I as (x & <- & _). exact U.
Qed.

End MathHelperProperties.

(** ** models/trauma.py *)

Section TraumaQueryProperties.
Context `{Runtime}.

Import Healing TraumaQueries.

Lemma scar_threshold_bounds (m : TraumaMemory.t) :
  0 <= TraumaMemory.scar_threshold m
  /\ (0 < TraumaMemory.original_impact m ->
      TraumaMemory.scar_threshold m < TraumaMemory.original_impact m).
Proof.
  unfold TraumaMemory.scar_threshold. split; [|intros P]; compare_floats; lra.
Qed.

(** X4. For a memory that passed its constructor, [healing_progress] lies
    between 0 and 1; it is 1 for a memory that is fully healed, and 0 for a
    memory with a positive original impact whose current impact is still
    the original one. *)
Theorem healing_progress_is_a_fraction (m : TraumaMemory.t) :
  Valid.memory m ->
  0 <= healing_progress m
  /\ healing_progress m <= 1
  /\ (TraumaMemory.is_fully_healed m = true -> healing_progress m == 1)
  /\ (0 < TraumaMemory.original_impact m ->
      TraumaMemory.current_impact m == TraumaMemory.original_impact m ->
      healing_progress m == 0).
Proof.
  intros (O & C & B & _).
  destruct (scar_threshold_bounds m) as [S0 S1].
  unfold healing_progress, TraumaMemory.is_fully_healed.
  destruct (Qeq_bool (TraumaMemory.original_impact m) 0) eqn:E0.
  - apply Qeq_bool_iff in E0.
    assert (S : TraumaMemory.scar_threshold m == 0).
    { unfold TraumaMemory.scar_threshold.
      rewrite Qleb_intro by lra. reflexivity. }
    split; [lra|]. split; [lra|]. split; [reflexivity|]. intros P. lra.
  - apply Qeq_bool_neq in E0.
    assert (P : 0 < TraumaMemory.original_impact m) by lra.
    specialize (S1 P).
    set (o := TraumaMemory.original_impact m) in *.
    set (c := TraumaMemory.current_impact m) in *.
    set (s := TraumaMemory.scar_threshold m) in *.
    destruct (Qeq_bool (o - s) 0) eqn:E1;
      [apply Qeq_bool_iff in E1; lra|clear E1].
    assert (D : 0 < o - s) by lra.
    assert (F0 : 0 <= (o - c) / (o - s)).
    { apply Qle_shift_div_l; [exact D|lra]. }
    assert (F1 : 1 <= (o - c) / (o - s) <-> c <= s).
    { split; intros L.
      - assert (M : (o - c) / (o - s) * (o - s) == o - c)
          by (field; intros Z; lra).
        assert (1 * (o - s) <= (o - c) / (o - s) * (o - s))
          by (apply Qmult_le_compat_r; lra).
        lra.
      - apply Qle_shift_div_l; [exact D|lra]. }
    split; [max_min_cases; lra|]. split; [max_min_cases; lra|]. split.
    + intros L. apply Qleb_true in L. apply F1 in L. max_min_cases; lra.
    + intros _ U.
      assert (Z : (o - c) / (o - s) == 0).
      { unfold Qdiv. setoid_replace (o - c) with 0 by lra. lra. }
      max_min_cases; lra.
Qed.

Lemma impact_total_step (trauma_type : string) (ms : list TraumaMemory.t)
    (a : Q) :
  fold_left
    (fun total memory =>
       if String.eqb (TraumaMemory.event_type memory) trauma_type
       then total + TraumaMemory.current_impact memory
       else total) ms a
  == a + fold_left
           (fun total memory =>
              if String.eqb (TraumaMemory.event_type memory) trauma_type
              then total + TraumaMemory.current_impact memory
              else total) ms 0.
Proof.
  revert a. induction ms as [|m ms IH]; intros a; simpl; [lra|].
  destruct (String.eqb _ _).
  - rewrite IH, (IH (0 + _)). lra.
  - apply IH.
Qed.

(** The uncapped total of [get_trauma_impact]. *)
Lemma impact_total_bounds (trauma_type : string) (ms : list TraumaMemory.t) :
  Forall (fun m => 0 <= TraumaMemory.current_impact m) ms ->
  0 <= fold_left
         (fun total memory =>
            if String.eqb (TraumaMemory.event_type memory) trauma_type
            then total + TraumaMemory.current_impact memory
            else total) ms 0.
Proof.
  induction 1 as [|m ms P _ IH]; simpl; [lra|].
  destruct (String.eqb _ _); [|exact IH].
  rewrite impact_total_step. lra.
Qed.

Lemma impact_total_from (trauma_type : string) (ms : list TraumaMemory.t)
    (a : Q) :
  Forall (fun m => 0 <= TraumaMemory.current_impact m) ms ->
  0 <= a ->
  0 <= fold_left
         (fun total memory =>
            if String.eqb (TraumaMemory.event_type memory) trauma_type
            then total + TraumaMemory.current_impact memory
            else total) ms a.
Proof.
  intros V A. rewrite impact_total_step.
  pose proof (impact_total_bounds trauma_type ms V). lra.
Qed.

Lemma impact_total_healed (trauma_type : string)
    (ms ms' : list TraumaMemory.t) :
  Forall2 healed_from ms ms' ->
  fold_left
    (fun total memory =>
       if String.eqb (TraumaMemory.event_type memory) trauma_type
       then total + TraumaMemory.current_impact memory
       else total) ms' 0
  <= fold_left
       (fun total memory =>
          if String.eqb (TraumaMemory.event_type memory) trauma_type
          then total + TraumaMemory.current_impact memory
          else total) ms 0.
Proof.
  induction 1 as [|m m' ms ms' (E & _ & _ & C & _) _ IH]; simpl; [lra|].
  rewrite E. destruct (String.eqb _ _); [|exact IH].
  rewrite impact_total_step, (impact_total_step _ ms). lra.
Qed.

Lemma py_min_monotone (a x y : Q) : x <= y -> py_min a x <= py_min a y.
Proof. intros L. max_min_cases; lra. Qed.

(** X5. The total impact of a trauma type lies between 0 and 2 when no
    current impact is negative, and it is 0 for a type of which the ledger
    has no memory. *)
Theorem trauma_impact_is_capped (trauma_type : string) (ledger : TraumaState.t) :
  Forall (fun m => 0 <= TraumaMemory.current_impact m)
    (TraumaState.memories ledger) ->
  0 <= get_trauma_impact trauma_type ledger
  /\ get_trauma_impact trauma_type ledger <= 2
  /\ (get_trauma_memories_by_type trauma_type ledger = [] ->
      get_trauma_impact trauma_type ledger == 0).
Proof.
  intros V. unfold get_trauma_impact, get_trauma_memories_by_type.
  pose proof (impact_total_from trauma_type _ 0.0 V) as T.
  assert (Z : 0 <= 0.0) by lra. specialize (T Z). clear Z.
  split; [max_min_cases; lra|]. split; [max_min_cases; lra|].
  intros N. clear V T.
  induction (TraumaState.memories ledger) as [|m ms IH]; simpl in *.
  - max_min_cases; lra.
  - destruct (String.eqb _ _); [discriminate|]. now apply IH.
Qed.

(** X6. No sequence of healing calls raises the total impact of any trauma
    type, on a ledger whose memories start between scar and original
    impact. *)
Theorem healing_never_raises_trauma_impact (trauma_type : string)
    (ledger : TraumaState.t) (calls : list call) :
  Forall settled (TraumaState.memories ledger) ->
  get_trauma_impact trauma_type (run_all calls ledger)
  <= get_trauma_impact trauma_type ledger.
Proof.
  intros S. unfold get_trauma_impact. apply py_min_monotone.
  rewrite impact_total_step,
    (impact_total_step _ (TraumaState.memories ledger)).
  pose proof (impact_total_healed trauma_type _ _
                (run_all_healed_from calls ledger S)).
  lra.
Qed.

Lemma max_by_spec {A} (key : A -> Q) (best : A) (xs : list A) :
  In (PyList.max_by key best xs) (best :: xs)
  /\ forall x, In x (best :: xs) -> key x <= key (PyList.max_by key best xs).
Proof.
  revert best. induction xs as [|y ys IH]; intros best; simpl.
  - split; [auto|]. intros x [<-|[]]. lra.
  - destruct (Qltb (key best) (key y)) eqn:E.
    + apply Qltb_true in E. destruct (IH y) as [I M]. split.
      * simpl in I. tauto.
      * intros x [<-|[<-|I']].
        -- specialize (M y (or_introl eq_refl)). lra.
        -- apply M. simpl. auto.
        -- apply M. simpl. auto.
    + apply Qltb_false in E. destruct (IH best) as [I M]. split.
      * simpl in I. tauto.
      * intros x [<-|[<-|I']].
        -- apply M. simpl. auto.
        -- specialize (M best (or_introl eq_refl)). lra.
        -- apply M. simpl. auto.
Qed.

(** X7. [get_most_severe_trauma] returns nothing exactly on a ledger
    without memories; otherwise it returns a memory of the ledger whose
    current impact no other memory of the ledger exceeds. *)
Theorem most_severe_trauma_is_a_maximum (ledger : TraumaState.t) :
  match get_most_severe_trauma ledger with
  | None => TraumaState.memories ledger = []
  | Some worst =>
      In worst (TraumaState.memories ledger)
      /\ Forall
           (fun m =>
              TraumaMemory.current_impact m <= TraumaMemory.current_impact worst)
           (TraumaState.memories ledger)
  end.
Proof.
  unfold get_most_severe_trauma.
  destruct (TraumaState.memories ledger) as [|first rest]; [reflexivity|].
  destruct (max_by_spec TraumaMemory.current_impact first rest) as [I M].
  split; [exact I|]. apply Forall_forall. exact M.
Qed.

End TraumaQueryProperties.

Section DictProperties.

Lemma fold_left_invariant {A B} (Inv : A -> Prop) (f : A -> B -> A)
    (xs : list B) (a : A) :
  (forall acc x, In x xs -> Inv acc -> Inv (f acc x)) ->
  Inv a -> Inv (fold_left f xs a).
Proof.
  revert a. induction xs as [|x xs IH]; intros a F I; simpl; [exact I|].
  apply IH.
  - intros acc y Iy. apply F. now right.
  - apply F; [now left|exact I].
Qed.

Lemma lookup_values {V} (P : V -> Prop) (key : string) (d : list (string * V))
    (v : V) :
  Forall P (map snd d) -> lookup key d = Some v -> P v.
Proof.
  induction d as [|[k w] d IH]; simpl; [discriminate|].
  intros F L. apply Forall_cons_iff in F. destruct F as [Pw F].
  destruct (String.eqb k key); [now injection L as <-|auto].
Qed.

Lemma lookup_entry {V} (key : string) (d : list (string * V)) (v : V) :
  lookup key d = Some v -> In (key, v) d.
Proof.
  induction d as [|[k w] d IH]; simpl; [discriminate|].
  destruct (String.eqb k key) eqn:E; [|auto].
  apply String.eqb_eq in E. intros [= ->]. subst. now left.
Qed.

Lemma lookup_none_keys {V} (key : string) (d : list (string * V)) :
  lookup key d = None -> ~ In key (map fst d).
Proof.
  induction d as [|[k w] d IH]; simpl; [tauto|].
  destruct (String.eqb k key) eqn:E; [discriminate|].
  apply String.eqb_neq in E. intros N [I|I]; [congruence|now apply IH].
Qed.

Lemma assign_values {V} (P : V -> Prop) (key : string) (v : V)
    (d : list (string * V)) :
  Forall P (map snd d) -> P v -> Forall P (map snd (PyList.assign key v d)).
Proof.
  intros F Pv. induction d as [|[k w] d IH]; simpl.
  - constructor; [exact Pv|constructor].
  - simpl in F. apply Forall_cons_iff in F. destruct F as [Pw F].
    destruct (String.eqb k key); simpl; constructor; auto.
Qed.

Lemma assign_keys {V} (P : string -> Prop) (key : string) (v : V)
    (d : list (string * V)) :
  Forall P (map fst d) -> P key -> Forall P (map fst (PyList.assign key v d)).
Proof.
  intros F Pk. induction d as [|[k w] d IH]; simpl.
  - constructor; [exact Pk|constructor].
  - simpl in F. apply Forall_cons_iff in F. destruct F as [Pw F].
    destruct (String.eqb k key); simpl; constructor; auto.
Qed.

Lemma assign_existing_key {V} (key : string) (v : V) (d : list (string * V)) :
  In key (map fst d) -> map fst (PyList.assign key v d) = map fst d.
Proof.
  induction d as [|[k w] d IH]; simpl; [contradiction|].
  destruct (String.eqb k key) eqn:E; simpl; [reflexivity|].
  intros [->|I]; [rewrite String.eqb_refl in E; discriminate|].
  now rewrite IH.
Qed.

Lemma lookup_assign_same {V} (key : string) (v : V) (d : list (string * V)) :
  lookup key (PyList.assign key v d) = Some v.
Proof.
  induction d as [|[k w] d IH]; simpl.
  - now rewrite String.eqb_refl.
  - destruct (String.eqb k key) eqn:E; simpl; rewrite E; auto.
Qed.

Lemma lookup_assign_other {V} (key other : string) (v : V)
    (d : list (string * V)) :
  other <> key -> lookup other (PyList.assign key v d) = lookup other d.
Proof.
  intros N. induction d as [|[k w] d IH]; simpl.
  - destruct (String.eqb key other) eqn:E; [|reflexivity].
    apply String.eqb_eq in E. congruence.
  - destruct (String.eqb k key) eqn:E; simpl.
    + apply String.eqb_eq in E. subst k.
      destruct (String.eqb key other) eqn:E'; [|reflexivity].
      apply String.eqb_eq in E'. congruence.
    + now rewrite IH.
Qed.

End DictProperties.

Section TraumaInfluenceProperties.
Context `{Runtime}.

Import TraumaQueries.

Lemma trauma_totals_invariant (threshold : Q) (ms : list TraumaMemory.t)
    (P : string -> Prop) :
  0 <= threshold ->
  Forall (fun m => P (TraumaMemory.event_type m)) ms ->
  Forall P (map fst (trauma_totals threshold ms))
  /\ Forall (fun v => 0 <= v) (map snd (trauma_totals threshold ms)).
Proof.
  intros T F. unfold trauma_totals.
  apply (fold_left_invariant
           (fun totals => Forall P (map fst totals)
                          /\ Forall (fun v => 0 <= v) (map snd totals))).
  - intros acc m I [K V]. rewrite Forall_forall in F. specialize (F m I).
    destruct (Qleb threshold (TraumaMemory.current_impact m)) eqn:E;
      [|split; assumption].
    apply Qleb_true in E.
    set (key := TraumaMemory.event_type m) in *.
    set (totals1 := match lookup key acc with
                    | None => PyList.assign key 0.0 acc
                    | Some _ => acc
                    end).
    assert (K1 : Forall P (map fst totals1)).
    { subst totals1. destruct (lookup key acc); [exact K|].
      now apply assign_keys. }
    assert (V1 : Forall (fun v => 0 <= v) (map snd totals1)).
    { subst totals1. destruct (lookup key acc); [exact V|].
      apply assign_values; [exact V|lra]. }
    split; [now apply assign_keys|].
    apply assign_values; [exact V1|].
    destruct (lookup key totals1) as [v|] eqn:L; simpl.
    + pose proof (lookup_values _ _ _ _ V1 L). simpl in *. lra.
    + lra.
  - split; constructor.
Qed.

Lemma active_traumas_invariant (ledger : TraumaState.t) (P : string -> Prop) :
  Forall (fun m => P (TraumaMemory.event_type m)) (TraumaState.memories ledger) ->
  Forall (fun item => P (fst item) /\ 0 <= snd item)
    (get_active_traumas 0.1 ledger).
Proof.
  intros F. unfold get_active_traumas.
  destruct (trauma_totals_invariant 0.1 _ P ltac:(lra) F) as [K V].
  induction (trauma_totals 0.1 (TraumaState.memories ledger)) as [|[k v] d IH];
    simpl in *; constructor.
  - apply Forall_cons_iff in K. apply Forall_cons_iff in V. simpl.
    split; [tauto|]. destruct V as [V0 _]. max_min_cases; lra.
  - apply Forall_cons_iff in K. apply Forall_cons_iff in V. apply IH; tauto.
Qed.

Lemma behavior_table_is_sound (trauma_type : string)
    (behaviors : list (string * Q)) :
  lookup trauma_type trauma_behavior_map = Some behaviors ->
  Forall (fun entry => In (fst entry) influence_names /\ 0 <= snd entry)
    behaviors.
Proof.
  apply (lookup_values
           (Forall (fun entry => In (fst entry) influence_names
                                 /\ 0 <= snd entry))).
  unfold trauma_behavior_map. cbn [map snd].
  repeat match goal with
  | |- Forall _ (_ :: _) => apply Forall_cons
  | |- Forall _ [] => apply Forall_nil
  | |- _ /\ _ => split
  | |- In _ _ => cbn [fst influence_names no_influences map In]; auto 10
  | |- _ <= _ => vm_compute; discriminate
  end.
Qed.

Lemma accumulate_influences_invariant (active : list (string * Q)) :
  Forall (fun item => 0 <= snd item) active ->
  map fst (accumulate_influences active) = influence_names
  /\ Forall (fun v => 0 <= v) (map snd (accumulate_influences active)).
Proof.
  intros A. unfold accumulate_influences.
  apply (fold_left_invariant
           (fun infl => map fst infl = influence_names
                        /\ Forall (fun v => 0 <= v) (map snd infl))).
  - intros acc [trauma_type impact] I Inv.
    rewrite Forall_forall in A. specialize (A _ I). simpl in A.
    destruct (lookup trauma_type trauma_behavior_map) as [behaviors|] eqn:L;
      [|exact Inv].
    pose proof (behavior_table_is_sound _ _ L) as B.
    apply (fold_left_invariant
             (fun infl => map fst infl = influence_names
                          /\ Forall (fun v => 0 <= v) (map snd infl)));
      [|exact Inv].
    intros infl [behavior strength] Ib [K V].
    rewrite Forall_forall in B. destruct (B _ Ib) as [Bn Bs]. simpl in Bn, Bs.
    split.
    + rewrite assign_existing_key; [exact K|now rewrite K].
    + apply assign_values; [exact V|].
      assert (0 <= impact * strength) by (apply Qmult_le_0_compat; lra).
      destruct (lookup behavior infl) as [v|] eqn:Lb; simpl.
      * pose proof (lookup_values _ _ _ _ V Lb). simpl in *. lra.
      * lra.
  - split; [reflexivity|]. unfold no_influences. cbn [map snd].
    repeat (apply Forall_cons; [vm_compute; discriminate|]). apply Forall_nil.
Qed.

(** X8. Whatever the ledger holds, [get_trauma_influence_on_behavior]
    returns the six behaviours in their fixed order, each with a value
    between 0 and 1. *)
Theorem behavioral_influences_are_six_fractions (ledger : TraumaState.t) :
  map fst (get_trauma_influence_on_behavior ledger)
  = [ "trust_issues"; "social_withdrawal"; "leadership_avoidance";
      "resource_hoarding"; "conflict_avoidance"; "risk_aversion" ]
  /\ Forall (fun v => 0 <= v /\ v <= 1)
       (map snd (get_trauma_influence_on_behavior ledger)).
Proof.
  unfold get_trauma_influence_on_behavior.
  pose proof (active_traumas_invariant ledger (fun _ => True)) as A.
  assert (A' : Forall (fun item => 0 <= snd item)
                 (get_active_traumas 0.1 ledger)).
  { eapply Forall_impl; [|apply A; apply Forall_forall; auto].
    intros item [_ V]. exact V. }
  destruct (accumulate_influences_invariant _ A') as [K V].
  split.
  - rewrite map_map. simpl. exact K.
  - rewrite map_map. simpl. clear K A A'.
    induction (accumulate_influences (get_active_traumas 0.1 ledger))
      as [|[k v] d IH]; simpl in *; constructor.
    + apply Forall_cons_iff in V. destruct V as [V0 _].
      split; max_min_cases; lra.
    + apply Forall_cons_iff in V. apply IH. tauto.
Qed.

(** X9. Memories whose event type is none of the six types of the
    behaviour table influence nothing: on a ledger that holds only such
    memories every influence is 0. *)
Theorem unknown_trauma_types_influence_nothing (ledger : TraumaState.t) :
  Forall
    (fun m => lookup (TraumaMemory.event_type m) trauma_behavior_map = None)
    (TraumaState.memories ledger) ->
  get_trauma_influence_on_behavior ledger = no_influences.
Proof.
  intros U. unfold get_trauma_influence_on_behavior.
  pose proof (active_traumas_invariant ledger
                (fun k => lookup k trauma_behavior_map = None) U) as A.
  assert (E : accumulate_influences (get_active_traumas 0.1 ledger)
              = no_influences).
  { unfold accumulate_influences.
    apply (fold_left_invariant (fun infl => infl = no_influences));
      [|reflexivity].
    intros acc [trauma_type impact] I ->.
    rewrite Forall_forall in A. destruct (A _ I) as [L _].
    change (lookup trauma_type trauma_behavior_map = None) in L.
    now rewrite L. }
  rewrite E. reflexivity.
Qed.

End TraumaInfluenceProperties.

Section TraumaHealingProperties.
Context `{Runtime}.

Import Healing TraumaQueries.

Lemma for_each_related {E} (R : E -> E -> Prop) (body : Py E unit)
    (xs : list E) :
  (forall x, R x x) ->
  (forall x, R x (fst (body x))) ->
  Forall2 R xs (fst (for_each body xs)).
Proof.
  intros Refl B. induction xs as [|x xs IH]; simpl; [constructor|].
  specialize (B x). destruct (body x) as [x' [[]|e]]; simpl in *.
  - destruct (for_each body xs) as [xs' r]; simpl in *. now constructor.
  - constructor; [assumption|]. clear IH. induction xs; constructor; auto.
Qed.

Lemma at_index_related {E} (R : E -> E -> Prop) (body : Py E unit)
    (index : nat) (xs : list E) :
  (forall x, R x x) ->
  (forall x, R x (fst (body x))) ->
  Forall2 R xs (fst (at_index index body xs)).
Proof.
  intros Refl B. revert index.
  induction xs as [|x xs IH]; intros index; simpl.
  - destruct index; constructor.
  - assert (Same : Forall2 R xs xs) by (clear IH; induction xs; constructor; auto).
    destruct index as [|k]; simpl.
    + specialize (B x). destruct (body x) as [x' r]; simpl in *.
      now constructor.
    + specialize (IH k). destruct (at_index k body xs) as [xs' r]; simpl in *.
      constructor; auto.
Qed.

Lemma Forall2_compose {A} (R1 R2 R3 : A -> A -> Prop) (xs ys zs : list A) :
  (forall x y z, R1 x y -> R2 y z -> R3 x z) ->
  Forall2 R1 xs ys -> Forall2 R2 ys zs -> Forall2 R3 xs zs.
Proof.
  intros C F. revert zs. induction F; intros zs G; inversion G; subst;
    constructor; eauto.
Qed.

(** Any relation between a memory and its later self that holds across one
    [apply_healing] holds across every healing call. *)
Lemma run_related (R : TraumaMemory.t -> TraumaMemory.t -> Prop) :
  (forall m, R m m) ->
  (forall m1 m2 m3, R m1 m2 -> R m2 m3 -> R m1 m3) ->
  (forall amount source m,
     R m (state_of (TraumaMemory.apply_healing amount source m))) ->
  forall (calls : list call) (ledger : TraumaState.t),
    Forall2 R (TraumaState.memories ledger)
      (TraumaState.memories (run_all calls ledger)).
Proof.
  intros Refl Trans Heal.
  assert (Same : forall ms, Forall2 R ms ms)
    by (induction ms; constructor; auto).
  assert (Guarded : forall (guard : TraumaMemory.t -> bool)
                           (amount : TraumaMemory.t -> Q) source m,
             R m (fst (if guard m
                       then TraumaMemory.apply_healing (amount m) source m
                       else (m, Ok tt)))).
  { intros guard amount source m. destruct (guard m); [apply Heal|apply Refl]. }
  assert (Loop : forall body ledger,
             (forall m, R m (fst (body m))) ->
             Forall2 R (TraumaState.memories ledger)
               (TraumaState.memories
                  (fst (TraumaState.for_memories body ledger)))).
  { intros body ledger B. unfold TraumaState.for_memories.
    pose proof (for_each_related R body (TraumaState.memories ledger) Refl B).
    destruct (for_each body _) as [ms r]; simpl in *.
    now rewrite memories_set_memories. }
  assert (One : forall c ledger,
             Forall2 R (TraumaState.memories ledger)
               (TraumaState.memories (state_of (run c ledger)))).
  { intros c ledger. unfold state_of.
    destruct c as [index amount source|traits days|activity amount traits
                  |event impact description]; simpl.
    - pose proof (at_index_related R (TraumaMemory.apply_healing amount source)
                    index (TraumaState.memories ledger) Refl
                    (Heal amount source)) as F.
      destruct (at_index _ _ _) as [ms r]; simpl in *.
      now rewrite memories_set_memories.
    - unfold TraumaState.apply_daily_healing. apply Loop. intros m.
      apply (Guarded (fun m => negb (TraumaMemory.is_fully_healed m))
               (fun _ => _)).
    - unfold TraumaState.apply_activity_healing.
      destruct (Qltb amount 0); [apply Same|].
      assert (M : TraumaState.memories
                    (TraumaState.set_last_healing_activity ledger (Some activity))
                  = TraumaState.memories ledger) by (destruct ledger; reflexivity).
      rewrite <- M at 1. apply Loop. intros m.
      apply (Guarded (fun m => negb (TraumaMemory.is_fully_healed m))
               (fun m => amount * _)).
    - unfold TraumaState.apply_counter_experience_healing.
      destruct (Qltb impact 0); [apply Same|].
      generalize TraumaState.counter_mappings as table. intros table.
      revert ledger.
      induction table as [|[trauma_type counter_types] table IH]; intros ledger.
      + apply Same.
      + simpl. unfold bind.
        set (step := if str_in event counter_types then _ else _).
        assert (F : Forall2 R (TraumaState.memories ledger)
                      (TraumaState.memories (fst (step ledger)))).
        { subst step. destruct (str_in event counter_types); [|apply Same].
          apply Loop. intros m.
          apply (Guarded
                   (fun m => String.eqb (TraumaMemory.event_type m) trauma_type
                             && negb (TraumaMemory.is_fully_healed m))
                   (fun m => py_min _ _)). }
        destruct (step ledger) as [ledger1 [[]|e]]; simpl in *; [|exact F].
        eapply Forall2_compose; [exact Trans|exact F|apply IH]. }
  induction calls as [|c calls IH]; intros ledger; simpl; [apply Same|].
  eapply Forall2_compose; [exact Trans|apply One|apply IH].
Qed.

(** X10. Healing is append-only and touches nothing but the current
    impact: after any sequence of healing calls, raising or not, the ledger
    holds the same memories in the same order, each with its event type,
    original impact, age, description, related partners and timestamp as
    before, and with a log of healing activities that extends the earlier
    log. *)
Theorem healing_only_appends_to_the_log (calls : list call)
    (ledger : TraumaState.t) :
  Forall2 later_self (TraumaState.memories ledger)
    (TraumaState.memories (run_all calls ledger)).
Proof.
  apply run_related.
  - intros m. unfold later_self. repeat split; try reflexivity.
    exists []. now rewrite app_nil_r.
  - intros m1 m2 m3 (E1 & O1 & A1 & D1 & R1 & T1 & x1 & L1)
                    (E2 & O2 & A2 & D2 & R2 & T2 & x2 & L2).
    unfold later_self. repeat split; try congruence.
    exists (x1 ++ x2)%list. rewrite L2, L1. now rewrite app_assoc.
  - intros amount source m. unfold TraumaMemory.apply_healing, state_of.
    destruct (Qltb amount 0); simpl.
    + unfold later_self. repeat split; try reflexivity.
      exists []. now rewrite app_nil_r.
    + destruct m as [e o c a d r h ts]. simpl.
      match goal with |- context [if ?b then _ else _] => destruct b end;
        simpl; unfold later_self; simpl; repeat split; try reflexivity.
      * eexists. reflexivity.
      * exists []. now rewrite app_nil_r.
Qed.

End TraumaHealingProperties.

Section TraumaLedgerProperties.
Context `{Runtime}.

Import Healing TraumaQueries.

Lemma for_memories_never_raises (body : Py TraumaMemory.t unit)
    (ledger : TraumaState.t) :
  (forall m, In m (TraumaState.memories ledger) -> snd (body m) = Ok tt) ->
  TraumaState.for_memories body ledger
  = (TraumaState.set_memories ledger
       (map (fun m => fst (body m)) (TraumaState.memories ledger)),
     Ok tt).
Proof.
  intros B. unfold TraumaState.for_memories.
  assert (E : for_each body (TraumaState.memories ledger)
              = (map (fun m => fst (body m)) (TraumaState.memories ledger),
                 Ok tt)).
  { induction (TraumaState.memories ledger) as [|m ms IH]; simpl;
      [reflexivity|].
    pose proof (B m (or_introl eq_refl)) as Bm.
    destruct (body m) as [m' r]; simpl in *. subst r.
    rewrite IH; [reflexivity|]. intros x I. apply B. now right. }
  now rewrite E.
Qed.

Lemma counter_amount_nonneg (impact : Q) (m : TraumaMemory.t) :
  0 <= impact -> TraumaMemory.is_fully_healed m = false ->
  0 <= py_min (impact * 0.6) (TraumaMemory.current_impact m * 0.8).
Proof.
  intros P F. apply Qleb_false in F.
  destruct (scar_threshold_bounds m) as [S _]. max_min_cases; lra.
Qed.

Lemma counter_step_spec (event : string) (impact : Q)
    (entry : string * list string) (m : TraumaMemory.t) :
  0 <= impact -> 0 <= TraumaMemory.current_impact m ->
  let m' := counter_step event impact entry m in
  TraumaMemory.event_type m' = TraumaMemory.event_type m
  /\ 0 <= TraumaMemory.current_impact m'
  /\ TraumaMemory.current_impact m
     - py_min (impact * 0.6) (TraumaMemory.current_impact m * 0.8)
     <= TraumaMemory.current_impact m'
  /\ TraumaMemory.current_impact m' <= TraumaMemory.current_impact m
  /\ (TraumaMemory.event_type m <> fst entry -> m' = m).
Proof.
  intros P C. cbv zeta. unfold counter_step.
  assert (H0 : 0 <= py_min (impact * 0.6) (TraumaMemory.current_impact m * 0.8))
    by (max_min_cases; lra).
  destruct (str_in event (snd entry)); cbn [andb];
    [|repeat split; auto; lra].
  destruct (String.eqb _ (fst entry)) eqn:E; cbn [andb];
    [|repeat split; auto; lra].
  apply String.eqb_eq in E.
  destruct (TraumaMemory.is_fully_healed m) eqn:F; cbn [negb];
    [repeat split; auto; lra|].
  pose proof (counter_amount_nonneg impact m P F) as A.
  destruct (apply_healing_current
              (py_min (impact * 0.6) (TraumaMemory.current_impact m * 0.8))
              ("counter_experience_" ++ event) m) as (Ev & _ & Cu).
  rewrite Ev, Cu. rewrite Qltb_intro_false by exact A.
  apply Qleb_false in F.
  repeat split; try (intros N; congruence); max_min_cases; lra.
Qed.

Lemma counter_loop (event : string) (impact : Q)
    (table : list (string * list string)) (ledger : TraumaState.t) :
  0 <= impact ->
  for_in table
    (fun entry =>
       let '(trauma_type, counter_types) := entry in
       if str_in event counter_types
       then
         TraumaState.for_memories
           (fun memory =>
              if String.eqb (TraumaMemory.event_type memory) trauma_type
                 && negb (TraumaMemory.is_fully_healed memory)
              then
                TraumaMemory.apply_healing
                  (py_min (impact * 0.6)
                     (TraumaMemory.current_impact memory * 0.8))
                  ("counter_experience_" ++ event) memory
              else (memory, Ok tt))
       else ret tt)
    ledger
  = (TraumaState.set_memories ledger
       (map (fun m => fold_left (fun m entry => counter_step event impact entry m)
                        table m)
          (TraumaState.memories ledger)),
     Ok tt).
Proof.
  intros P. revert ledger.
  induction table as [|[trauma_type counter_types] table IH]; intros ledger.
  - simpl. unfold ret. rewrite map_id. now destruct ledger.
  - cbn [for_in]. unfold bind.
    assert (S : (if str_in event counter_types
                 then
                   TraumaState.for_memories
                     (fun memory =>
                        if String.eqb (TraumaMemory.event_type memory) trauma_type
                           && negb (TraumaMemory.is_fully_healed memory)
                        then
                          TraumaMemory.apply_healing
                            (py_min (impact * 0.6)
                               (TraumaMemory.current_impact memory * 0.8))
                            ("counter_experience_" ++ event) memory
                        else (memory, Ok tt))
                 else ret tt) ledger
                = (TraumaState.set_memories ledger
                     (map (counter_step event impact
                             (trauma_type, counter_types))
                        (TraumaState.memories ledger)),
                   Ok tt)).
    { unfold counter_step. cbn [fst snd].
      destruct (str_in event counter_types); cbn [andb].
      - rewrite for_memories_never_raises.
        + f_equal. f_equal. apply map_ext. intros m.
          destruct (String.eqb _ _ && negb _); reflexivity.
        + intros m _.
          destruct (String.eqb _ _); cbn [andb]; [|reflexivity].
          destruct (TraumaMemory.is_fully_healed m) eqn:F; cbn [negb];
            [reflexivity|].
          apply apply_healing_returns. now apply counter_amount_nonneg.
      - unfold ret. rewrite map_id. now destruct ledger. }
    rewrite S. rewrite IH. rewrite memories_set_memories, map_map.
    cbn [fold_left]. now destruct ledger.
Qed.

Lemma counter_fold_spec (event : string) (impact : Q)
    (table : list (string * list string)) (m : TraumaMemory.t) :
  0 <= impact -> 0 <= TraumaMemory.current_impact m ->
  NoDup (map fst table) ->
  let m' := fold_left (fun m entry => counter_step event impact entry m)
              table m in
  TraumaMemory.event_type m' = TraumaMemory.event_type m
  /\ 0 <= TraumaMemory.current_impact m'
  /\ TraumaMemory.current_impact m
     - py_min (impact * 0.6) (TraumaMemory.current_impact m * 0.8)
     <= TraumaMemory.current_impact m'
  /\ TraumaMemory.current_impact m' <= TraumaMemory.current_impact m
  /\ (~ In (TraumaMemory.event_type m) (map fst table) -> m' = m).
Proof.
  intros P. revert m. induction table as [|entry table IH]; intros m C N;
    cbv zeta; simpl.
  - assert (0 <= py_min (impact * 0.6) (TraumaMemory.current_impact m * 0.8))
      by (max_min_cases; lra).
    repeat split; auto; lra.
  - inversion N as [|k ks Nk Nks]; subst.
    destruct (counter_step_spec event impact entry m P C)
      as (E1 & C1 & L1 & U1 & F1).
    set (m1 := counter_step event impact entry m) in *.
    destruct (IH m1 C1 Nks) as (E2 & C2 & L2 & U2 & F2).
    destruct (string_dec (TraumaMemory.event_type m) (fst entry)) as [Eq|Ne].
    + rewrite F2 by (rewrite E1, Eq; exact Nk).
      repeat split; auto.
      all: intros X; exfalso; apply X; now left.
    + rewrite (F1 Ne) in *. repeat split; auto.
      all: intros X; apply F2; intros I; apply X; now right.
Qed.

(** X11. A counter-experience with a non-negative impact never raises, on
    a ledger without negative impacts; although the loop runs over the
    whole table, every memory is healed at most once: its current impact
    does not rise, stays non-negative, and falls by no more than
    min(0.6 * impact, 0.8 * current); memories whose type is none of the six
    of the counter table stay as they are, and an event that is in no list
    of the table changes nothing. *)
Theorem counter_experience_heals_each_memory_once (event : string) (impact : Q)
    (description : string) (ledger : TraumaState.t) :
  0 <= impact ->
  Forall (fun m => 0 <= TraumaMemory.current_impact m)
    (TraumaState.memories ledger) ->
  let r :=
    TraumaState.apply_counter_experience_healing event impact description
      ledger in
  value_of r = Ok tt
  /\ Forall2
       (fun m m' =>
          0 <= TraumaMemory.current_impact m'
          /\ TraumaMemory.current_impact m
             - py_min (impact * 0.6) (TraumaMemory.current_impact m * 0.8)
             <= TraumaMemory.current_impact m'
          /\ TraumaMemory.current_impact m' <= TraumaMemory.current_impact m
          /\ (lookup (TraumaMemory.event_type m) TraumaState.counter_mappings
              = None -> m' = m))
       (TraumaState.memories ledger) (TraumaState.memories (state_of r))
  /\ (str_in event (flat_map snd TraumaState.counter_mappings) = false ->
      state_of r = ledger).
Proof.
  intros P V. cbv zeta. unfold TraumaState.apply_counter_experience_healing.
  rewrite Qltb_intro_false by exact P. rewrite counter_loop by exact P.
  unfold value_of, state_of. cbn [fst snd].
  split; [reflexivity|]. rewrite memories_set_memories. split.
  - induction V as [|m ms Vm _ IH]; cbn [map]; constructor; [|exact IH].
    destruct (counter_fold_spec event impact TraumaState.counter_mappings m
                P Vm) as (_ & C0 & L & U & F).
    { unfold TraumaState.counter_mappings. cbn [map fst].
      repeat (constructor; [simpl; intuition discriminate|]). constructor. }
    cbv zeta in *. repeat split; auto.
    intros N. apply F. now apply lookup_none_keys.
  - intros U.
    assert (E : forall m,
               fold_left (fun m entry => counter_step event impact entry m)
                 TraumaState.counter_mappings m = m).
    { intros m. unfold TraumaState.counter_mappings in *.
      cbn [flat_map snd app str_in existsb] in U.
      repeat (apply orb_false_iff in U; destruct U as [? U]).
      unfold counter_step. cbn [fold_left fst snd str_in existsb].
      repeat match goal with E : String.eqb event _ = false |- _ =>
        rewrite E; clear E end.
      reflexivity. }
    rewrite (map_ext _ (fun m => m) E), map_id. now destruct ledger.
Qed.

(** With a negative daily amount -- a negative number of days or a
    negative healing rate -- [apply_daily_healing] leaves the ledger as it
    was, and it raises exactly when some memory is not fully healed. *)
Theorem negative_daily_healing_changes_nothing
    (traits : PersonalityTraits.t) (days : Z) (ledger : TraumaState.t) :
  TraumaState.natural_healing_rate ledger * TraumaState.healing_multiplier traits
  * inject_Z days < 0 ->
  let r := TraumaState.apply_daily_healing traits days ledger in
  state_of r = ledger
  /\ raised (value_of r)
     = existsb (fun m => negb (TraumaMemory.is_fully_healed m))
         (TraumaState.memories ledger).
Proof.
  intros N. cbv zeta. unfold TraumaState.apply_daily_healing.
  set (amount := _ * _ * inject_Z days) in *.
  unfold TraumaState.for_memories, state_of, value_of.
  assert (E : for_each
                (fun memory =>
                   if negb (TraumaMemory.is_fully_healed memory)
                   then TraumaMemory.apply_healing amount "natural_healing" memory
                   else (memory, Ok tt))
                (TraumaState.memories ledger)
              = (TraumaState.memories ledger,
                 if existsb (fun m => negb (TraumaMemory.is_fully_healed m))
                      (TraumaState.memories ledger)
                 then Raise (ValueError "Healing amount must be non-negative")
                 else Ok tt)).
  { induction (TraumaState.memories ledger) as [|m ms IH]; simpl;
      [reflexivity|].
    destruct (negb (TraumaMemory.is_fully_healed m)); simpl.
    - unfold TraumaMemory.apply_healing. now rewrite Qltb_intro by exact N.
    - now rewrite IH. }
  rewrite E. cbn [fst snd]. split; [now destruct ledger|].
  destruct (existsb _ _); reflexivity.
Qed.

(** X12. A call of [add_trauma] with a non-negative impact and age appends
    one memory, which it returns, with current and original impact both
    equal to the given impact and an empty healing log; the memories of
    that event type are those of before followed by the new one, and the
    memories of every other type are as before. *)
Theorem add_trauma_appends_one_memory (now : datetime) (event_type : string)
    (impact : Q) (age : Z) (description : string)
    (related : option (list string)) (ledger : TraumaState.t)
    (other : string) :
  0 <= impact -> (0 <= age)%Z -> other <> event_type ->
  exists memory,
    TraumaState.add_trauma now event_type impact age description related ledger
    = (TraumaState.set_memories ledger
         (TraumaState.memories ledger ++ [memory]), Ok memory)
    /\ TraumaMemory.event_type memory = event_type
    /\ TraumaMemory.original_impact memory = impact
    /\ TraumaMemory.current_impact memory = impact
    /\ TraumaMemory.healing_activities memory = []
    /\ get_trauma_memories_by_type event_type
         (TraumaState.set_memories ledger
            (TraumaState.memories ledger ++ [memory]))
       = (get_trauma_memories_by_type event_type ledger ++ [memory])%list
    /\ get_trauma_memories_by_type other
         (TraumaState.set_memories ledger
            (TraumaState.memories ledger ++ [memory]))
       = get_trauma_memories_by_type other ledger.
Proof.
  intros I A N. unfold TraumaState.add_trauma, TraumaMemory.make.
  rewrite !Qltb_intro_false by lra.
  apply Z.ltb_ge in A. rewrite A. cbn iota.
  eexists. split; [reflexivity|].
  unfold get_trauma_memories_by_type. rewrite memories_set_memories.
  rewrite !filter_app. cbn [filter TraumaMemory.event_type].
  rewrite String.eqb_refl.
  assert (E : String.eqb event_type other = false).
  { apply String.eqb_neq. congruence. }
  rewrite E, app_nil_r. repeat split; reflexivity.
Qed.

End TraumaLedgerProperties.

(** ** models/experience.py *)

Section ExperienceProperties.

Import Practice ExperienceQueries.

Lemma category_names_are_the_keys (x : ExperienceLevels.t) :
  map fst (ExperienceLevels._get_experience_dict x) = category_names.
Proof. reflexivity. Qed.

Lemma known_category_has_a_level (category : string) (x : ExperienceLevels.t) :
  In category category_names ->
  lookup category (ExperienceLevels._get_experience_dict x)
  = Some (level category x).
Proof.
  intros C. destruct x as [l n r c s sv cb h]. simpl in C.
  repeat (destruct C as [<-|C]; [reflexivity|]). contradiction.
Qed.

(** Storing a level is assigning to the key of the dict of levels. *)
Lemma set_level_assigns (category : string) (v : Q) (x : ExperienceLevels.t)
    (e : ExperienceLevels.event) :
  In category category_names ->
  ExperienceLevels._get_experience_dict
    (ExperienceLevels.append_history (ExperienceLevels.set_level x category v) e)
  = PyList.assign category v (ExperienceLevels._get_experience_dict x)
  /\ ExperienceLevels.experience_history
       (ExperienceLevels.append_history (ExperienceLevels.set_level x category v)
          e)
     = (ExperienceLevels.experience_history x ++ [e])%list.
Proof.
  intros C. destruct x as [l n r c s sv cb h]. simpl in C.
  repeat (destruct C as [<-|C]; [split; reflexivity|]). contradiction.
Qed.

Lemma gain_experience_spec (category : string) (amount : Q)
    (source : string) (success : bool) (x : ExperienceLevels.t) :
  Valid.experience x -> In category category_names -> 0 <= amount ->
  let r := ExperienceLevels.gain_experience category amount source success x in
  let x' := state_of r in
  value_of r = Ok (Qleb 0.05 (level category x' - level category x))
  /\ level category x' = next_level amount (level category x)
  /\ level category x <= level category x'
  /\ level category x' <= 1
  /\ (forall other, other <> category -> level other x' = level other x)
  /\ Valid.experience x'
  /\ exists event,
       ExperienceLevels.experience_history x'
       = (ExperienceLevels.experience_history x ++ [event])%list
       /\ ExperienceLevels.ev_category event = category
       /\ ExperienceLevels.amount_attempted event = amount
       /\ ExperienceLevels.amount_gained event
          = level category x' - level category x
       /\ ExperienceLevels.old_level event = level category x
       /\ ExperienceLevels.new_level event = level category x'
       /\ 0 <= ExperienceLevels.amount_gained event.
Proof.
  intros V C A. cbv zeta.
  pose proof (known_category_has_a_level category x C) as L.
  destruct (gain_experience_level category amount source success x _ L A V)
    as (_ & E1 & _ & V').
  destruct (lookup_in_range category x _ L V) as [B0 B1].
  destruct (next_level_range amount _ A B0 B1) as [N0 N1].
  unfold ExperienceLevels.gain_experience, state_of, value_of in *.
  rewrite L in *. rewrite Qltb_intro_false in * by exact A.
  cbn [fst snd] in *. fold (next_level amount (level category x)) in *.
  set (old := level category x) in *.
  set (v := next_level amount old) in *.
  set (event := ExperienceLevels.Build_event _ _ _ _ _ _ _) in *.
  destruct (set_level_assigns category v x event C) as [D Hh].
  rewrite E1. split; [reflexivity|].
  split; [reflexivity|]. split; [exact N0|]. split; [exact N1|].
  split.
  { intros other N. unfold level. rewrite D.
    now rewrite lookup_assign_other. }
  split; [exact V'|].
  exists event. split; [exact Hh|]. subst event. cbn.
  repeat split; lra.
Qed.

(** X13. A call of [gain_experience] with a known category and a
    non-negative amount, on a tracker that passed its constructor: it
    returns normally, with the flag that tells whether [new_level -
    old_level] is at least 0.05; the level of the category becomes
    min(1.0, old + amount * (1.0 - old * 0.3)), which is not below the old
    level and at most 1; every other level is as before; the tracker still
    passes the constructor's checks; the history gains exactly one event,
    which records the category, the amount attempted, the old and the new
    level, and their difference, which is not negative, as
    [amount_gained]. *)
Theorem gain_experience_effect (category : string) (amount : Q)
    (source : string) (success : bool) (x : ExperienceLevels.t) :
  Valid.experience x -> In category category_names -> 0 <= amount ->
  let r := ExperienceLevels.gain_experience category amount source success x in
  let x' := state_of r in
  value_of r = Ok (Qleb 0.05 (level category x' - level category x))
  /\ level category x' = next_level amount (level category x)
  /\ level category x <= level category x'
  /\ level category x' <= 1
  /\ (forall other, other <> category -> level other x' = level other x)
  /\ Valid.experience x'
  /\ exists event,
       ExperienceLevels.experience_history x'
       = (ExperienceLevels.experience_history x ++ [event])%list
       /\ ExperienceLevels.ev_category event = category
       /\ ExperienceLevels.amount_attempted event = amount
       /\ ExperienceLevels.amount_gained event
          = level category x' - level category x
       /\ ExperienceLevels.old_level event = level category x
       /\ ExperienceLevels.new_level event = level category x'
       /\ 0 <= ExperienceLevels.amount_gained event.
Proof. exact (gain_experience_spec category amount source success x). Qed.

Lemma next_level_grows_with_amount (a1 a2 old : Q) :
  0 <= old -> old <= 1 -> a1 <= a2 ->
  next_level a1 old <= next_level a2 old.
Proof.
  intros L U A. unfold next_level.
  assert (a1 * (1.0 - old * 0.3) <= a2 * (1.0 - old * 0.3))
    by (apply Qmult_le_compat_r; lra).
  max_min_cases; lra.
Qed.

(** The table of [EXPERIENCE_MAPPINGS]: known categories, each once per
    action, positive base amounts. *)
Lemma experience_mappings_are_sound (action : ActionType) :
  NoDup (map fst (ExperienceLevels.EXPERIENCE_MAPPINGS action))
  /\ Forall (fun entry => In (fst entry) category_names /\ 0 < snd entry)
       (ExperienceLevels.EXPERIENCE_MAPPINGS action).
Proof.
  destruct action; cbn [ExperienceLevels.EXPERIENCE_MAPPINGS map fst]; split;
    repeat match goal with
    | |- NoDup (_ :: _) => constructor
    | |- NoDup [] => constructor
    | |- ~ In _ _ => cbn [In]; intuition discriminate
    | |- Forall _ (_ :: _) => apply Forall_cons
    | |- Forall _ [] => apply Forall_nil
    | |- _ /\ _ => split
    | |- In _ _ => cbn [fst category_names In]; auto 10
    | |- _ < _ => vm_compute; reflexivity
    end.
Qed.

Lemma gain_each_spec (mapping : list (string * Q)) (source : string)
    (success : bool) :
  NoDup (map fst mapping) ->
  Forall (fun entry => In (fst entry) category_names /\ 0 < snd entry) mapping ->
  forall (results : list (string * bool)) (x : ExperienceLevels.t),
    Valid.experience x ->
    exists flags x',
      ExperienceLevels.gain_each mapping source success results x
      = (x', Ok (results ++ flags)%list)
      /\ map fst flags = map fst mapping
      /\ Valid.experience x'
      /\ (forall c,
            level c x'
            = match lookup c mapping with
              | Some base =>
                  next_level (base * success_multiplier success) (level c x)
              | None => level c x
              end)
      /\ List.length (ExperienceLevels.experience_history x')
         = (List.length (ExperienceLevels.experience_history x)
            + List.length mapping)%nat.
Proof.
  induction mapping as [|[c0 b0] mapping IH]; intros N F results x V.
  - exists [], x. simpl. unfold ret. rewrite app_nil_r.
    repeat split; auto.
  - inversion N as [|k ks Nk Nks]; subst.
    apply Forall_cons_iff in F. destruct F as [[C0 P0] F]. simpl in C0, P0.
    cbn [ExperienceLevels.gain_each].
    fold (success_multiplier success).
    assert (A : 0 < b0 * success_multiplier success).
    { unfold success_multiplier. destruct success; lra. }
    rewrite Qltb_intro by exact A. unfold bind.
    destruct (gain_experience_spec c0 (b0 * success_multiplier success)
                source success x V C0 ltac:(lra))
      as (Fl & E1 & _ & _ & Fr & V1 & (ev & Hh & _)).
    unfold value_of, state_of in *.
    destruct (ExperienceLevels.gain_experience c0 _ source success x)
      as [x1 r1]. cbn [fst snd] in *. subst r1.
    set (flag := Qleb 0.05 (level c0 x1 - level c0 x)).
    destruct (IH Nks F (results ++ [(c0, flag)])%list x1 V1)
      as (flags & x' & G & K & V' & Lv & Ln).
    exists ((c0, flag) :: flags), x'. rewrite G.
    split; [now rewrite <- app_assoc|]. split; [simpl; now rewrite K|].
    split; [exact V'|]. split.
    + intros c. rewrite Lv. cbn [lookup].
      destruct (String.eqb c0 c) eqn:E.
      * apply String.eqb_eq in E. subst c.
        rewrite (lookup_absent c0 mapping).
        -- exact E1.
        -- unfold str_in. apply not_true_is_false. intros X.
           apply existsb_exists in X. destruct X as (k & Ik & Ek).
           apply String.eqb_eq in Ek. subst k. contradiction.
      * apply String.eqb_neq in E.
        rewrite (Fr c) by congruence. reflexivity.
    + rewrite Ln, Hh, length_app. simpl. lia.
Qed.

Lemma gain_from_action_spec (action : ActionType) (success : bool)
    (x : ExperienceLevels.t) :
  Valid.experience x ->
  let r := ExperienceLevels.gain_experience_from_action action success x in
  (exists flags,
      value_of r = Ok flags
      /\ map fst flags = get_experience_categories_from_action action)
  /\ Valid.experience (state_of r)
  /\ (forall c, level c x <= level c (state_of r))
  /\ List.length (ExperienceLevels.experience_history (state_of r))
     = (List.length (ExperienceLevels.experience_history x)
        + List.length (get_experience_categories_from_action action))%nat.
Proof.
  intros V. cbv zeta. unfold ExperienceLevels.gain_experience_from_action.
  destruct (experience_mappings_are_sound action) as [N F].
  destruct (gain_each_spec _ ("action_" ++ action_value action) success N F
              [] x V) as (flags & x' & G & K & V' & Lv & Ln).
  rewrite G. unfold value_of, state_of. cbn [fst snd].
  unfold get_experience_categories_from_action.
  split; [exists flags; auto|]. split; [exact V'|]. split.
  - intros c. rewrite Lv.
    destruct (lookup c (ExperienceLevels.EXPERIENCE_MAPPINGS action))
      as [base|] eqn:L; [|lra].
    rewrite Forall_forall in F.
    destruct (F _ (lookup_entry _ _ _ L)) as [Ic Pb]. cbn [fst snd] in Ic, Pb.
    pose proof (known_category_has_a_level c x Ic) as Lc.
    destruct (lookup_in_range c x _ Lc V) as [B0 B1].
    apply next_level_range; try assumption.
    apply Qmult_le_0_compat; [lra|]. unfold success_multiplier.
    destruct success; lra.
  - now rewrite Ln, length_map.
Qed.

(** X14. For every action, succeeded or failed, on a tracker that passed
    its constructor, [gain_experience_from_action] returns normally with one
    flag per category of the action's mapping, in the mapping's order; the
    tracker still passes the constructor's checks, no level has fallen, and
    the history has one more event per category. *)
Theorem gain_from_action_never_fails (action : ActionType) (success : bool)
    (x : ExperienceLevels.t) :
  Valid.experience x ->
  let r := ExperienceLevels.gain_experience_from_action action success x in
  (exists flags,
      value_of r = Ok flags
      /\ map fst flags = get_experience_categories_from_action action)
  /\ Valid.experience (state_of r)
  /\ (forall c, level c x <= level c (state_of r))
  /\ List.length (ExperienceLevels.experience_history (state_of r))
     = (List.length (ExperienceLevels.experience_history x)
        + List.length (get_experience_categories_from_action action))%nat.
Proof. exact (gain_from_action_spec action success x). Qed.

(** X15. Failure teaches less than success: from the same tracker, the level
    of every category after a failed action is at least what it was and at
    most what it is after the same action succeeded. *)
Theorem failure_gains_no_more_than_success (action : ActionType)
    (x : ExperienceLevels.t) (c : string) :
  Valid.experience x ->
  let failed :=
    state_of (ExperienceLevels.gain_experience_from_action action false x) in
  let succeeded :=
    state_of (ExperienceLevels.gain_experience_from_action action true x) in
  level c x <= level c failed /\ level c failed <= level c succeeded.
Proof.
  intros V. cbv zeta.
  split; [apply (gain_from_action_spec action false x V)|].
  unfold ExperienceLevels.gain_experience_from_action.
  destruct (experience_mappings_are_sound action) as [N F].
  destruct (gain_each_spec _ ("action_" ++ action_value action) false N F
              [] x V) as (f1 & x1 & G1 & _ & _ & L1 & _).
  destruct (gain_each_spec _ ("action_" ++ action_value action) true N F
              [] x V) as (f2 & x2 & G2 & _ & _ & L2 & _).
  rewrite G1, G2. unfold state_of. cbn [fst]. rewrite L1, L2.
  destruct (lookup c (ExperienceLevels.EXPERIENCE_MAPPINGS action))
    as [base|] eqn:L; [|lra].
  rewrite Forall_forall in F.
  destruct (F _ (lookup_entry _ _ _ L)) as [Ic Pb]. cbn [fst snd] in Ic, Pb.
  pose proof (known_category_has_a_level c x Ic) as Lc.
  destruct (lookup_in_range c x _ Lc V) as [B0 B1].
  apply next_level_grows_with_amount; try assumption.
  unfold success_multiplier. lra.
Qed.

End ExperienceProperties.

(** ** Sorting and slicing *)

Section PyListProperties.
Context {A : Type} (key : A -> Q).

Import PyList.

Lemma insert_desc_permutation (x : A) (xs : list A) :
  Permutation (insert_desc key x xs) (x :: xs).
Proof.
  induction xs as [|y ys IH]; simpl; [reflexivity|].
  destruct (Qltb (key x) (key y)); [|reflexivity].
  rewrite IH. apply perm_swap.
Qed.

Lemma sorted_desc_permutation (xs : list A) :
  Permutation (sorted_desc key xs) xs.
Proof.
  induction xs as [|x xs IH]; simpl; [reflexivity|].
  rewrite insert_desc_permutation. now constructor.
Qed.

Lemma insert_desc_sorted (x : A) (xs : list A) :
  StronglySorted (descending key) xs ->
  StronglySorted (descending key) (insert_desc key x xs).
Proof.
  induction 1 as [|y ys S IH F]; simpl; [repeat constructor|].
  destruct (Qltb (key x) (key y)) eqn:E.
  - apply Qltb_true in E. constructor; [exact IH|].
    rewrite Forall_forall. intros z Iz.
    apply (Permutation_in _ (insert_desc_permutation x ys)) in Iz.
    destruct Iz as [<-|Iz].
    + unfold descending. lra.
    + rewrite Forall_forall in F. now apply F.
  - apply Qltb_false in E. constructor; [now constructor|].
    constructor; [exact E|].
    rewrite Forall_forall in *. intros z Iz. specialize (F z Iz).
    unfold descending in *. lra.
Qed.

Lemma sorted_desc_sorted (xs : list A) :
  StronglySorted (descending key) (sorted_desc key xs).
Proof.
  induction xs as [|x xs IH]; simpl; [constructor|].
  now apply insert_desc_sorted.
Qed.

Lemma sorted_split (n : nat) (xs : list A) :
  StronglySorted (descending key) xs ->
  StronglySorted (descending key) (firstn n xs)
  /\ forall a b, In a (firstn n xs) -> In b (skipn n xs) -> key b <= key a.
Proof.
  intros S. revert n. induction S as [|x xs S IH F]; intros n.
  - rewrite firstn_nil, skipn_nil. split; [constructor|]. intros a b [].
  - destruct n as [|n]; simpl.
    + split; [constructor|]. intros a b [].
    + destruct (IH n) as [S1 D]. split.
      * constructor; [exact S1|].
        rewrite Forall_forall in *. intros z Iz. apply F.
        rewrite <- (firstn_skipn n xs). apply in_or_app. now left.
      * intros a b [<-|Ia] Ib.
        -- rewrite Forall_forall in F. apply F.
           rewrite <- (firstn_skipn n xs). apply in_or_app. now right.
        -- now apply D.
Qed.

(** The first [n] of a list sorted by descending key: how many they are,
    that they are sorted, and that together with the rest they are the
    elements of the list, none of the rest having a larger key. *)
Lemma top_of_sorted (n : nat) (xs : list A) :
  let top := firstn n (sorted_desc key xs) in
  List.length top = Nat.min n (List.length xs)
  /\ StronglySorted (descending key) top
  /\ exists rest,
       Permutation (top ++ rest) xs
       /\ forall a b, In a top -> In b rest -> key b <= key a.
Proof.
  cbv zeta.
  destruct (sorted_split n _ (sorted_desc_sorted xs)) as [S D].
  split.
  - rewrite length_firstn.
    now rewrite (Permutation_length (sorted_desc_permutation xs)).
  - split; [exact S|]. exists (skipn n (sorted_desc key xs)). split.
    + rewrite firstn_skipn. apply sorted_desc_permutation.
    + exact D.
Qed.

End PyListProperties.

Section ExperienceQueryProperties.

Import Practice ExperienceQueries.

(** X16. The expertise flag at the default threshold 0.7 agrees with the
    skill description: for a name that is no category of the tracker both
    [has_expertise_in] and [get_skill_level_description] raise the
    [ValueError] of [get_experience]; for a category both return, the flag
    is [level >= 0.7], the description is the band of the level, and the
    flag is true exactly when the description is "Expert" or "Master". *)
Theorem expertise_means_expert_or_master (category : string)
    (x : ExperienceLevels.t) :
  match lookup category (ExperienceLevels._get_experience_dict x) with
  | None =>
      has_expertise_in category 0.7 x
      = Raise (ValueError ("Unknown experience category: " ++ category))
      /\ get_skill_level_description category x
         = Raise (ValueError ("Unknown experience category: " ++ category))
  | Some level =>
      has_expertise_in category 0.7 x = Ok (Qleb 0.7 level)
      /\ get_skill_level_description category x = Ok (describe level)
      /\ (Qleb 0.7 level = true
          <-> describe level = "Expert" \/ describe level = "Master")
  end.
Proof.
  unfold has_expertise_in, get_skill_level_description,
    ExperienceLevels.get_experience.
  destruct (lookup category _) as [lvl|]; [|split; reflexivity].
  split; [reflexivity|]. split; [reflexivity|].
  unfold describe. compare_floats; split; intros X;
    try reflexivity; try discriminate; try lra; auto;
    destruct X as [X|X]; discriminate X.
Qed.

(** X17. For a known category of a tracker that passed its constructor,
    the confidence modifier lies in [1, 2], the competence modifier in
    [1, 2.5] and not below the confidence modifier, and the learning rate
    in [0.5, 1]. *)
Theorem modifiers_stay_in_their_ranges (category : string)
    (x : ExperienceLevels.t) :
  Valid.experience x -> In category category_names ->
  exists confidence competence rate,
    get_confidence_modifier category x = Ok confidence
    /\ get_competence_modifier category x = Ok competence
    /\ get_learning_rate category x = Ok rate
    /\ 1 <= confidence /\ confidence <= 2
    /\ confidence <= competence /\ competence <= 2.5
    /\ 0.5 <= rate /\ rate <= 1.
Proof.
  intros V C.
  pose proof (known_category_has_a_level category x C) as L.
  destruct (lookup_in_range category x _ L V) as [B0 B1].
  unfold get_confidence_modifier, get_competence_modifier, get_learning_rate,
    ExperienceLevels.get_experience. rewrite L.
  do 3 eexists. repeat split; lra.
Qed.

(** X18. [calculate_action_success_probability] never exceeds 0.95; for a
    non-negative base rate it does not fall when the experience level
    rises, and at a non-negative level it is at least the smaller of the
    base rate and 0.95. *)
Theorem success_probability_is_capped_and_monotone
    (base_rate level1 level2 : Q) :
  0 <= base_rate -> 0 <= level1 -> level1 <= level2 ->
  calculate_action_success_probability base_rate level2 <= 0.95
  /\ calculate_action_success_probability base_rate level1
     <= calculate_action_success_probability base_rate level2
  /\ Qmin base_rate 0.95
     <= calculate_action_success_probability base_rate level1.
Proof.
  intros B L0 L12. unfold calculate_action_success_probability.
  assert (M : base_rate * (1.0 + level1 * 1.5)
              <= base_rate * (1.0 + level2 * 1.5)).
  { rewrite !(Qmult_comm base_rate). apply Qmult_le_compat_r; lra. }
  assert (G : base_rate * 1 <= base_rate * (1.0 + level1 * 1.5)).
  { rewrite !(Qmult_comm base_rate). apply Qmult_le_compat_r; lra. }
  destruct (Q.min_spec base_rate 0.95) as [[Lt E]|[Lt E]]; rewrite E;
    repeat split; max_min_cases; lra.
Qed.

Lemma skills_are_described (x : ExperienceLevels.t)
    (row : string * Q * string) :
  In row (skills x) ->
  In (fst (fst row)) category_names
  /\ snd (fst row) = level (fst (fst row)) x
  /\ snd row = describe (snd (fst row)).
Proof.
  destruct x as [l n r c s sv cb h]. unfold skills. simpl.
  intros I.
  repeat (destruct I as [<-|I]; [simpl; auto 10|]). contradiction.
Qed.

(** X19. For a limit that is not negative, [get_top_skills] returns
    min(limit, 7) rows sorted by descending level; every row is a category
    of the tracker with its level and the description of that level; and no
    category left out has a higher level than one returned. *)
Theorem top_skills_are_the_highest (limit : Z) (x : ExperienceLevels.t) :
  (0 <= limit)%Z ->
  let top := get_top_skills limit x in
  List.length top = Nat.min (Z.to_nat limit) 7
  /\ StronglySorted (fun a b => snd (fst b) <= snd (fst a)) top
  /\ Forall
       (fun row =>
          In (fst (fst row)) category_names
          /\ snd (fst row) = level (fst (fst row)) x
          /\ snd row = describe (snd (fst row)))
       top
  /\ exists rest,
       Permutation (top ++ rest) (skills x)
       /\ forall a b, In a top -> In b rest -> snd (fst b) <= snd (fst a).
Proof.
  intros L. cbv zeta. unfold get_top_skills, PyList.slice_to.
  apply Z.ltb_ge in L. rewrite L.
  destruct (top_of_sorted (fun skill : string * Q * string => snd (fst skill))
              (Z.to_nat limit) (skills x)) as (Len & S & rest & P & D).
  split; [exact Len|]. split; [exact S|]. split.
  - apply Forall_forall. intros row I. apply skills_are_described.
    apply (Permutation_in _ P). apply in_or_app. now left.
  - exists rest. split; assumption.
Qed.

End ExperienceQueryProperties.

(** ** models/relationships.py *)

Section RelationshipProperties.
Context `{Runtime}.

Import RelationshipQueries.

Lemma valid_dimensions_fields (r : RelationshipDimensions.t) :
  Valid.dimensions r ->
  (0 <= RelationshipDimensions.trust r /\ RelationshipDimensions.trust r <= 1)
  /\ (0 <= RelationshipDimensions.respect r
      /\ RelationshipDimensions.respect r <= 1)
  /\ (0 <= RelationshipDimensions.affection r
      /\ RelationshipDimensions.affection r <= 1)
  /\ (0 <= RelationshipDimensions.dependency r
      /\ RelationshipDimensions.dependency r <= 1)
  /\ (0 <= RelationshipDimensions.fear r /\ RelationshipDimensions.fear r <= 1).
Proof.
  unfold Valid.dimensions, Valid.unit_range. intros V.
  repeat match goal with V : Forall _ (_ :: _) |- _ =>
    let P := fresh "P" in apply Forall_cons_iff in V; destruct V as [P V] end.
  tauto.
Qed.

(** Division by the constants of the formulas, as multiplication. *)
Ltac divide_by_constants :=
  unfold Qdiv in *;
  change (/ 3.0) with (10 # 30) in *;
  change (/ 2.0) with (10 # 20) in *.

Lemma closeness_bounds (r : RelationshipDimensions.t) :
  0 <= RelationshipDimensions.get_closeness r
  /\ (Valid.dimensions r -> RelationshipDimensions.get_closeness r <= 1).
Proof.
  unfold RelationshipDimensions.get_closeness. divide_by_constants. split.
  - max_min_cases; lra.
  - intros V. destruct (valid_dimensions_fields r V)
      as ((T0 & T1) & _ & (A0 & A1) & (D0 & D1) & (F0 & F1)).
    max_min_cases; lra.
Qed.

Lemma influence_potential_bounds (r : RelationshipDimensions.t) :
  Valid.dimensions r ->
  0 <= RelationshipDimensions.get_influence_potential r
  /\ RelationshipDimensions.get_influence_potential r <= 1.
Proof.
  intros V. destruct (valid_dimensions_fields r V)
    as ((T0 & T1) & (R0 & R1) & (A0 & A1) & (D0 & D1) & (F0 & F1)).
  unfold RelationshipDimensions.get_influence_potential.
  divide_by_constants. split; max_min_cases; lra.
Qed.

(** X20. The derived metrics are bounded: the overall sentiment always lies
    in [-1, 1] and the closeness is never negative; for a relationship that
    passed its constructor the closeness and the influence potential lie in
    [0, 1]. *)
Theorem relationship_metrics_are_bounded (r : RelationshipDimensions.t) :
  Valid.dimensions r ->
  -1 <= RelationshipDimensions.get_overall_sentiment r
  /\ RelationshipDimensions.get_overall_sentiment r <= 1
  /\ 0 <= RelationshipDimensions.get_closeness r
  /\ RelationshipDimensions.get_closeness r <= 1
  /\ 0 <= RelationshipDimensions.get_influence_potential r
  /\ RelationshipDimensions.get_influence_potential r <= 1.
Proof.
  intros V. destruct (closeness_bounds r) as [C0 C1]. specialize (C1 V).
  destruct (valid_dimensions_fields r V)
    as ((T0 & T1) & (R0 & R1) & (A0 & A1) & (D0 & D1) & (F0 & F1)).
  split; [|split; [|split; [exact C0|split; [exact C1|]]]].
  - unfold RelationshipDimensions.get_overall_sentiment.
    divide_by_constants. max_min_cases; lra.
  - unfold RelationshipDimensions.get_overall_sentiment.
    divide_by_constants. max_min_cases; lra.
  - exact (influence_potential_bounds r V).
Qed.

Lemma dimension_value_is_lookup (dimension : string)
    (r : RelationshipDimensions.t) :
  In dimension dimension_names ->
  RelationshipDimensions.dimension_value r dimension
  = lookup dimension (dimension_items r)
  /\ exists v, lookup dimension (dimension_items r) = Some v.
Proof.
  intros D. destruct r as [tr re af de fe h]. simpl in D.
  repeat (destruct D as [<-|D]; [split; [reflexivity|eexists; reflexivity]|]).
  contradiction.
Qed.

Lemma set_dimension_assigns (dimension : string) (v : Q)
    (r : RelationshipDimensions.t) (c : RelationshipDimensions.change) :
  In dimension dimension_names ->
  dimension_items
    (RelationshipDimensions.append_history
       (RelationshipDimensions.set_dimension r dimension v) c)
  = PyList.assign dimension v (dimension_items r)
  /\ RelationshipDimensions.relationship_history
       (RelationshipDimensions.append_history
          (RelationshipDimensions.set_dimension r dimension v) c)
     = (RelationshipDimensions.relationship_history r ++ [c])%list.
Proof.
  intros D. destruct r as [tr re af de fe h]. simpl in D.
  repeat (destruct D as [<-|D]; [split; reflexivity|]). contradiction.
Qed.

Lemma valid_dimensions_items (r : RelationshipDimensions.t) :
  Valid.dimensions r <-> Forall Valid.unit_range (map snd (dimension_items r)).
Proof. reflexivity. Qed.

Lemma update_dimension_spec (now : datetime) (dimension : string)
    (change : Q) (reason : string) (scaled : bool)
    (r : RelationshipDimensions.t) (old : Q) :
  Valid.dimensions r -> In dimension dimension_names ->
  lookup dimension (dimension_items r) = Some old ->
  let call :=
    RelationshipDimensions.update_dimension now dimension change reason scaled
      r in
  let r' := state_of call in
  value_of call = Ok tt
  /\ Valid.dimensions r'
  /\ (forall other, other <> dimension ->
      lookup other (dimension_items r') = lookup other (dimension_items r))
  /\ exists new entry,
       lookup dimension (dimension_items r') = Some new
       /\ (0 <= change -> old <= new)
       /\ (change <= 0 -> new <= old)
       /\ new
          = py_max 0.0
              (py_min 1.0 (old + RelationshipDimensions.ch_change entry))
       /\ RelationshipDimensions.relationship_history r'
          = (RelationshipDimensions.relationship_history r ++ [entry])%list
       /\ RelationshipDimensions.ch_dimension entry = dimension
       /\ RelationshipDimensions.old_value entry = old
       /\ RelationshipDimensions.new_value entry = new
       /\ RelationshipDimensions.ch_change entry
          = if scaled
            then change * (1.0 + RelationshipDimensions.get_closeness r)
            else change.
Proof.
  intros V D L. cbv zeta.
  destruct (dimension_value_is_lookup dimension r D) as [DV _].
  destruct (closeness_bounds r) as [C0 C1]. specialize (C1 V).
  assert (B : 0 <= old /\ old <= 1).
  { exact (lookup_values Valid.unit_range _ _ _
             (proj1 (valid_dimensions_items r) V) L). }
  unfold RelationshipDimensions.update_dimension, state_of, value_of.
  assert (Hs : RelationshipDimensions.hasattr r dimension = true).
  { unfold RelationshipDimensions.hasattr. now rewrite DV, L. }
  rewrite Hs, DV, L. cbn [negb fst snd].
  set (adjusted := if scaled then _ else _).
  set (new := py_max 0.0 (py_min 1.0 (old + adjusted))).
  set (entry := RelationshipDimensions.Build_change _ _ _ _ _ _).
  destruct (set_dimension_assigns dimension new r entry D) as [I Hh].
  assert (N : 0 <= new /\ new <= 1) by (subst new; split; max_min_cases; lra).
  assert (Adj : (0 <= change -> 0 <= adjusted)
                /\ (change <= 0 -> adjusted <= 0)).
  { subst adjusted. destruct scaled.
    - set (m := 1.0 + RelationshipDimensions.get_closeness r).
      assert (M : 1 <= m /\ m <= 2) by (subst m; split; lra).
      split.
      + intros P. apply Qmult_le_0_compat; lra.
      + intros P. assert (0 <= (- change) * m)
          by (apply Qmult_le_0_compat; lra). lra.
    - split; tauto. }
  split; [reflexivity|]. split.
  { apply (proj2 (valid_dimensions_items _)). rewrite I.
    apply assign_values; [exact (proj1 (valid_dimensions_items r) V)|exact N]. }
  split.
  { intros other O. rewrite I. now apply lookup_assign_other. }
  exists new, entry. split; [rewrite I; apply lookup_assign_same|].
  destruct Adj as (A1 & A2).
  split; [intros P; specialize (A1 P); subst new; max_min_cases; lra|].
  split; [intros P; specialize (A2 P); subst new; max_min_cases; lra|].
  split; [reflexivity|].
  split; [exact Hh|]. repeat split; reflexivity.
Qed.

(** X21. [update_dimension] on one of the five dimensions of a relationship
    that passed its constructor: it returns normally; the new value of the
    dimension is max(0.0, min(1.0, old + adjusted)), where the adjusted
    change is the change times 1.0 + closeness when the multiplier is on and
    the change itself otherwise; it lies in [0, 1], is not below the old
    value for a non-negative change and not above it for a non-positive
    one; the other four dimensions are as before; and the history gains
    exactly one entry, which records the dimension, the old and the new
    value and the adjusted change. *)
Theorem update_dimension_effect (now : datetime) (dimension : string)
    (change : Q) (reason : string) (scaled : bool)
    (r : RelationshipDimensions.t) (old : Q) :
  Valid.dimensions r -> In dimension dimension_names ->
  lookup dimension (dimension_items r) = Some old ->
  let call :=
    RelationshipDimensions.update_dimension now dimension change reason scaled
      r in
  let r' := state_of call in
  value_of call = Ok tt
  /\ Valid.dimensions r'
  /\ (forall other, other <> dimension ->
      lookup other (dimension_items r') = lookup other (dimension_items r))
  /\ exists new entry,
       lookup dimension (dimension_items r') = Some new
       /\ (0 <= change -> old <= new)
       /\ (change <= 0 -> new <= old)
       /\ new
          = py_max 0.0
              (py_min 1.0 (old + RelationshipDimensions.ch_change entry))
       /\ RelationshipDimensions.relationship_history r'
          = (RelationshipDimensions.relationship_history r ++ [entry])%list
       /\ RelationshipDimensions.ch_dimension entry = dimension
       /\ RelationshipDimensions.old_value entry = old
       /\ RelationshipDimensions.new_value entry = new
       /\ RelationshipDimensions.ch_change entry
          = if scaled
            then change * (1.0 + RelationshipDimensions.get_closeness r)
            else change.
Proof. exact (update_dimension_spec now dimension change reason scaled r old). Qed.

End RelationshipProperties.

Section RelationshipEventProperties.
Context `{Runtime}.

Import RelationshipQueries.

Lemma apply_changes_spec (clock : nat -> datetime) (scale : Q -> Q)
    (reason : string) (changes : list (string * Q)) :
  Forall (fun entry => In (fst entry) dimension_names) changes ->
  forall (k : nat) (r : RelationshipDimensions.t),
    Valid.dimensions r ->
    exists r' entries,
      RelationshipDimensions.apply_changes clock k changes scale reason r
      = (r', Ok tt)
      /\ Valid.dimensions r'
      /\ RelationshipDimensions.relationship_history r'
         = (RelationshipDimensions.relationship_history r ++ entries)%list
      /\ map RelationshipDimensions.ch_dimension entries = map fst changes
      /\ (forall d, ~ In d (map fst changes) ->
          lookup d (dimension_items r') = lookup d (dimension_items r)).
Proof.
  induction changes as [|[dimension base] changes IH]; intros F k r V.
  - exists r, []. simpl. rewrite app_nil_r. repeat split; auto.
  - apply Forall_cons_iff in F. destruct F as [D F]. simpl in D.
    destruct (dimension_value_is_lookup dimension r D) as [_ [old L]].
    destruct (update_dimension_spec (clock k) dimension (scale base) reason
                true r old V D L)
      as (Ok1 & V1 & Fr & new & entry & _ & _ & _ & _ & Hh & Ed & _).
    cbn [RelationshipDimensions.apply_changes]. unfold bind.
    unfold value_of, state_of in *.
    destruct (RelationshipDimensions.update_dimension (clock k) dimension
                (scale base) reason true r) as [r1 res]. cbn [fst snd] in *.
    subst res.
    destruct (IH F (S k) r1 V1) as (r' & entries & E & V' & Hh' & Ds & Fr').
    exists r', (entry :: entries). rewrite E.
    split; [reflexivity|]. split; [exact V'|]. split.
    { rewrite Hh', Hh, <- app_assoc. reflexivity. }
    split; [simpl; now rewrite Ed, Ds|].
    intros d N. simpl in N. rewrite Fr' by tauto. apply Fr. intuition.
Qed.

(** The table of events: every bundle names dimensions only. *)
Lemma relationship_events_are_sound (event_type : string)
    (changes : list (string * Q)) :
  lookup event_type RelationshipDimensions.relationship_events = Some changes ->
  Forall (fun entry => In (fst entry) dimension_names) changes.
Proof.
  apply (lookup_values
           (Forall (fun entry : string * Q => In (fst entry) dimension_names))).
  unfold RelationshipDimensions.relationship_events. cbn [map snd].
  repeat match goal with
  | |- Forall _ (_ :: _) => apply Forall_cons
  | |- Forall _ [] => apply Forall_nil
  | |- In _ _ => cbn [fst dimension_names In]; auto 10
  end.
Qed.

(** X22. [apply_relationship_event] with one of the events of the table, at
    any strength, on a relationship that passed its constructor: it returns
    normally, the relationship still passes the constructor's checks, the
    dimensions outside the bundle of the event are as before, and the
    history gains one entry per dimension of the bundle, in the bundle's
    order. *)
Theorem relationship_event_effect (clock : nat -> datetime)
    (event_type : string) (strength : Q) (r : RelationshipDimensions.t)
    (changes : list (string * Q)) :
  Valid.dimensions r ->
  lookup event_type RelationshipDimensions.relationship_events = Some changes ->
  let call :=
    RelationshipDimensions.apply_relationship_event clock event_type strength
      r in
  value_of call = Ok tt
  /\ Valid.dimensions (state_of call)
  /\ (forall d, ~ In d (map fst changes) ->
      lookup d (dimension_items (state_of call)) = lookup d (dimension_items r))
  /\ exists entries,
       RelationshipDimensions.relationship_history (state_of call)
       = (RelationshipDimensions.relationship_history r ++ entries)%list
       /\ map RelationshipDimensions.ch_dimension entries = map fst changes.
Proof.
  intros V L. cbv zeta.
  unfold RelationshipDimensions.apply_relationship_event. rewrite L.
  destruct (apply_changes_spec clock (fun base => base * strength) event_type
              changes (relationship_events_are_sound _ _ L) 0 r V)
    as (r' & entries & E & V' & Hh & Ds & Fr).
  rewrite E. unfold value_of, state_of. cbn [fst snd].
  split; [reflexivity|]. split; [exact V'|]. split; [exact Fr|].
  exists entries. split; assumption.
Qed.

Lemma matrix_assign_is_assign {V} (key : string) (v : V)
    (d : list (string * V)) :
  RelationshipMatrix.assign key v d = PyList.assign key v d.
Proof. induction d as [|[k w] d IH]; simpl; [reflexivity|]. now rewrite IH. Qed.

Lemma assign_new_key {V} (key : string) (v : V) (d : list (string * V)) :
  lookup key d = None ->
  map fst (PyList.assign key v d) = (map fst d ++ [key])%list.
Proof.
  induction d as [|[k w] d IH]; simpl; [reflexivity|].
  destruct (String.eqb k key); [discriminate|].
  intros L. simpl. now rewrite IH.
Qed.

(** A call on the relationship with one partner, through the graph. *)
Lemma on_relationship_frame {A} (target : string)
    (call : Py RelationshipDimensions.t A) (g : RelationshipMatrix.t) :
  let before :=
    get_or (lookup target (RelationshipMatrix.relationships g))
      RelationshipDimensions.default in
  let r := RelationshipMatrix.on_relationship target call g in
  value_of r = snd (call before)
  /\ lookup target (RelationshipMatrix.relationships (state_of r))
     = Some (fst (call before))
  /\ (forall other, other <> target ->
      lookup other (RelationshipMatrix.relationships (state_of r))
      = lookup other (RelationshipMatrix.relationships g))
  /\ map fst (RelationshipMatrix.relationships (state_of r))
     = match lookup target (RelationshipMatrix.relationships g) with
       | Some _ => map fst (RelationshipMatrix.relationships g)
       | None => (map fst (RelationshipMatrix.relationships g) ++ [target])%list
       end.
Proof.
  cbv zeta. unfold RelationshipMatrix.on_relationship, bind,
    RelationshipMatrix.get_relationship, value_of, state_of.
  destruct g as [rels]. cbn [RelationshipMatrix.relationships].
  destruct (lookup target rels) as [rel|] eqn:L; cbn [get_or].
  - destruct (call rel) as [rel' res]. cbn [fst snd RelationshipMatrix.relationships].
    rewrite matrix_assign_is_assign.
    split; [reflexivity|]. split; [apply lookup_assign_same|].
    split; [intros other O; now apply lookup_assign_other|].
    apply assign_existing_key. eapply lookup_present; eassumption.
  - destruct (call RelationshipDimensions.default) as [rel' res].
    cbn [fst snd RelationshipMatrix.relationships].
    rewrite !matrix_assign_is_assign.
    split; [reflexivity|]. split; [apply lookup_assign_same|]. split.
    + intros other O. now rewrite !lookup_assign_other.
    + rewrite assign_existing_key.
      * now apply assign_new_key.
      * rewrite assign_new_key by exact L. apply in_or_app. right. now left.
Qed.

(** X23. An update through the graph touches one partner only:
    [update_relationship] on a partner leaves the relationship with every
    other partner as it was, keeps the partners in their order, appends the
    partner (starting from the neutral relationship) when it was not known,
    and leaves under the partner what [update_dimension] makes of the
    relationship it found. *)
Theorem update_relationship_touches_one_partner (now : datetime)
    (target dimension : string) (change : Q) (reason : string)
    (g : RelationshipMatrix.t) (other : string) :
  other <> target ->
  let before :=
    get_or (lookup target (RelationshipMatrix.relationships g))
      RelationshipDimensions.default in
  let g' :=
    state_of
      (RelationshipMatrix.update_relationship now target dimension change
         reason g) in
  lookup other (RelationshipMatrix.relationships g')
  = lookup other (RelationshipMatrix.relationships g)
  /\ lookup target (RelationshipMatrix.relationships g')
     = Some (state_of
               (RelationshipDimensions.update_dimension now dimension change
                  reason true before))
  /\ map fst (RelationshipMatrix.relationships g')
     = match lookup target (RelationshipMatrix.relationships g) with
       | Some _ => map fst (RelationshipMatrix.relationships g)
       | None => (map fst (RelationshipMatrix.relationships g) ++ [target])%list
       end.
Proof.
  intros O. cbv zeta. unfold RelationshipMatrix.update_relationship.
  destruct (on_relationship_frame target
              (RelationshipDimensions.update_dimension now dimension change
                 reason true) g) as (_ & T & Fr & K).
  cbv zeta in *. split; [now apply Fr|]. split; [exact T|exact K].
Qed.

End RelationshipEventProperties.

Section RelationshipQueryProperties.
Context `{Runtime}.

Import RelationshipQueries.

Lemma above_threshold_spec (dimension : string) (threshold : Q)
    (entries : list (string * RelationshipDimensions.t)) :
  In dimension dimension_names ->
  exists rows,
    above_threshold dimension threshold entries = Some rows
    /\ forall npc_id value,
         In (npc_id, value) rows
         <-> exists rel,
               In (npc_id, rel) entries
               /\ lookup dimension (dimension_items rel) = Some value
               /\ threshold <= value.
Proof.
  intros D. induction entries as [|[k rel] entries (rows & E & S)].
  - exists []. split; [reflexivity|]. intros id v. split; [intros []|].
    intros (rel & [] & _).
  - destruct (dimension_value_is_lookup dimension rel D) as [DV [v L]].
    cbn [above_threshold]. rewrite DV, L, E.
    eexists. split; [reflexivity|]. intros id w.
    destruct (Qleb threshold v) eqn:T.
    + apply Qleb_true in T. split.
      * intros [[= <- <-]|I].
        -- exists rel. split; [now left|]. split; assumption.
        -- apply S in I. destruct I as (rel' & I & P). exists rel'.
           split; [now right|exact P].
      * intros (rel' & [[= <- <-]|I] & L' & T').
        -- left. congruence.
        -- right. apply S. eauto.
    + apply Qleb_false in T. split.
      * intros I. apply S in I. destruct I as (rel' & I & P). exists rel'.
        split; [now right|exact P].
      * intros (rel' & [[= <- <-]|I] & L' & T').
        -- rewrite L in L'. injection L' as <-. lra.
        -- apply S. eauto.
Qed.

(** X24. For each of the five dimensions, [get_npcs_by_dimension] returns
    exactly the partners whose value in that dimension is at least the
    threshold, each with that value, sorted by descending value;
    [get_trusted_npcs], [get_feared_npcs], [get_respected_npcs] and
    [get_loved_npcs] return the identifiers of these rows in that order. *)
Theorem partners_by_dimension_are_those_above_threshold (dimension : string)
    (threshold : Q) (g : RelationshipMatrix.t) :
  In dimension dimension_names ->
  exists rows,
    get_npcs_by_dimension dimension threshold g = Some rows
    /\ ids_by_dimension dimension threshold g = map fst rows
    /\ StronglySorted (PyList.descending snd) rows
    /\ forall npc_id value,
         In (npc_id, value) rows
         <-> exists rel,
               In (npc_id, rel) (RelationshipMatrix.relationships g)
               /\ lookup dimension (dimension_items rel) = Some value
               /\ threshold <= value.
Proof.
  intros D.
  destruct (above_threshold_spec dimension threshold
              (RelationshipMatrix.relationships g) D) as (rows & E & S).
  exists (PyList.sorted_desc snd rows).
  unfold ids_by_dimension, get_npcs_by_dimension. rewrite E. cbn [get_or].
  split; [reflexivity|]. split; [reflexivity|].
  split; [apply sorted_desc_sorted|].
  intros id v. rewrite <- S. split; intros I.
  - now apply (Permutation_in _ (sorted_desc_permutation snd rows)).
  - now apply (Permutation_in _ (Permutation_sym
                                   (sorted_desc_permutation snd rows))).
Qed.

(** X25. For a limit that is not negative, [get_recent_changes] returns the
    end of the history: the last min(limit, length) entries when the limit
    is positive -- and, by the slice [-0:], the whole history when the limit
    is 0. *)
Theorem recent_changes_are_the_end_of_the_history (limit : Z)
    (r : RelationshipDimensions.t) :
  (0 <= limit)%Z ->
  exists earlier,
    RelationshipDimensions.relationship_history r
    = (earlier ++ get_recent_changes limit r)%list
    /\ List.length (get_recent_changes limit r)
       = if (limit =? 0)%Z
         then List.length (RelationshipDimensions.relationship_history r)
         else Nat.min (Z.to_nat limit)
                (List.length (RelationshipDimensions.relationship_history r)).
Proof.
  intros L. unfold get_recent_changes.
  destruct (RelationshipDimensions.relationship_history r) as [|c history] eqn:E.
  - exists []. split; [reflexivity|]. destruct (limit =? 0)%Z; simpl; lia.
  - rewrite <- E. clear E c history.
    set (history := RelationshipDimensions.relationship_history r).
    unfold PyList.slice_from. destruct (limit =? 0)%Z eqn:Z0.
    + apply Z.eqb_eq in Z0. subst limit. simpl. exists []. auto.
    + apply Z.eqb_neq in Z0.
      assert (N : (- limit <? 0)%Z = true) by (apply Z.ltb_lt; lia).
      rewrite N, Z.opp_involutive.
      exists (firstn (List.length history - Z.to_nat limit) history).
      split; [now rewrite firstn_skipn|]. rewrite length_skipn. lia.
Qed.

Lemma closeness_total_bounds (rels : list RelationshipDimensions.t) (a : Q) :
  Forall Valid.dimensions rels ->
  a <= fold_left
         (fun acc rel => acc + RelationshipDimensions.get_closeness rel) rels a
  /\ fold_left
       (fun acc rel => acc + RelationshipDimensions.get_closeness rel) rels a
     <= a + RelationshipMatrix.len rels.
Proof.
  intros V. revert a. induction V as [|rel rels Vr _ IH]; intros a.
  - unfold RelationshipMatrix.len. simpl.
    change (inject_Z 0) with 0. split; lra.
  - destruct (closeness_bounds rel) as [C0 C1]. specialize (C1 Vr).
    cbn [fold_left].
    destruct (IH (a + RelationshipDimensions.get_closeness rel)) as [L U].
    unfold RelationshipMatrix.len in *. cbn [List.length].
    rewrite Nat2Z.inj_succ, <- Z.add_1_r, inject_Z_plus.
    change (inject_Z 1) with 1. split; lra.
Qed.

Lemma positive_count_bounds (rels : list RelationshipDimensions.t) (a : Z) :
  (a <= fold_left
          (fun acc rel =>
             if Qltb 0.0 (RelationshipDimensions.get_overall_sentiment rel)
             then (acc + 1)%Z else acc) rels a
   <= a + Z.of_nat (List.length rels))%Z.
Proof.
  revert a. induction rels as [|rel rels IH]; intros a; cbn [fold_left].
  - simpl. lia.
  - cbn [List.length]. rewrite Nat2Z.inj_succ.
    destruct (Qltb 0.0 _).
    + specialize (IH (a + 1)%Z). lia.
    + specialize (IH a). lia.
Qed.

Lemma influence_total_nonneg (rels : list RelationshipDimensions.t) :
  Forall Valid.dimensions rels ->
  0 <= RelationshipMatrix.sum_Q
         (map RelationshipDimensions.get_influence_potential rels).
Proof.
  intros V. unfold RelationshipMatrix.sum_Q.
  change (fold_left Qplus ?l 0) with (PyList.sum l).
  induction V as [|rel rels Vr _ IH]; simpl.
  - unfold PyList.sum. simpl. lra.
  - rewrite sum_cons.
    pose proof (influence_potential_bounds rel Vr). lra.
Qed.

Lemma ratio_bounds (x n : Q) :
  0 < n -> 0 <= x -> x <= n -> 0 <= x / n /\ x / n <= 1.
Proof.
  intros N L U. split.
  - apply Qle_shift_div_l; [exact N|lra].
  - apply Qle_shift_div_r; [exact N|lra].
Qed.

Lemma len_positive {A} (x : A) (xs : list A) :
  0 < RelationshipMatrix.len (x :: xs).
Proof.
  unfold RelationshipMatrix.len. change 0 with (inject_Z 0).
  rewrite <- Zlt_Qlt. cbn [List.length]. lia.
Qed.

(** X26. For a graph whose relationships passed their constructor, the
    social isolation and the social influence both lie in [0, 1]. *)
Theorem isolation_and_influence_are_fractions (g : RelationshipMatrix.t) :
  Forall Valid.dimensions (map snd (RelationshipMatrix.relationships g)) ->
  0 <= RelationshipMatrix.calculate_social_isolation g
  /\ RelationshipMatrix.calculate_social_isolation g <= 1
  /\ 0 <= RelationshipMatrix.calculate_social_influence g
  /\ RelationshipMatrix.calculate_social_influence g <= 1.
Proof.
  intros V. unfold RelationshipMatrix.calculate_social_isolation,
    RelationshipMatrix.calculate_social_influence.
  destruct (RelationshipMatrix.relationships g) as [|entry entries].
  - repeat split; lra.
  - set (rels := map snd (entry :: entries)) in *.
    assert (N : 0 < RelationshipMatrix.len rels) by apply len_positive.
    destruct (closeness_total_bounds rels 0.0 V) as [C0 C1].
    pose proof (positive_count_bounds rels 0%Z) as [P0 P1].
    pose proof (influence_total_nonneg rels V) as I0.
    set (closeness := fold_left _ rels 0.0) in *.
    set (positive := fold_left _ rels 0%Z) in *.
    assert (PQ : 0 <= inject_Z positive
                 /\ inject_Z positive <= RelationshipMatrix.len rels).
    { unfold RelationshipMatrix.len. change 0 with (inject_Z 0).
      rewrite <- !Zle_Qle. lia. }
    destruct (ratio_bounds closeness (RelationshipMatrix.len rels) N)
      as [A0 A1]; [lra|lra|].
    destruct (ratio_bounds (inject_Z positive) (RelationshipMatrix.len rels) N)
      as [B0 B1]; [lra|lra|].
    set (average := closeness / RelationshipMatrix.len rels) in *.
    set (ratio := inject_Z positive / RelationshipMatrix.len rels) in *.
    assert (I1 : 0 <= RelationshipMatrix.sum_Q
                        (map RelationshipDimensions.get_influence_potential rels)
                      / RelationshipMatrix.len rels).
    { apply Qle_shift_div_l; [exact N|lra]. }
    set (influence := _ / RelationshipMatrix.len rels) in I1 |- *.
    split; [|split; [|split]].
    + unfold Qdiv. change (/ 2.0) with (10 # 20). lra.
    + unfold Qdiv. change (/ 2.0) with (10 # 20). lra.
    + assert (B : 0 <= 1.0 + py_min 1.0 (RelationshipMatrix.len rels / 20.0)).
      { unfold Qdiv. change (/ 20.0) with (10 # 200). max_min_cases; lra. }
      pose proof (Qmult_le_0_compat _ _ I1 B). max_min_cases; lra.
    + max_min_cases; lra.
Qed.

End RelationshipQueryProperties.

(* ================================================================= *)
(** ** models/npc.py: actions and interactions *)

Section GraphInvariant.
Context `{Runtime}.

Import RelationshipQueries.

Lemma default_dimensions_are_valid :
  Valid.dimensions RelationshipDimensions.default.
Proof.
  unfold Valid.dimensions, Valid.unit_range.
  repeat (apply Forall_cons; [split; cbn; lra|]). apply Forall_nil.
Qed.

Lemma assign_nodup {V} (key : string) (v : V) (d : list (string * V)) :
  NoDup (map fst d) -> NoDup (map fst (PyList.assign key v d)).
Proof.
  intros N. destruct (lookup key d) as [w|] eqn:L.
  - rewrite assign_existing_key; [exact N|].
    eapply lookup_present; eassumption.
  - rewrite assign_new_key by exact L.
    apply NoDup_app; [exact N|repeat constructor; simpl; tauto|].
    intros k I [<-|[]]. now apply (lookup_none_keys _ _ L).
Qed.

Lemma assign_keeps_graph (key : string) (rel : RelationshipDimensions.t)
    (rels : list (string * RelationshipDimensions.t)) :
  Valid.graph (RelationshipMatrix.Build_t rels) -> Valid.dimensions rel ->
  Valid.graph (RelationshipMatrix.Build_t (PyList.assign key rel rels)).
Proof.
  unfold Valid.graph. cbn [RelationshipMatrix.relationships].
  intros [N F] V. split; [now apply assign_nodup|now apply assign_values].
Qed.

(** A call that returns normally and keeps the relationship within the
    constructor's checks does the same to the graph. *)
Lemma on_relationship_keeps_graph {A} (target : string)
    (call : Py RelationshipDimensions.t A) (a : A) (g : RelationshipMatrix.t) :
  (forall rel, Valid.dimensions rel ->
     snd (call rel) = Ok a /\ Valid.dimensions (fst (call rel))) ->
  Valid.graph g ->
  exists g',
    RelationshipMatrix.on_relationship target call g = (g', Ok a)
    /\ Valid.graph g'.
Proof.
  intros C G. unfold RelationshipMatrix.on_relationship, bind,
    RelationshipMatrix.get_relationship.
  destruct g as [rels]. cbn [RelationshipMatrix.relationships].
  destruct (lookup target rels) as [rel|] eqn:L.
  - assert (V : Valid.dimensions rel).
    { destruct G as [_ F]. exact (lookup_values _ _ _ _ F L). }
    destruct (C rel V) as [R V']. destruct (call rel) as [rel' res].
    cbn [fst snd RelationshipMatrix.relationships] in *. subst res.
    eexists. split; [reflexivity|]. rewrite matrix_assign_is_assign.
    now apply assign_keeps_graph.
  - destruct (C _ default_dimensions_are_valid) as [R V'].
    destruct (call RelationshipDimensions.default) as [rel' res].
    cbn [fst snd RelationshipMatrix.relationships] in *. subst res.
    eexists. split; [reflexivity|]. rewrite !matrix_assign_is_assign.
    apply assign_keeps_graph; [|exact V'].
    apply assign_keeps_graph; [exact G|apply default_dimensions_are_valid].
Qed.

Lemma update_relationship_keeps_graph (now : datetime)
    (target dimension : string) (change : Q) (reason : string)
    (g : RelationshipMatrix.t) :
  In dimension dimension_names -> Valid.graph g ->
  exists g',
    RelationshipMatrix.update_relationship now target dimension change reason g
    = (g', Ok tt)
    /\ Valid.graph g'.
Proof.
  intros D G. apply on_relationship_keeps_graph; [|exact G].
  intros rel V. destruct (dimension_value_is_lookup dimension rel D) as [_ [old L]].
  destruct (update_dimension_spec now dimension change reason true rel old V D L)
    as (R & V' & _).
  split; assumption.
Qed.

Lemma graph_event_keeps_graph (clock : nat -> datetime)
    (target event_type : string) (strength : Q)
    (changes : list (string * Q)) (g : RelationshipMatrix.t) :
  lookup event_type RelationshipDimensions.relationship_events = Some changes ->
  Valid.graph g ->
  exists g',
    RelationshipMatrix.apply_relationship_event clock target event_type
      strength g = (g', Ok tt)
    /\ Valid.graph g'.
Proof.
  intros L G. apply on_relationship_keeps_graph; [|exact G].
  intros rel V. unfold RelationshipDimensions.apply_relationship_event.
  rewrite L.
  destruct (apply_changes_spec clock (fun base => base * strength) event_type
              changes (relationship_events_are_sound _ _ L) 0 rel V)
    as (r' & entries & E & V' & _).
  rewrite E. split; [reflexivity|exact V'].
Qed.

End GraphInvariant.

Section NPCActionProperties.
Context `{Runtime}.

Import Practice RelationshipQueries ExperienceQueries.

Lemma clamp01_is_a_fraction (v : Q) : Valid.unit_range (NPCState.clamp01 v).
Proof. unfold Valid.unit_range, NPCState.clamp01. split; max_min_cases; lra. Qed.

(** The physical effects of an action only move the three vitals, and leave
    each of them in [0, 1]. *)
Lemma physical_effects_spec (action : ActionType) (success : bool)
    (outcome : NPCState.outcome_data) i n a h hu e p x tr r la las d ts :
  exists h' hu' e',
    NPCState._apply_action_physical_effects action success outcome
      (NPCState.Build_t i n a h hu e p x tr r la las d ts)
    = (NPCState.Build_t i n a h' hu' e' p x tr r la las d ts, Ok tt)
    /\ Valid.unit_range h' /\ Valid.unit_range hu' /\ Valid.unit_range e'.
Proof.
  unfold NPCState._apply_action_physical_effects, bind, ret,
    NPCState.update_physical_state.
  destruct action, success; cbv beta iota zeta;
    do 3 eexists; (split; [reflexivity|]);
    repeat split; apply clamp01_is_a_fraction.
Qed.

Lemma known_events_are_in_the_table (event_type : string) :
  In event_type ["helped_in_crisis"; "shared_resources"] ->
  exists changes,
    lookup event_type RelationshipDimensions.relationship_events = Some changes.
Proof.
  intros [<-|[<-|[]]]; eexists; reflexivity.
Qed.

(** The social effects of an action only touch the graph, never fail, and
    leave a graph of relationships that pass their constructor. *)
Lemma relationship_effects_spec (clock : nat -> datetime) (action : ActionType)
    (success : bool) (outcome : NPCState.outcome_data)
    i n a h hu e p x tr r la las d ts :
  Valid.graph r ->
  exists r',
    NPCState._apply_action_relationship_effects clock action success outcome
      (NPCState.Build_t i n a h hu e p x tr r la las d ts)
    = (NPCState.Build_t i n a h hu e p x tr r' la las d ts, Ok tt)
    /\ Valid.graph r'.
Proof.
  intros G. unfold NPCState._apply_action_relationship_effects.
  destruct (NPCState.target_npc outcome) as [target|];
    [|exists r; split; [reflexivity|exact G]].
  destruct (String.eqb target ""); [exists r; split; [reflexivity|exact G]|].
  destruct action, success;
    try (exists r; split; [reflexivity|exact G]);
    unfold bind, NPCState.on_relationships.
  - destruct (known_events_are_in_the_table "helped_in_crisis")
      as [changes L]; [simpl; auto|].
    destruct (graph_event_keeps_graph clock target _ 1.0 changes r L G)
      as (g' & E & G').
    rewrite E. exists g'. split; [reflexivity|exact G'].
  - destruct (known_events_are_in_the_table "shared_resources")
      as [changes L]; [simpl; auto|].
    destruct (graph_event_keeps_graph clock target _ 1.0 changes r L G)
      as (g' & E & G').
    rewrite E. exists g'. split; [reflexivity|exact G'].
  - destruct (update_relationship_keeps_graph (clock 0%nat) target "affection"
                0.05 "conversation" r) as (g' & E & G');
      [simpl; auto|exact G|].
    rewrite E. exists g'. split; [reflexivity|exact G'].
  - destruct (update_relationship_keeps_graph (clock 0%nat) target "trust"
                0.1 "formed_alliance" r) as (g1 & E1 & G1);
      [simpl; auto|exact G|].
    destruct (update_relationship_keeps_graph (clock 1%nat) target "respect"
                0.05 "formed_alliance" g1) as (g2 & E2 & G2);
      [simpl; auto|exact G1|].
    rewrite E1. cbv beta iota. rewrite E2.
    exists g2. split; [reflexivity|exact G2].
Qed.

Lemma add_trauma_outcome (now : datetime) (event_type : string) (impact : Q)
    (age : Z) (description : string) (related : option (list string))
    (ledger : TraumaState.t) :
  (0 <= age)%Z -> Valid.ledger ledger ->
  exists ledger',
    (impact < 0
     /\ TraumaState.add_trauma now event_type impact age description related
          ledger
        = (ledger, Raise (ValueError "Trauma impact must be non-negative"))
     /\ ledger' = ledger
     \/ 0 <= impact
        /\ exists memory,
             TraumaState.add_trauma now event_type impact age description
               related ledger
             = (ledger', Ok memory))
    /\ Valid.ledger ledger'.
Proof.
  intros A V. unfold TraumaState.add_trauma, TraumaMemory.make.
  destruct (Qltb impact 0) eqn:I.
  - apply Qltb_true in I. exists ledger. split; [left; auto|exact V].
  - apply Qltb_false in I.
    rewrite (Qltb_intro_false impact impact) by lra.
    pose proof A as A'. apply Z.ltb_ge in A'. rewrite A'. cbn iota.
    eexists. split; [right; split; [exact I|eexists; reflexivity]|].
    unfold Valid.ledger. destruct ledger as [ms hp la rate].
    cbn [TraumaState.set_memories TraumaState.memories].
    apply Forall_app. split; [exact V|].
    apply Forall_cons; [|apply Forall_nil].
    unfold Valid.memory. cbn. repeat split; try lra. exact A.
Qed.

Lemma process_traumatic_event_spec (now : datetime)
    (data : NPCState.trauma_data) i n a h hu e p x tr r la las d ts :
  (0 <= a)%Z -> Valid.ledger tr ->
  exists tr',
    (get_or (NPCState.td_impact data) 0.5 < 0
     /\ NPCState._process_traumatic_event now data
          (NPCState.Build_t i n a h hu e p x tr r la las d ts)
        = (NPCState.Build_t i n a h hu e p x tr r la las d ts,
           Raise (ValueError "Trauma impact must be non-negative"))
     /\ tr' = tr
     \/ 0 <= get_or (NPCState.td_impact data) 0.5
        /\ NPCState._process_traumatic_event now data
             (NPCState.Build_t i n a h hu e p x tr r la las d ts)
           = (NPCState.Build_t i n a h hu e p x tr' r la las d ts, Ok tt))
    /\ Valid.ledger tr'.
Proof.
  intros A V. unfold NPCState._process_traumatic_event, bind, ret,
    NPCState.on_trauma. cbn [NPCState.age].
  destruct (add_trauma_outcome now (get_or (NPCState.td_type data) "generic")
              (get_or (NPCState.td_impact data) 0.5) a
              (get_or (NPCState.td_description data)
                 ("Experienced " ++ get_or (NPCState.td_type data) "generic"))
              (Some (get_or (NPCState.td_related_npcs data) [])) tr A V)
    as (tr' & C & V').
  exists tr'. split; [|exact V'].
  destruct C as [(I & E & Et)|(I & memory & E)]; [left|right]; rewrite E; auto.
Qed.

(** The vitals that the physical effects leave depend on nothing but the
    vitals they find. *)
Lemma physical_effects_frame (action : ActionType) (success : bool)
    (outcome : NPCState.outcome_data)
    i n a h hu e p x tr r la las d ts i2 n2 a2 p2 x2 tr2 r2 la2 las2 d2 ts2 :
  let found :=
    state_of
      (NPCState._apply_action_physical_effects action success outcome
         (NPCState.Build_t i2 n2 a2 h hu e p2 x2 tr2 r2 la2 las2 d2 ts2)) in
  NPCState._apply_action_physical_effects action success outcome
    (NPCState.Build_t i n a h hu e p x tr r la las d ts)
  = (NPCState.Build_t i n a (NPCState.health found)
       (NPCState.hunger_level found) (NPCState.energy_level found)
       p x tr r la las d ts, Ok tt).
Proof.
  cbv zeta. unfold NPCState._apply_action_physical_effects, bind, ret,
    NPCState.update_physical_state, state_of.
  destruct action, success; reflexivity.
Qed.

(** The graph that the social effects leave depends on nothing but the
    graph they find. *)
Lemma relationship_effects_frame (clock : nat -> datetime)
    (action : ActionType) (success : bool) (outcome : NPCState.outcome_data)
    i n a h hu e p x tr r la las d ts
    i2 n2 a2 h2 hu2 e2 p2 x2 tr2 la2 las2 d2 ts2 :
  let found :=
    NPCState._apply_action_relationship_effects clock action success outcome
      (NPCState.Build_t i2 n2 a2 h2 hu2 e2 p2 x2 tr2 r la2 las2 d2 ts2) in
  NPCState._apply_action_relationship_effects clock action success outcome
    (NPCState.Build_t i n a h hu e p x tr r la las d ts)
  = (NPCState.Build_t i n a h hu e p x tr
       (NPCState.relationships (state_of found)) la las d ts,
     value_of found).
Proof.
  cbv zeta. unfold NPCState._apply_action_relationship_effects.
  destruct (NPCState.target_npc outcome) as [target|]; [|reflexivity].
  destruct (String.eqb target ""); [reflexivity|].
  destruct action, success; try reflexivity;
    unfold bind, NPCState.on_relationships, state_of, value_of.
  - destruct (RelationshipMatrix.apply_relationship_event clock target
                "helped_in_crisis" 1.0 r) as [g res]. reflexivity.
  - destruct (RelationshipMatrix.apply_relationship_event clock target
                "shared_resources" 1.0 r) as [g res]. reflexivity.
  - destruct (RelationshipMatrix.update_relationship (clock 0%nat) target
                "affection" 0.05 "conversation" r) as [g res]. reflexivity.
  - destruct (RelationshipMatrix.update_relationship (clock 0%nat) target
                "trust" 0.1 "formed_alliance" r) as [g [[]|err]];
      [|reflexivity].
    destruct (RelationshipMatrix.update_relationship (clock 1%nat) target
                "respect" 0.05 "formed_alliance" g) as [g' res]. reflexivity.
Qed.

(** What a call of [perform_action] leaves behind, field by field. *)
Lemma perform_action_spec (clock : nat -> datetime) (now : datetime)
    (action : ActionType) (success : bool)
    (outcome : option NPCState.outcome_data)
    i n a h hu e p x tr r la las d ts :
  (0 <= a)%Z -> Valid.experience x -> Valid.ledger tr -> Valid.graph r ->
  let npc := NPCState.Build_t i n a h hu e p x tr r la las d ts in
  let data := get_or outcome NPCState.no_outcome in
  let fed :=
    state_of (NPCState._apply_action_physical_effects action success data npc) in
  let met :=
    state_of
      (NPCState._apply_action_relationship_effects clock action success data
         npc) in
  let impact :=
    match NPCState.traumatic_event data with
    | Some event => get_or (NPCState.td_impact event) 0.5
    | None => 0
    end in
  exists flags tr' res,
    NPCState.perform_action clock now action success outcome npc
    = (NPCState.Build_t i n a (NPCState.health fed)
         (NPCState.hunger_level fed) (NPCState.energy_level fed) p
         (state_of (ExperienceLevels.gain_experience_from_action action
                      success x))
         tr' (NPCState.relationships met) (Some (action_value action))
         (Some success) d ts, res)
    /\ Valid.unit_range (NPCState.health fed)
    /\ Valid.unit_range (NPCState.hunger_level fed)
    /\ Valid.unit_range (NPCState.energy_level fed)
    /\ Valid.graph (NPCState.relationships met) /\ Valid.ledger tr'
    /\ map fst flags = get_experience_categories_from_action action
    /\ (impact < 0 ->
        res = Raise (ValueError "Trauma impact must be non-negative")
        /\ tr' = tr)
    /\ (0 <= impact -> res = Ok flags).
Proof.
  intros A X L G. cbv zeta. set (data := get_or outcome NPCState.no_outcome).
  destruct (physical_effects_spec action success data i n a h hu e p x tr r
              la las d ts) as (h' & hu' & e' & Fed & Vh & Vhu & Ve).
  destruct (relationship_effects_spec clock action success data
              i n a h hu e p x tr r la las d ts G) as (r' & Met & G').
  rewrite Fed, Met. unfold state_of at 1 2 3 5.
  cbn [fst NPCState.health NPCState.hunger_level NPCState.energy_level
       NPCState.relationships].
  unfold NPCState.perform_action, NPCState.set_last_action. fold data.
  destruct (gain_from_action_spec action success x X)
    as ((flags & Ef & Mf) & _).
  unfold bind at 1. unfold NPCState.on_experience.
  destruct (ExperienceLevels.gain_experience_from_action action success x)
    as [x' res0]. unfold value_of in Ef. unfold state_of.
  cbn [fst snd] in *. subst res0.
  pose proof (physical_effects_frame action success data
                i n a h hu e p x' tr r (Some (action_value action))
                (Some success) d ts i n a p x tr r la las d ts) as E1.
  cbv zeta in E1. rewrite Fed in E1. unfold state_of in E1.
  cbn [fst NPCState.health NPCState.hunger_level NPCState.energy_level] in E1.
  unfold bind at 1. rewrite E1.
  assert (E2 : match NPCState.target_npc data with
               | Some _ =>
                   NPCState._apply_action_relationship_effects clock action
                     success data
               | None => ret tt
               end (NPCState.Build_t i n a h' hu' e' p x' tr r
                      (Some (action_value action)) (Some success) d ts)
               = (NPCState.Build_t i n a h' hu' e' p x' tr r'
                    (Some (action_value action)) (Some success) d ts, Ok tt)).
  { pose proof (relationship_effects_frame clock action success data
                  i n a h' hu' e' p x' tr r (Some (action_value action))
                  (Some success) d ts i n a h hu e p x tr la las d ts) as F.
    cbv zeta in F. rewrite Met in F. unfold state_of, value_of in F.
    cbn [fst snd NPCState.relationships] in F.
    destruct (NPCState.target_npc data) eqn:T; [exact F|].
    unfold NPCState._apply_action_relationship_effects in F.
    rewrite T in F. exact F. }
  unfold bind at 1. rewrite E2.
  exists flags.
  destruct (NPCState.traumatic_event data) as [event|].
  - destruct (process_traumatic_event_spec now event i n a h' hu' e' p x' tr r'
                (Some (action_value action)) (Some success) d ts A L)
      as (tr' & [(I & E3 & Et)|(I & E3)] & L');
      unfold bind, ret; rewrite E3; exists tr'; eexists;
      (split; [subst; reflexivity|]);
      do 6 (split; [assumption|]);
      split; intros I'; first [lra | auto].
  - unfold bind, ret. exists tr. eexists. split; [reflexivity|].
    do 6 (split; [assumption|]).
    split; intros I'; first [lra | auto].
Qed.

(** X27. [perform_action] on a character that passed its constructor, for
    any action, result and outcome data: the action and its result are
    recorded; the identity, name, age and personality are untouched; the
    experience is what [gain_experience_from_action] leaves, the vitals
    are what [_apply_action_physical_effects] leaves and the relationships
    what [_apply_action_relationship_effects] leaves; and the character
    still passes every check of the constructors -- the three vitals in
    particular stay in [0, 1].  All of this holds whether the call returns
    or raises.  It raises only for a traumatic event with a negative
    impact: a [ValueError], with the trauma ledger as it was and the
    experience, the vitals and the relationships already updated;
    otherwise it returns one flag per experience category of the
    action. *)
Theorem perform_action_keeps_the_character_valid (clock : nat -> datetime)
    (now : datetime) (action : ActionType) (success : bool)
    (outcome : option NPCState.outcome_data) (npc : NPCState.t) :
  Valid.character npc ->
  let call := NPCState.perform_action clock now action success outcome npc in
  let npc' := state_of call in
  let data := get_or outcome NPCState.no_outcome in
  let fed :=
    state_of (NPCState._apply_action_physical_effects action success data npc) in
  let met :=
    state_of
      (NPCState._apply_action_relationship_effects clock action success data
         npc) in
  let impact :=
    match NPCState.traumatic_event data with
    | Some event => get_or (NPCState.td_impact event) 0.5
    | None => 0
    end in
  Valid.character npc'
  /\ NPCState.last_action npc' = Some (action_value action)
  /\ NPCState.last_action_success npc' = Some success
  /\ NPCState.npc_id npc' = NPCState.npc_id npc
  /\ NPCState.name npc' = NPCState.name npc
  /\ NPCState.age npc' = NPCState.age npc
  /\ NPCState.personality npc' = NPCState.personality npc
  /\ NPCState.experience npc'
     = state_of (ExperienceLevels.gain_experience_from_action action success
                   (NPCState.experience npc))
  /\ NPCState.health npc' = NPCState.health fed
  /\ NPCState.hunger_level npc' = NPCState.hunger_level fed
  /\ NPCState.energy_level npc' = NPCState.energy_level fed
  /\ NPCState.relationships npc' = NPCState.relationships met
  /\ (impact < 0 ->
      value_of call = Raise (ValueError "Trauma impact must be non-negative")
      /\ NPCState.trauma npc' = NPCState.trauma npc)
  /\ (0 <= impact ->
      exists flags,
        value_of call = Ok flags
        /\ map fst flags = get_experience_categories_from_action action).
Proof.
  intros V. destruct npc as [i n a h hu e p x tr r la las d ts].
  destruct V as (A & _ & Nm & P & X & L & G).
  cbn [NPCState.age NPCState.name NPCState.personality NPCState.experience
       NPCState.trauma NPCState.relationships] in A, Nm, P, X, L, G.
  destruct (perform_action_spec clock now action success outcome
              i n a h hu e p x tr r la las d ts A X L G)
    as (flags & tr' & res & E & Vh & Vhu & Ve & G' & L' & Mf & Neg & Pos).
  intros call npc' data fed met impact.
  fold data fed met impact in E, Vh, Vhu, Ve, G', Neg, Pos.
  subst npc' call. rewrite E. clearbody fed met impact.
  unfold value_of, state_of at 1 2 3 4 5 6 7 8 10 11 12 13 14.
  cbn [fst snd NPCState.npc_id NPCState.name NPCState.age NPCState.personality
       NPCState.experience NPCState.trauma NPCState.last_action
       NPCState.last_action_success NPCState.health NPCState.hunger_level
       NPCState.energy_level NPCState.relationships].
  split.
  { unfold Valid.character, Valid.vitals.
    cbn [NPCState.name NPCState.age NPCState.health NPCState.hunger_level
         NPCState.energy_level NPCState.personality NPCState.experience
         NPCState.trauma NPCState.relationships].
    pose proof (gain_from_action_spec action success x X) as (_ & X' & _).
    tauto. }
  do 11 (split; [reflexivity|]).
  split; [exact Neg|].
  intros I. exists flags. split; [now apply Pos|exact Mf].
Qed.

Lemma interaction_effects_are_sound (interaction_type outcome : string)
    (by_outcome : list (string * list (string * Q))) :
  lookup interaction_type NPCState.interaction_effects = Some by_outcome ->
  Forall (fun entry => In (fst entry) dimension_names)
    (get_or (lookup outcome by_outcome) []).
Proof.
  intros L.
  assert (S : Forall (Forall (fun entry : string * Q =>
                                In (fst entry) dimension_names))
                (map snd by_outcome)).
  { revert L.
    apply (lookup_values
             (fun outcomes =>
                Forall (Forall (fun entry : string * Q =>
                                  In (fst entry) dimension_names))
                  (map snd outcomes))).
    unfold NPCState.interaction_effects. cbn [map snd].
    repeat match goal with
    | |- Forall _ (_ :: _) => apply Forall_cons
    | |- Forall _ [] => apply Forall_nil
    | |- Forall _ (map snd _) => cbn [map snd]
    | |- In _ _ => cbn [fst dimension_names In]; auto 10
    | |- _ => progress cbv beta
    end. }
  destruct (lookup outcome by_outcome) as [effects|] eqn:O; cbn [get_or].
  - exact (lookup_values _ _ _ _ S O).
  - apply Forall_nil.
Qed.

Lemma get_relationship_spec (target : string) (g : RelationshipMatrix.t) :
  Valid.graph g ->
  exists g' rel,
    RelationshipMatrix.get_relationship target g = (g', Ok rel)
    /\ Valid.graph g'
    /\ lookup target (RelationshipMatrix.relationships g') = Some rel
    /\ forall other, other <> target ->
         lookup other (RelationshipMatrix.relationships g')
         = lookup other (RelationshipMatrix.relationships g).
Proof.
  intros G. unfold RelationshipMatrix.get_relationship.
  destruct g as [rels]. cbn [RelationshipMatrix.relationships].
  destruct (lookup target rels) as [rel|] eqn:L.
  - exists (RelationshipMatrix.Build_t rels), rel. auto.
  - do 2 eexists. split; [reflexivity|]. rewrite matrix_assign_is_assign.
    cbn [RelationshipMatrix.relationships].
    split; [apply assign_keeps_graph;
            [exact G|apply default_dimensions_are_valid]|].
    split; [apply lookup_assign_same|].
    intros other O. now apply lookup_assign_other.
Qed.

Lemma apply_effects_spec (clock : nat -> datetime) (target reason : string)
    (effects : list (string * Q)) :
  Forall (fun entry => In (fst entry) dimension_names) effects ->
  forall (k : nat) i n a h hu e p x tr r la las d ts,
    Valid.graph r ->
    exists r',
      NPCState.apply_effects clock k target effects reason
        (NPCState.Build_t i n a h hu e p x tr r la las d ts)
      = (NPCState.Build_t i n a h hu e p x tr r' la las d ts, Ok tt)
      /\ Valid.graph r'
      /\ forall other, other <> target ->
           lookup other (RelationshipMatrix.relationships r')
           = lookup other (RelationshipMatrix.relationships r).
Proof.
  induction effects as [|[dimension change] effects IH];
    intros F k i n a h hu e p x tr r la las d ts G.
  - exists r. split; [reflexivity|]. split; [exact G|reflexivity].
  - apply Forall_cons_iff in F. destruct F as [D F]. cbn [fst] in D.
    destruct (update_relationship_keeps_graph (clock k) target dimension
                change reason r D G) as (g1 & E1 & G1).
    pose proof (on_relationship_frame target
                  (RelationshipDimensions.update_dimension (clock k) dimension
                     change reason true) r) as (_ & _ & Fr & _).
    fold (RelationshipMatrix.update_relationship (clock k) target dimension
            change reason) in Fr.
    rewrite E1 in Fr. unfold state_of in Fr. cbn [fst] in Fr.
    destruct (IH F (S k) i n a h hu e p x tr g1 la las d ts G1)
      as (r' & E & G' & Fr').
    exists r'. cbn [NPCState.apply_effects].
    unfold bind at 1. unfold NPCState.on_relationships. rewrite E1, E.
    split; [reflexivity|]. split; [exact G'|].
    intros other O. now rewrite Fr', Fr.
Qed.

(** X28. [interact_with_npc] on a character that passed its constructor
    never raises and leaves a character that still passes every check; the
    relationships with everyone but the target are untouched.  For an
    interaction type outside its table the character is unchanged and the
    error payload is returned; for a type of the table -- whatever the
    outcome string, recognised or not -- the target has an entry in the
    graph afterwards, the report carries the changes of the table and the
    type of the relationship as it is then, and the trauma ledger changes
    only for a successful betrayal, by one call of [add_trauma] with impact
    0.6. *)
Theorem interaction_never_fails (clock : nat -> datetime) (now : datetime)
    (target interaction_type outcome : string) (npc : NPCState.t) :
  Valid.character npc ->
  let call :=
    NPCState.interact_with_npc clock now target interaction_type outcome npc in
  let npc' := state_of call in
  Valid.character npc'
  /\ (forall other, other <> target ->
      lookup other (RelationshipMatrix.relationships
                      (NPCState.relationships npc'))
      = lookup other (RelationshipMatrix.relationships
                        (NPCState.relationships npc)))
  /\ match lookup interaction_type NPCState.interaction_effects with
     | None =>
         npc' = npc
         /\ value_of call
            = Ok (NPCState.ErrorPayload
                    ("Unknown interaction type: " ++ interaction_type))
     | Some by_outcome =>
         exists rel,
           lookup target (RelationshipMatrix.relationships
                            (NPCState.relationships npc')) = Some rel
           /\ value_of call
              = Ok (NPCState.Report interaction_type outcome
                      (get_or (lookup outcome by_outcome) [])
                      (RelationshipDimensions.get_relationship_type rel))
           /\ NPCState.trauma npc'
              = if String.eqb interaction_type "betrayal"
                   && String.eqb outcome "success"
                then state_of
                       (TraumaState.add_trauma now "betrayal" 0.6
                          (NPCState.age npc) ("Betrayed by " ++ target)
                          (Some [target]) (NPCState.trauma npc))
                else NPCState.trauma npc
     end.
Proof.
  intros V call npc'. subst npc'.
  destruct npc as [i n a h hu e p x tr r la las d ts].
  destruct V as (A & Vit & Nm & P & X & L & G).
  cbn [NPCState.age NPCState.name NPCState.personality NPCState.experience
       NPCState.trauma NPCState.relationships] in A, Nm, P, X, L, G.
  unfold Valid.vitals in Vit.
  cbn [NPCState.health NPCState.hunger_level NPCState.energy_level] in Vit.
  assert (C : match lookup interaction_type NPCState.interaction_effects with
              | None =>
                  call = (NPCState.Build_t i n a h hu e p x tr r la las d ts,
                          Ok (NPCState.ErrorPayload
                                ("Unknown interaction type: "
                                 ++ interaction_type)))
              | Some by_outcome =>
                  exists r' tr' rel,
                    call
                    = (NPCState.Build_t i n a h hu e p x tr' r' la las d ts,
                       Ok (NPCState.Report interaction_type outcome
                             (get_or (lookup outcome by_outcome) [])
                             (RelationshipDimensions.get_relationship_type
                                rel)))
                    /\ Valid.graph r' /\ Valid.ledger tr'
                    /\ lookup target (RelationshipMatrix.relationships r')
                       = Some rel
                    /\ (forall other, other <> target ->
                        lookup other (RelationshipMatrix.relationships r')
                        = lookup other (RelationshipMatrix.relationships r))
                    /\ tr' = if String.eqb interaction_type "betrayal"
                                && String.eqb outcome "success"
                             then state_of
                                    (TraumaState.add_trauma now "betrayal" 0.6
                                       a ("Betrayed by " ++ target)
                                       (Some [target]) tr)
                             else tr
              end).
  { subst call. unfold NPCState.interact_with_npc.
    destruct (lookup interaction_type NPCState.interaction_effects)
      as [by_outcome|] eqn:T; [|reflexivity].
    pose proof (interaction_effects_are_sound _ outcome _ T) as S.
    destruct (apply_effects_spec clock target
                (interaction_type ++ "_" ++ outcome) _ S 0
                i n a h hu e p x tr r la las d ts G) as (r1 & E1 & G1 & F1).
    unfold bind at 1. rewrite E1.
    destruct (get_relationship_spec target r1 G1)
      as (r2 & rel & E2 & G2 & L2 & F2).
    exists r2.
    destruct (String.eqb interaction_type "betrayal"
              && String.eqb outcome "success").
    - destruct (add_trauma_outcome now "betrayal" 0.6 a
                  ("Betrayed by " ++ target) (Some [target]) tr A L)
        as (tr' & [(I & _)|(_ & memory & E3)] & L'); [lra|].
      exists tr', rel.
      unfold NPCState._process_traumatic_event, NPCState.on_trauma,
        NPCState.on_relationships, bind, ret.
      cbn [get_or NPCState.td_type NPCState.td_impact NPCState.td_description
           NPCState.td_related_npcs NPCState.age].
      cbv beta iota. rewrite E3. cbv beta iota. rewrite E2.
      unfold state_of. cbn [fst].
      split; [reflexivity|]. do 3 (split; [assumption|]).
      split; [|reflexivity]. intros other O. now rewrite F2, F1.
    - exists tr, rel. unfold bind, ret, NPCState.on_relationships.
      rewrite E2.
      split; [reflexivity|]. do 3 (split; [assumption|]).
      split; [|reflexivity]. intros other O. now rewrite F2, F1. }
  clearbody call.
  destruct (lookup interaction_type NPCState.interaction_effects)
    as [by_outcome|].
  - destruct C as (r' & tr' & rel & -> & G' & L' & Lt & Fr & Et).
    unfold state_of, value_of.
    cbn [fst snd NPCState.relationships NPCState.trauma NPCState.age].
    split; [|split; [exact Fr|exists rel; auto]].
    unfold Valid.character, Valid.vitals.
    cbn [NPCState.name NPCState.age NPCState.health NPCState.hunger_level
         NPCState.energy_level NPCState.personality NPCState.experience
         NPCState.trauma NPCState.relationships]. tauto.
  - subst call. unfold state_of, value_of. cbn [fst snd].
    split; [|split; [reflexivity|split; reflexivity]].
    unfold Valid.character, Valid.vitals.
    cbn [NPCState.name NPCState.age NPCState.health NPCState.hunger_level
         NPCState.energy_level NPCState.personality NPCState.experience
         NPCState.trauma NPCState.relationships]. tauto.
Qed.

End NPCActionProperties.

(* ================================================================= *)
(** ** models/npc.py and models/personality.py: the read-only queries *)

Section NPCQueryProperties.
Context `{Runtime}.

Import NPCQueries.

(** X29. [get_physical_condition] answers "healthy" exactly when the health
    is at least 0.5, the hunger at most 0.6 and the energy at least 0.4; a
    healthy character needs no immediate attention, and one that needs
    medical attention is reported as injured or critically injured. *)
Theorem healthy_means_no_urgent_need (npc : NPCState.t) :
  (get_physical_condition npc = "healthy"
   <-> 0.5 <= NPCState.health npc
       /\ NPCState.hunger_level npc <= 0.6
       /\ 0.4 <= NPCState.energy_level npc)
  /\ (get_physical_condition npc = "healthy" ->
      needs_immediate_attention npc = [])
  /\ (In "medical_attention" (needs_immediate_attention npc) ->
      get_physical_condition npc = "critically injured"
      \/ get_physical_condition npc = "injured").
Proof.
  assert (B : get_physical_condition npc = "healthy"
              <-> 0.5 <= NPCState.health npc
                  /\ NPCState.hunger_level npc <= 0.6
                  /\ 0.4 <= NPCState.energy_level npc).
  { unfold get_physical_condition. compare_floats;
      (split; [intros E'; try discriminate E'; repeat split; lra
              |intros (B1 & B2 & B3); try reflexivity; lra]). }
  split; [exact B|]. split.
  - intros E. apply B in E. destruct E as (B1 & B2 & B3).
    unfold needs_immediate_attention.
    rewrite !Qltb_intro_false by lra. reflexivity.
  - unfold needs_immediate_attention, get_physical_condition.
    intros I. apply in_app_or in I. destruct I as [I|I].
    + destruct (Qltb (NPCState.health npc) 0.3) eqn:M; [|destruct I].
      apply Qltb_true in M. compare_floats; auto; lra.
    + exfalso. apply in_app_or in I.
      destruct I as [I|I];
        [destruct (Qltb 0.7 (NPCState.hunger_level npc))
        |destruct (Qltb (NPCState.energy_level npc) 0.2)];
        simpl in I; intuition discriminate.
Qed.

End NPCQueryProperties.

Section PersonalityQueryProperties.

Import PersonalityQueries.

Lemma Qleb_false_iff (x y : Q) : Qleb x y = false <-> y < x.
Proof. split; [apply Qleb_false|apply Qleb_intro_false]. Qed.

Lemma app_nil_iff {A} (l l' : list A) :
  (l ++ l')%list = [] <-> l = [] /\ l' = [].
Proof.
  split; [apply app_eq_nil|]. intros [-> ->]. reflexivity.
Qed.

Lemma optional_part_nil_iff (b : bool) (part : string) :
  (if b then [part] else []) = [] <-> b = false.
Proof. destruct b; split; congruence. Qed.

Lemma lookup_filter_absent {V} (f : string * V -> bool) (name : string)
    (d : list (string * V)) :
  ~ In name (map fst d) -> lookup name (filter f d) = None.
Proof.
  induction d as [|[k w] d IH]; simpl; [reflexivity|]. intros N.
  destruct (f (k, w)); [|apply IH; tauto]. simpl.
  destruct (String.eqb k name) eqn:E; [|apply IH; tauto].
  apply String.eqb_eq in E. tauto.
Qed.

(** In a dict comprehension over [items], a key survives exactly when its
    own entry passes the test. *)
Lemma has_key_filter {V} (f : string * V -> bool) (name : string)
    (d : list (string * V)) (v : V) :
  NoDup (map fst d) -> lookup name d = Some v ->
  match lookup name (filter f d) with Some _ => true | None => false end
  = f (name, v).
Proof.
  induction d as [|[k w] d IH]; simpl; [discriminate|]. intros N L.
  apply NoDup_cons_iff in N. destruct N as [K N].
  destruct (String.eqb k name) eqn:E.
  - apply String.eqb_eq in E. subst k. injection L as <-.
    destruct (f (name, w)); simpl.
    + now rewrite String.eqb_refl.
    + now rewrite lookup_filter_absent.
  - destruct (f (k, w)); simpl; [rewrite E|]; now apply IH.
Qed.

Lemma items_have_distinct_keys (p : PersonalityTraits.t) :
  NoDup (map fst (items p)).
Proof.
  unfold items. cbn [map fst].
  repeat (apply NoDup_cons; [simpl; intuition discriminate|]).
  apply NoDup_nil.
Qed.

Lemma summary_parts_are_phrases (dominant weak : list (string * Q)) :
  Forall (fun part => In part phrases) (summary_parts dominant weak).
Proof.
  unfold summary_parts. repeat (apply Forall_app; split);
    match goal with
    | |- Forall _ (if ?b then _ else _) =>
        destruct b;
        [apply Forall_cons; [simpl; auto 20|apply Forall_nil]|apply Forall_nil]
    end.
Qed.

Lemma join_is_not_the_balanced_summary (parts : list string) :
  Forall (fun part => In part phrases) parts -> parts <> [] ->
  join parts <> "balanced personality".
Proof.
  intros F N. destruct parts as [|part rest]; [congruence|].
  apply Forall_cons_iff in F. destruct F as [I _].
  unfold phrases in I. cbn [In] in I.
  destruct rest; cbn [join];
    repeat (destruct I as [<-|I]; [cbn [append]; discriminate|]);
    contradiction.
Qed.

(** X30. For a personality that passed its constructor,
    [get_personality_summary] never raises, and it answers "balanced
    personality" exactly when no trait reaches 0.7 and none of sociability,
    courage, forgiveness and analytical is at most 0.3: a low greed,
    laziness, ambition or impulsiveness has no phrase and leaves the summary
    balanced. *)
Theorem balanced_summary_condition (p : PersonalityTraits.t) :
  Valid.personality p ->
  (exists summary, get_personality_summary p = Ok summary)
  /\ (get_personality_summary p = Ok "balanced personality"
      <-> Forall (fun v => v < 0.7)
            [ PersonalityTraits.greed p; PersonalityTraits.sociability p;
              PersonalityTraits.laziness p; PersonalityTraits.ambition p;
              PersonalityTraits.forgiveness p; PersonalityTraits.courage p;
              PersonalityTraits.analytical p;
              PersonalityTraits.impulsiveness p ]
          /\ Forall (fun v => 0.3 < v)
               [ PersonalityTraits.sociability p; PersonalityTraits.courage p;
                 PersonalityTraits.forgiveness p;
                 PersonalityTraits.analytical p ]).
Proof.
  intros [_ I].
  unfold get_personality_summary, get_dominant_traits, get_weak_traits,
    PersonalityTraits.to_dict, PersonalityTraits.method.
  rewrite I. cbn [lookup].
  set (dominant := filter (fun item => Qleb 0.7 (snd item)) (items p)).
  set (weak := filter (fun item => Qleb (snd item) 0.3) (items p)).
  pose proof (summary_parts_are_phrases dominant weak) as F.
  pose proof (join_is_not_the_balanced_summary (summary_parts dominant weak) F)
    as J.
  assert (E : summary_parts dominant weak = []
              <-> Forall (fun v => v < 0.7)
                    [ PersonalityTraits.greed p; PersonalityTraits.sociability p;
                      PersonalityTraits.laziness p; PersonalityTraits.ambition p;
                      PersonalityTraits.forgiveness p; PersonalityTraits.courage p;
                      PersonalityTraits.analytical p;
                      PersonalityTraits.impulsiveness p ]
                  /\ Forall (fun v => 0.3 < v)
                       [ PersonalityTraits.sociability p;
                         PersonalityTraits.courage p;
                         PersonalityTraits.forgiveness p;
                         PersonalityTraits.analytical p ]).
  { unfold summary_parts, has_key, dominant, weak.
    repeat match goal with
    | |- context [lookup ?name (filter ?f (items p))] =>
        rewrite (has_key_filter f name (items p) _
                   (items_have_distinct_keys p) eq_refl)
    end.
    cbn [snd]. rewrite !app_nil_iff, !optional_part_nil_iff, !Qleb_false_iff.
    rewrite !Forall_cons_iff, !Forall_nil_iff. tauto. }
  clear F. destruct (summary_parts dominant weak) as [|part parts].
  - split; [eexists; reflexivity|]. split; [intros _; now apply E|reflexivity].
  - split; [eexists; reflexivity|]. split.
    + intros [= B]. exfalso. apply J; [discriminate|exact B].
    + intros B. apply E in B. discriminate B.
Qed.

End PersonalityQueryProperties.

(* ================================================================= *)
(** ** The further properties at concrete inputs *)

Section FurtherExamples.

#[local] Existing Instance text_runtime.

Import Healing Practice Examples.

Ltac decide_order := vm_compute; solve [reflexivity | discriminate].

Lemma default_experience_is_valid : Valid.experience ExperienceLevels.default.
Proof. repeat constructor; decide_order. Defined.

Lemma default_relationship_is_valid :
  Valid.dimensions RelationshipDimensions.default.
Proof. repeat constructor; decide_order. Defined.

Lemma default_personality_is_valid :
  Valid.personality PersonalityTraits.default.
Proof. split; [repeat constructor; decide_order|reflexivity]. Defined.

Lemma ledger_impacts_are_not_negative :
  Forall (fun m => 0 <= TraumaMemory.current_impact m)
    (TraumaState.memories ledger).
Proof. repeat constructor; decide_order. Defined.

Lemma betrayal_is_valid : Valid.memory betrayal.
Proof.
  unfold Valid.memory. simpl.
  split; [decide_order|]. split; [decide_order|]. split; [decide_order|lia].
Defined.

Lemma lerp_starts_at_a_and_never_falls_witness :
  2 <= 4
  /\ 2 <= MathHelpers.lerp 2 4 0.5
  /\ (0.5 <= 0.75 -> MathHelpers.lerp 2 4 0.5 <= MathHelpers.lerp 2 4 0.75).
Proof.
  assert (B : 2 <= 4) by decide_order.
  pose proof (lerp_starts_at_a_and_never_falls 2 4 0.5 0.75 B) as T.
  split; [exact B|].
  split; [exact (proj1 T)|exact (proj2 (proj2 (proj2 T)))].
Defined.

Lemma normalized_probabilities_are_shares_witness :
  Forall (fun p => 0 <= p) (map snd [("rest", 1); ("work", 3)])
  /\ ~ PyList.sum (map snd [("rest", 1); ("work", 3)]) == 0
  /\ exists normalized,
       MathHelpers.normalize_probabilities [("rest", 1); ("work", 3)]
       = inl normalized
       /\ map fst normalized = map fst [("rest", 1); ("work", 3)]
       /\ Forall (fun share => 0 <= share /\ share <= 1) (map snd normalized).
Proof.
  assert (P : Forall (fun p => 0 <= p) (map snd [("rest", 1); ("work", 3)]))
    by (repeat constructor; decide_order).
  assert (N : ~ PyList.sum (map snd [("rest", 1); ("work", 3)]) == 0)
    by (intros E; vm_compute in E; discriminate E).
  split; [exact P|]. split; [exact N|].
  destruct (normalized_probabilities_are_shares [("rest", 1); ("work", 3)] P N)
    as (normalized & E & K & _ & F).
  exists normalized. split; [exact E|]. split; [exact K|exact F].
Defined.

Lemma all_zero_probabilities_give_uniform_or_fail_witness :
  Forall (fun p => p == 0) (map snd [("rest", 0); ("work", 0)])
  /\ match MathHelpers.normalize_probabilities [("rest", 0); ("work", 0)] with
     | inr _ => False
     | inl normalized =>
         map fst normalized = map fst [("rest", 0); ("work", 0)]
     end.
Proof.
  assert (Z : Forall (fun p => p == 0) (map snd [("rest", 0); ("work", 0)]))
    by (repeat constructor).
  split; [exact Z|].
  pose proof (all_zero_probabilities_give_uniform_or_fail
                [("rest", 0); ("work", 0)] Z) as T.
  destruct (MathHelpers.normalize_probabilities [("rest", 0); ("work", 0)])
    as [normalized|[]].
  - exact (proj1 (proj2 T)).
  - discriminate T.
Defined.

Lemma healing_progress_is_a_fraction_witness :
  Valid.memory betrayal
  /\ 0 <= TraumaQueries.healing_progress betrayal
  /\ TraumaQueries.healing_progress betrayal <= 1.
Proof.
  pose proof (healing_progress_is_a_fraction betrayal betrayal_is_valid) as T.
  split; [exact betrayal_is_valid|].
  split; [exact (proj1 T)|exact (proj1 (proj2 T))].
Defined.

Lemma trauma_impact_is_capped_witness :
  Forall (fun m => 0 <= TraumaMemory.current_impact m)
    (TraumaState.memories ledger)
  /\ 0 <= TraumaQueries.get_trauma_impact "betrayal" ledger
  /\ TraumaQueries.get_trauma_impact "betrayal" ledger <= 2.
Proof.
  pose proof (trauma_impact_is_capped "betrayal" ledger
                ledger_impacts_are_not_negative) as T.
  split; [exact ledger_impacts_are_not_negative|].
  split; [exact (proj1 T)|exact (proj1 (proj2 T))].
Defined.

Lemma healing_never_raises_trauma_impact_witness :
  Forall settled (TraumaState.memories ledger)
  /\ TraumaQueries.get_trauma_impact "betrayal"
       (run_all [Heal 0 0.3 "therapy"; Daily PersonalityTraits.default 30]
          ledger)
     <= TraumaQueries.get_trauma_impact "betrayal" ledger.
Proof.
  split; [exact ledger_is_settled|].
  exact (healing_never_raises_trauma_impact "betrayal" ledger
           [Heal 0 0.3 "therapy"; Daily PersonalityTraits.default 30]
           ledger_is_settled).
Defined.

Lemma unknown_trauma_types_influence_nothing_witness :
  Forall
    (fun m =>
       lookup (TraumaMemory.event_type m) TraumaQueries.trauma_behavior_map
       = None)
    (TraumaState.memories
       (TraumaState.Build_t
          [TraumaMemory.Build_t "generic" 0.5 0.5 30 "Experienced generic" []
             [] noon] [] None 0.001))
  /\ TraumaQueries.get_trauma_influence_on_behavior
       (TraumaState.Build_t
          [TraumaMemory.Build_t "generic" 0.5 0.5 30 "Experienced generic" []
             [] noon] [] None 0.001)
     = TraumaQueries.no_influences.
Proof.
  assert (U : Forall
                (fun m =>
                   lookup (TraumaMemory.event_type m)
                     TraumaQueries.trauma_behavior_map = None)
                (TraumaState.memories
                   (TraumaState.Build_t
                      [TraumaMemory.Build_t "generic" 0.5 0.5 30
                         "Experienced generic" [] [] noon] [] None 0.001)))
    by (apply Forall_cons; [reflexivity|apply Forall_nil]).
  split; [exact U|].
  exact (unknown_trauma_types_influence_nothing _ U).
Defined.

Lemma counter_experience_heals_each_memory_once_witness :
  0 <= 0.5
  /\ Forall (fun m => 0 <= TraumaMemory.current_impact m)
       (TraumaState.memories ledger)
  /\ value_of
       (TraumaState.apply_counter_experience_healing "trust_restoration" 0.5
          "An ally kept faith" ledger)
     = Ok tt.
Proof.
  assert (I : 0 <= 0.5) by decide_order.
  pose proof (counter_experience_heals_each_memory_once "trust_restoration" 0.5
                "An ally kept faith" ledger I ledger_impacts_are_not_negative)
    as T.
  split; [exact I|]. split; [exact ledger_impacts_are_not_negative|].
  exact (proj1 T).
Defined.

Lemma add_trauma_appends_one_memory_witness :
  0 <= 0.6 /\ (0 <= 30)%Z /\ "violence" <> "betrayal"
  /\ exists memory,
       TraumaState.add_trauma noon "betrayal" 0.6 30 "Betrayed by bob" None
         ledger
       = (TraumaState.set_memories ledger
            (TraumaState.memories ledger ++ [memory]), Ok memory)
       /\ TraumaMemory.current_impact memory = 0.6.
Proof.
  assert (I : 0 <= 0.6) by decide_order.
  assert (A : (0 <= 30)%Z) by lia.
  assert (N : "violence" <> "betrayal") by discriminate.
  split; [exact I|]. split; [exact A|]. split; [exact N|].
  destruct (add_trauma_appends_one_memory noon "betrayal" 0.6 30
              "Betrayed by bob" None ledger "violence" I A N)
    as (memory & E & _ & _ & C & _).
  exists memory. split; [exact E|exact C].
Defined.

Lemma gain_experience_effect_witness :
  Valid.experience ExperienceLevels.default
  /\ In "survival" ExperienceQueries.category_names
  /\ 0 <= 0.3
  /\ level "survival" ExperienceLevels.default
     <= level "survival"
          (state_of
             (ExperienceLevels.gain_experience "survival" 0.3 "practice" true
                ExperienceLevels.default))
  /\ level "survival"
       (state_of
          (ExperienceLevels.gain_experience "survival" 0.3 "practice" true
             ExperienceLevels.default))
     <= 1.
Proof.
  assert (C : In "survival" ExperienceQueries.category_names)
    by (simpl; tauto).
  assert (A : 0 <= 0.3) by decide_order.
  pose proof (gain_experience_effect "survival" 0.3 "practice" true
                ExperienceLevels.default default_experience_is_valid C A) as T.
  cbv zeta in T. destruct T as (_ & _ & L & U & _).
  split; [exact default_experience_is_valid|]. split; [exact C|].
  split; [exact A|]. split; [exact L|exact U].
Defined.

Lemma gain_from_action_never_fails_witness :
  Valid.experience ExperienceLevels.default
  /\ Valid.experience
       (state_of
          (ExperienceLevels.gain_experience_from_action GATHER_FOOD true
             ExperienceLevels.default))
  /\ exists flags,
       value_of
         (ExperienceLevels.gain_experience_from_action GATHER_FOOD true
            ExperienceLevels.default)
       = Ok flags
       /\ map fst flags
          = ExperienceQueries.get_experience_categories_from_action GATHER_FOOD.
Proof.
  pose proof (gain_from_action_never_fails GATHER_FOOD true
                ExperienceLevels.default default_experience_is_valid) as T.
  cbv zeta in T. destruct T as (F & V & _).
  split; [exact default_experience_is_valid|]. split; [exact V|exact F].
Defined.

Lemma failure_gains_no_more_than_success_witness :
  Valid.experience ExperienceLevels.default
  /\ level "survival"
       (state_of
          (ExperienceLevels.gain_experience_from_action GATHER_FOOD false
             ExperienceLevels.default))
     <= level "survival"
          (state_of
             (ExperienceLevels.gain_experience_from_action GATHER_FOOD true
                ExperienceLevels.default)).
Proof.
  pose proof (failure_gains_no_more_than_success GATHER_FOOD
                ExperienceLevels.default "survival"
                default_experience_is_valid) as T.
  cbv zeta in T.
  split; [exact default_experience_is_valid|exact (proj2 T)].
Defined.

Lemma modifiers_stay_in_their_ranges_witness :
  Valid.experience ExperienceLevels.default
  /\ In "combat" ExperienceQueries.category_names
  /\ exists confidence,
       ExperienceQueries.get_confidence_modifier "combat"
         ExperienceLevels.default = Ok confidence
       /\ 1 <= confidence /\ confidence <= 2.
Proof.
  assert (C : In "combat" ExperienceQueries.category_names)
    by (simpl; tauto).
  destruct (modifiers_stay_in_their_ranges "combat" ExperienceLevels.default
              default_experience_is_valid C)
    as (confidence & competence & rate & E & _ & _ & L & U & _).
  split; [exact default_experience_is_valid|]. split; [exact C|].
  exists confidence. split; [exact E|]. split; [exact L|exact U].
Defined.

Lemma success_probability_is_capped_and_monotone_witness :
  0 <= 0.7 /\ 0 <= 0.2 /\ 0.2 <= 0.5
  /\ ExperienceQueries.calculate_action_success_probability 0.7 0.2
     <= ExperienceQueries.calculate_action_success_probability 0.7 0.5
  /\ ExperienceQueries.calculate_action_success_probability 0.7 0.5 <= 0.95.
Proof.
  assert (B : 0 <= 0.7) by decide_order.
  assert (L1 : 0 <= 0.2) by decide_order.
  assert (L2 : 0.2 <= 0.5) by decide_order.
  pose proof (success_probability_is_capped_and_monotone 0.7 0.2 0.5 B L1 L2)
    as T.
  split; [exact B|]. split; [exact L1|]. split; [exact L2|].
  split; [exact (proj1 (proj2 T))|exact (proj1 T)].
Defined.

Lemma top_skills_are_the_highest_witness :
  (0 <= 3)%Z
  /\ List.length (ExperienceQueries.get_top_skills 3 ExperienceLevels.default)
     = Nat.min (Z.to_nat 3) 7.
Proof.
  assert (L : (0 <= 3)%Z) by lia.
  pose proof (top_skills_are_the_highest 3 ExperienceLevels.default L) as T.
  cbv zeta in T. split; [exact L|exact (proj1 T)].
Defined.

Lemma graph_relationships_are_valid :
  Forall Valid.dimensions (map snd (RelationshipMatrix.relationships graph)).
Proof.
  apply Forall_cons; [exact default_relationship_is_valid|apply Forall_nil].
Defined.

Lemma relationship_metrics_are_bounded_witness :
  Valid.dimensions RelationshipDimensions.default
  /\ -1 <= RelationshipDimensions.get_overall_sentiment
             RelationshipDimensions.default
  /\ RelationshipDimensions.get_overall_sentiment
       RelationshipDimensions.default <= 1.
Proof.
  pose proof (relationship_metrics_are_bounded RelationshipDimensions.default
                default_relationship_is_valid) as T.
  split; [exact default_relationship_is_valid|].
  split; [exact (proj1 T)|exact (proj1 (proj2 T))].
Defined.

Lemma update_dimension_effect_witness :
  Valid.dimensions RelationshipDimensions.default
  /\ In "trust" RelationshipQueries.dimension_names
  /\ lookup "trust"
       (RelationshipQueries.dimension_items RelationshipDimensions.default)
     = Some 0.5
  /\ value_of
       (RelationshipDimensions.update_dimension noon "trust" 0.2 "helped" true
          RelationshipDimensions.default)
     = Ok tt
  /\ Valid.dimensions
       (state_of
          (RelationshipDimensions.update_dimension noon "trust" 0.2 "helped"
             true RelationshipDimensions.default)).
Proof.
  assert (D : In "trust" RelationshipQueries.dimension_names)
    by (simpl; tauto).
  assert (L : lookup "trust"
                (RelationshipQueries.dimension_items
                   RelationshipDimensions.default) = Some 0.5)
    by reflexivity.
  pose proof (update_dimension_effect noon "trust" 0.2 "helped" true
                RelationshipDimensions.default 0.5
                default_relationship_is_valid D L) as T.
  cbv zeta in T. destruct T as (R & V & _).
  split; [exact default_relationship_is_valid|]. split; [exact D|].
  split; [exact L|]. split; [exact R|exact V].
Defined.

Lemma relationship_event_effect_witness :
  Valid.dimensions RelationshipDimensions.default
  /\ (exists changes,
        lookup "helped_in_crisis" RelationshipDimensions.relationship_events
        = Some changes)
  /\ value_of
       (RelationshipDimensions.apply_relationship_event clock
          "helped_in_crisis" 1.0 RelationshipDimensions.default)
     = Ok tt
  /\ Valid.dimensions
       (state_of
          (RelationshipDimensions.apply_relationship_event clock
             "helped_in_crisis" 1.0 RelationshipDimensions.default)).
Proof.
  pose proof (relationship_event_effect clock "helped_in_crisis" 1.0
                RelationshipDimensions.default _
                default_relationship_is_valid eq_refl) as T.
  cbv zeta in T. destruct T as (R & V & _).
  split; [exact default_relationship_is_valid|].
  split; [eexists; reflexivity|]. split; [exact R|exact V].
Defined.

Lemma update_relationship_touches_one_partner_witness :
  "bob" <> "carol"
  /\ lookup "bob"
       (RelationshipMatrix.relationships
          (state_of
             (RelationshipMatrix.update_relationship noon "carol" "trust" 0.2
                "helped" graph)))
     = lookup "bob" (RelationshipMatrix.relationships graph).
Proof.
  assert (N : "bob" <> "carol") by discriminate.
  pose proof (update_relationship_touches_one_partner noon "carol" "trust" 0.2
                "helped" graph "bob" N) as T.
  cbv zeta in T. split; [exact N|exact (proj1 T)].
Defined.

Lemma partners_by_dimension_are_those_above_threshold_witness :
  In "trust" RelationshipQueries.dimension_names
  /\ exists rows,
       RelationshipQueries.get_npcs_by_dimension "trust" 0.4 graph = Some rows
       /\ RelationshipQueries.get_trusted_npcs 0.4 graph = map fst rows
       /\ In ("bob", 0.5) rows.
Proof.
  assert (D : In "trust" RelationshipQueries.dimension_names)
    by (simpl; tauto).
  split; [exact D|].
  destruct (partners_by_dimension_are_those_above_threshold "trust" 0.4 graph D)
    as (rows & E & I & _ & M).
  exists rows. split; [exact E|]. split; [exact I|].
  apply M. exists RelationshipDimensions.default.
  split; [left; reflexivity|]. split; [reflexivity|decide_order].
Defined.

Lemma recent_changes_are_the_end_of_the_history_witness :
  (0 <= 1)%Z
  /\ exists earlier,
       RelationshipDimensions.relationship_history
         (state_of
            (RelationshipDimensions.apply_relationship_event clock
               "helped_in_crisis" 1.0 RelationshipDimensions.default))
       = (earlier
          ++ RelationshipQueries.get_recent_changes 1
               (state_of
                  (RelationshipDimensions.apply_relationship_event clock
                     "helped_in_crisis" 1.0 RelationshipDimensions.default)))%list.
Proof.
  assert (L : (0 <= 1)%Z) by lia.
  split; [exact L|].
  destruct (recent_changes_are_the_end_of_the_history 1
              (state_of
                 (RelationshipDimensions.apply_relationship_event clock
                    "helped_in_crisis" 1.0 RelationshipDimensions.default)) L)
    as (earlier & E & _).
  exists earlier. exact E.
Defined.

Lemma isolation_and_influence_are_fractions_witness :
  Forall Valid.dimensions (map snd (RelationshipMatrix.relationships graph))
  /\ 0 <= RelationshipMatrix.calculate_social_isolation graph
  /\ RelationshipMatrix.calculate_social_isolation graph <= 1.
Proof.
  pose proof (isolation_and_influence_are_fractions graph
                graph_relationships_are_valid) as T.
  split; [exact graph_relationships_are_valid|].
  split; [exact (proj1 T)|exact (proj1 (proj2 T))].
Defined.

Lemma perform_action_keeps_the_character_valid_witness :
  Valid.character villager
  /\ Valid.character
       (state_of (NPCState.perform_action clock noon REST true None villager))
  /\ NPCState.last_action
       (state_of (NPCState.perform_action clock noon REST true None villager))
     = Some "rest".
Proof.
  pose proof (perform_action_keeps_the_character_valid clock noon REST true
                None villager villager_is_valid) as T.
  cbv zeta in T. destruct T as (V & A & _).
  split; [exact villager_is_valid|]. split; [exact V|exact A].
Defined.

Lemma interaction_never_fails_witness :
  Valid.character villager
  /\ Valid.character
       (state_of
          (NPCState.interact_with_npc clock noon "bob" "betrayal" "success"
             villager)).
Proof.
  pose proof (interaction_never_fails clock noon "bob" "betrayal" "success"
                villager villager_is_valid) as T.
  cbv zeta in T. split; [exact villager_is_valid|exact (proj1 T)].
Defined.

Lemma balanced_summary_condition_witness :
  Valid.personality PersonalityTraits.default
  /\ PersonalityQueries.get_personality_summary PersonalityTraits.default
     = Ok "balanced personality".
Proof.
  pose proof (balanced_summary_condition PersonalityTraits.default
                default_personality_is_valid) as T.
  split; [exact default_personality_is_valid|].
  apply (proj2 T). split; repeat constructor; decide_order.
Defined.

Lemma healthy_means_no_urgent_need_witness :
  NPCQueries.get_physical_condition villager = "healthy"
  /\ NPCQueries.needs_immediate_attention villager = [].
Proof.
  pose proof (healthy_means_no_urgent_need villager) as T.
  assert (C : NPCQueries.get_physical_condition villager = "healthy")
    by reflexivity.
  split; [exact C|exact (proj1 (proj2 T) C)].
Defined.

End FurtherExamples.
